(** * Meeting scheduler backend: request handlers over a document store

    A shallow embedding of the Express handlers of the meeting scheduler
    ([src/unnamed/part_000], the full server, and [src/index.js], the
    earlier server without participants).  Each handler is a function from
    the verified caller, the request and the content of the [meetings]
    collection to an HTTP response and the new content of the collection.

    JavaScript values that come out of the JSON body parser are modelled by
    [Json]; numbers are IEEE-754 doubles ([spec_float]).  The parts of the
    JavaScript runtime the handlers call ([new Date], [isNaN],
    [toISOString], truthiness, [Array.prototype.includes]) are modelled
    below; [Date.parse] on strings outside the ECMAScript interchange format
    and [Number::toString] are left to the runtime ([Runtime]).

    What is taken as given: the authentication middleware has run, so a
    handler starts from the verified [uid]; the request body is the object
    the JSON parser produced, read through its fields; a document
    identifier is a plain name; the store accepts every value and answers
    without failure, except that an added identifier must be new and an
    updated document must exist; a query enumerates its matches in the
    order of the model's map, the order of the store being left open. *)

From Stdlib Require Import ZArith Bool List Ascii String SpecFloat Lia.
From stdpp Require Import base option list gmap strings fin_maps.

Set Warnings "-register-all".

Local Open Scope string_scope.
Local Open Scope Z_scope.

(** ** JSON values *)

Inductive Json : Type :=
  | JNull
  | JBool (b : bool)
  | JNum (x : spec_float)
  | JStr (s : string)
  | JArr (items : list Json)
  | JObj (fields : list (string * Json)).

(** ToBoolean: [undefined] is the absent field, handled by [truthy_opt]. *)
Definition truthy (v : Json) : bool :=
  match v with
  | JNull => false
  | JBool b => b
  | JNum (S754_zero _) => false
  | JNum S754_nan => false
  | JNum _ => true
  | JStr s => negb (String.eqb s "")
  | JArr _ => true
  | JObj _ => true
  end.

Definition truthy_opt (o : option Json) : bool :=
  match o with
  | None => false
  | Some v => truthy v
  end.

Definition num_same (x y : spec_float) : bool :=
  match x, y with
  | S754_nan, S754_nan => true
  | _, _ => SFeqb x y
  end.

(** SameValueZero, the comparison of [Array.prototype.includes].  An array
    or object decoded from a request or a document is a fresh reference,
    never identical to another one. *)
Definition same_value_zero (a b : Json) : bool :=
  match a, b with
  | JNull, JNull => true
  | JBool x, JBool y => Bool.eqb x y
  | JNum x, JNum y => num_same x y
  | JStr s, JStr t => String.eqb s t
  | _, _ => false
  end.

(** [===] between a decoded value and a string. *)
Definition strict_equals_string (a : Json) (s : string) : bool :=
  match a with
  | JStr t => String.eqb t s
  | _ => false
  end.

(** What a handler's [catch] can receive. *)
Inductive Thrown : Type :=
  | TypeError (what : string)
  | StoreError (code : string).

(** The outcome of [new Date(value)]: the conversion of the value threw, or
    the Date is an Invalid Date (the case [isNaN] detects), or it is the
    instant [t] in milliseconds. *)
Inductive DateResult : Type :=
  | DateThrown (e : Thrown)
  | InvalidDate
  | ValidDate (t : Z).

Definition date_of_time (o : option Z) : DateResult :=
  match o with
  | Some t => ValidDate t
  | None => InvalidDate
  end.

(** ** The runtime's Date *)

Class Runtime : Type := {
  (** [Date.parse]: the time value in milliseconds, [None] for NaN. *)
  Date_parse : string -> option Z;
  (** [Number::toString] (radix 10). *)
  Number_toString : spec_float -> string
}.

Definition join_with (sep : string) (parts : list string) : string :=
  match parts with
  | [] => ""
  | p :: ps => fold_left (fun acc q => acc +:+ sep +:+ q) ps p
  end.

Section JsRuntime.
Context {rt : Runtime}.

(** An own key [toString] of a decoded object: its value is no function,
    so the object cannot be converted to a primitive. *)
Definition has_own_toString (fields : list (string * Json)) : bool :=
  existsb (fun kv => String.eqb kv.1 "toString") fields.

(** ToString on decoded values, [inl] when it throws.  An array goes
    through [Array.prototype.join], which renders [null] elements as the
    empty string; an object is ["[object Object]"] unless it has an own
    [toString] key, and then ToPrimitive finds no method to call and throws
    a TypeError. *)
Fixpoint ToString (v : Json) : Thrown + string :=
  match v with
  | JNull => inr "null"
  | JBool true => inr "true"
  | JBool false => inr "false"
  | JNum x => inr (Number_toString x)
  | JStr s => inr s
  | JArr items =>
      match
        (fix join_items (l : list Json) : Thrown + list string :=
           match l with
           | [] => inr []
           | e :: rest =>
               match (match e with JNull => inr "" | _ => ToString e end) with
               | inl err => inl err
               | inr piece =>
                   match join_items rest with
                   | inl err => inl err
                   | inr pieces => inr (piece :: pieces)
                   end
               end
           end) items
      with
      | inl err => inl err
      | inr pieces => inr (join_with "," pieces)
      end
  | JObj fields =>
      if has_own_toString fields
      then inl (TypeError "Cannot convert object to primitive value")
      else inr "[object Object]"
  end.

(** TimeClip. *)
Definition TimeClip (t : Z) : option Z :=
  if Z.abs t <=? 8640000000000000 then Some t else None.

(** The integral part of a finite double, [None] for NaN and infinities. *)
Definition num_trunc (x : spec_float) : option Z :=
  match x with
  | S754_zero _ => Some 0
  | S754_finite s m e =>
      let mag := if 0 <=? e then Z.pos m * 2 ^ e else Z.pos m / 2 ^ (- e) in
      Some (if s then - mag else mag)
  | S754_infinity _ => None
  | S754_nan => None
  end.

(** [new Date(value)]: a string is parsed, a number, boolean or [null] is
    the time value itself, an array or object is first converted to a
    string (ToPrimitive), which can throw. *)
Definition new_Date (v : Json) : DateResult :=
  match v with
  | JStr s => date_of_time (Date_parse s ≫= TimeClip)
  | JNum x => date_of_time (num_trunc x ≫= TimeClip)
  | JBool true => ValidDate 1
  | JBool false => ValidDate 0
  | JNull => ValidDate 0
  | JArr _ | JObj _ =>
      match ToString v with
      | inl err => DateThrown err
      | inr s => date_of_time (Date_parse s ≫= TimeClip)
      end
  end.

End JsRuntime.

(** *** [Date.prototype.toISOString]

    The proleptic Gregorian calendar of ECMAScript's time values: day
    number to (year, month, day) and back, on era-of-400-years arithmetic
    with floor division. *)

Definition msPerDay : Z := 86400000.

Definition civil_from_days (day : Z) : Z * Z * Z :=
  let z := day + 719468 in
  let era := z / 146097 in
  let doe := z - era * 146097 in
  let yoe := (doe - doe / 1460 + doe / 36524 - doe / 146096) / 365 in
  let doy := doe - (365 * yoe + yoe / 4 - yoe / 100) in
  let mp := (5 * doy + 2) / 153 in
  let d := doy - (153 * mp + 2) / 5 + 1 in
  let m := if mp <? 10 then mp + 3 else mp - 9 in
  let y := yoe + era * 400 in
  (if m <=? 2 then y + 1 else y, m, d).

Definition days_from_civil (y m d : Z) : Z :=
  let y' := if m <=? 2 then y - 1 else y in
  let era := y' / 400 in
  let yoe := y' - era * 400 in
  let doy := (153 * (if 2 <? m then m - 3 else m + 9) + 2) / 5 + d - 1 in
  let doe := yoe * 365 + yoe / 4 - yoe / 100 + doy in
  era * 146097 + doe - 719468.

Definition digit_char (d : Z) : ascii := ascii_of_nat (48 + Z.to_nat d).

(** The last [width] decimal digits of [n], most significant first. *)
Fixpoint pad (width : nat) (n : Z) : string :=
  match width with
  | O => ""
  | S w => pad w (n / 10) +:+ String (digit_char (n mod 10)) ""
  end.

Definition year_string (y : Z) : string :=
  if (0 <=? y) && (y <=? 9999) then pad 4 y
  else (if y <? 0 then "-" else "+") +:+ pad 6 (Z.abs y).

Definition toISOString (t : Z) : string :=
  let day := t / msPerDay in
  let ms := t mod msPerDay in
  let '(y, m, d) := civil_from_days day in
  year_string y +:+ "-" +:+ pad 2 m +:+ "-" +:+ pad 2 d +:+ "T" +:+
  pad 2 (ms / 3600000) +:+ ":" +:+ pad 2 (ms / 60000 mod 60) +:+ ":" +:+
  pad 2 (ms / 1000 mod 60) +:+ "." +:+ pad 3 (ms mod 1000) +:+ "Z".

(** *** A reference runtime

    A [Date.parse] that accepts the two forms of the ECMAScript date-time
    string format the examples use, [YYYY-MM-DD] and
    [YYYY-MM-DDTHH:mm:ss.sssZ], and answers NaN on every other string; a
    [Number::toString] that prints the integral part in decimal (exact on
    integral values below 10^21, the only numbers the examples print). *)

Module RefRuntime.

Definition digit_val (c : ascii) : option Z :=
  let n := Z.of_nat (nat_of_ascii c) in
  if (48 <=? n) && (n <=? 57) then Some (n - 48) else None.

Fixpoint digits_val (s : string) (acc : Z) : option Z :=
  match s with
  | EmptyString => Some acc
  | String c s' => d ← digit_val c; digits_val s' (10 * acc + d)
  end.

Definition field (s : string) (start len : nat) : option Z :=
  let f := substring start len s in
  if Nat.eqb (String.length f) len then digits_val f 0 else None.

Definition sep (s : string) (pos : nat) (c : string) : bool :=
  String.eqb (substring pos 1 s) c.

Definition leap (y : Z) : bool :=
  ((y mod 4 =? 0) && negb (y mod 100 =? 0)) || (y mod 400 =? 0).

Definition days_in_month (y m : Z) : Z :=
  if m =? 2 then (if leap y then 29 else 28)
  else if (m =? 4) || (m =? 6) || (m =? 9) || (m =? 11) then 30 else 31.

Definition parse_date (s : string) : option Z :=
  y ← field s 0 4; m ← field s 5 2; d ← field s 8 2;
  if sep s 4 "-" && sep s 7 "-" && (1 <=? m) && (m <=? 12)
     && (1 <=? d) && (d <=? days_in_month y m)
  then Some (days_from_civil y m d * msPerDay) else None.

Definition parse_time (s : string) : option Z :=
  h ← field s 11 2; mi ← field s 14 2; sec ← field s 17 2; ms ← field s 20 3;
  if sep s 10 "T" && sep s 13 ":" && sep s 16 ":" && sep s 19 "." && sep s 23 "Z"
     && (mi <=? 59) && (sec <=? 59)
     && ((h <=? 23) || ((h =? 24) && (mi =? 0) && (sec =? 0) && (ms =? 0)))
  then Some (h * 3600000 + mi * 60000 + sec * 1000 + ms) else None.

Definition parse (s : string) : option Z :=
  if Nat.eqb (String.length s) 10 then parse_date s
  else if Nat.eqb (String.length s) 24 then
    day ← parse_date (substring 0 10 s); t ← parse_time s; Some (day + t)
  else None.

Fixpoint decimal (fuel : nat) (n : Z) : string :=
  match fuel with
  | O => ""
  | S f =>
      if n <? 10 then String (digit_char n) ""
      else decimal f (n / 10) +:+ String (digit_char (n mod 10)) ""
  end.

Definition number_toString (x : spec_float) : string :=
  match x with
  | S754_zero _ => "0"
  | S754_nan => "NaN"
  | S754_infinity false => "Infinity"
  | S754_infinity true => "-Infinity"
  | S754_finite s m e =>
      let mag := if 0 <=? e then Z.pos m * 2 ^ e else Z.pos m / 2 ^ (- e) in
      (if s then "-" else "") +:+ decimal 400 mag
  end.

Definition runtime : Runtime :=
  {| Date_parse := parse; Number_toString := number_toString |}.

End RefRuntime.


(** ** The document store

    The [meetings] collection of the external document database: document
    identifier to document, a document being a map from field names to
    values.  The store is modelled as accepting every value it is handed. *)

Inductive FsValue : Type :=
  | FJson (j : Json)
  | FTimestamp (ms : Z).

(** What a write hands to the store: a value, or the sentinel
    [admin.firestore.FieldValue.serverTimestamp()]. *)
Inductive WriteValue : Type :=
  | WValue (v : FsValue)
  | WServerTimestamp.

Abbreviation Doc := (gmap string FsValue).
Abbreviation WriteData := (gmap string WriteValue).
Abbreviation Store := (gmap string Doc).
Abbreviation Fields := (gmap string Json).

(** What one request reads from its environment: the successive readings of
    the process clock ([new Date()]), the time the store stamps on a write,
    and the identifier the store draws for an added document. *)
Record Env : Type := {
  wall_clock : nat -> Z;
  server_time : Z;
  auto_id : string
}.

Inductive Payload : Type :=
  | PNone
  | PMeeting (meeting : Doc)
  | PParticipants (participants : list Json).

Inductive Body : Type :=
  | BError (error : string) (details : option Thrown)
  | BSuccess (message : string) (payload : Payload)
  | BMeetings (meetings : list Doc)
  | BRecord (meeting : Doc).

Record Response : Type := { status : nat; body : Body }.

(** ** Handler bodies: store state, early responses, exceptions *)

Inductive Step (A : Type) : Type :=
  | Next (a : A)
  | Done (r : Response)
  | Raise (e : Thrown).
Arguments Next {A} a.
Arguments Done {A} r.
Arguments Raise {A} e.

Definition Handler (A : Type) : Type := Store -> Step A * Store.

#[global] Instance handler_ret : MRet Handler :=
  fun A a s => (Next a, s).

#[global] Instance handler_bind : MBind Handler :=
  fun A B k m s =>
    match m s with
    | (Next a, s') => k a s'
    | (Done r, s') => (Done r, s')
    | (Raise e, s') => (Raise e, s')
    end.

(** [return res.status(code).json(body)] *)
Definition respond {A} (code : nat) (b : Body) : Handler A :=
  fun s => (Done {| status := code; body := b |}, s).

Definition throw {A} (e : Thrown) : Handler A :=
  fun s => (Raise e, s).

(** [try { ... } catch (error) { res.status(500).json(...) }] *)
Definition try_catch (failure : string) (h : Handler Empty_set) (s : Store)
  : Response * Store :=
  match h s with
  | (Next a, _) => match a with end
  | (Done r, s') => (r, s')
  | (Raise e, s') => ({| status := 500; body := BError failure (Some e) |}, s')
  end.

(** *** Store operations *)

Definition resolve (env : Env) (w : WriteValue) : FsValue :=
  match w with
  | WValue v => v
  | WServerTimestamp => FTimestamp (server_time env)
  end.

(** [meetingRef.get()]: [None] when [!snap.exists]. *)
Definition doc_get (id : string) : Handler (option Doc) :=
  fun s => (Next (s !! id), s).

(** [collection.add(data)] *)
Definition collection_add (env : Env) (data : WriteData) : Handler string :=
  fun s =>
    match s !! auto_id env with
    | None => (Next (auto_id env), <[auto_id env := resolve env <$> data]> s)
    | Some _ => (Raise (StoreError "ALREADY_EXISTS"), s)
    end.

(** [meetingRef.update(data)]: the named fields are overwritten. *)
Definition doc_update (env : Env) (id : string) (data : WriteData) : Handler unit :=
  fun s =>
    match s !! id with
    | Some d => (Next tt, <[id := (resolve env <$> data) ∪ d]> s)
    | None => (Raise (StoreError "NOT_FOUND"), s)
    end.

(** [meetingRef.delete()] *)
Definition doc_delete (id : string) : Handler unit :=
  fun s => (Next tt, delete id s).

(** [collection.where(...).get()] *)
Definition query (matches : Doc -> bool) : Handler (list (string * Doc)) :=
  fun s => (Next (List.filter (fun kv => matches kv.2) (map_to_list s)), s).

Definition where_eq (field value : string) (d : Doc) : bool :=
  match d !! field with
  | Some (FJson (JStr s)) => String.eqb s value
  | _ => false
  end.

Definition where_array_contains (field value : string) (d : Doc) : bool :=
  match d !! field with
  | Some (FJson (JArr items)) => existsb (same_value_zero (JStr value)) items
  | _ => false
  end.

(** *** JavaScript on document values *)

Definition fs_truthy (v : FsValue) : bool :=
  match v with
  | FJson j => truthy j
  | FTimestamp _ => true
  end.

(** [value] when it is truthy, as in [if (!value) return ...]. *)
Definition truthy_value (o : option Json) : option Json :=
  match o with
  | Some v => if truthy v then Some v else None
  | None => None
  end.

(** [value || dflt] *)
Definition or_default (o : option Json) (dflt : Json) : Json :=
  match truthy_value o with
  | Some v => v
  | None => dflt
  end.

Definition fs_or_default (o : option FsValue) (dflt : FsValue) : FsValue :=
  match o with
  | Some v => if fs_truthy v then v else dflt
  | None => dflt
  end.

(** [meetingData.createdBy === userId] *)
Definition is_creator (d : Doc) (userId : string) : bool :=
  where_eq "createdBy" userId d.

Definition is_substring (needle hay : string) : bool :=
  match String.index 0 needle hay with
  | Some _ => true
  | None => false
  end.

(** A value of the request as the data of a write. *)
Definition written (v : Json) : WriteValue := WValue (FJson v).

(** [if (value !== undefined) data[key] = value] *)
Definition set_if_defined {V} (key : string) (value : option V)
    (data : gmap string V) : gmap string V :=
  match value with
  | Some v => <[key := v]> data
  | None => data
  end.

(** [{ id, ...data }] *)
Definition with_id (id : string) (data : Doc) : Doc :=
  data ∪ {[ "id" := FJson (JStr id) ]}.

(** [{ ...data }] of the data of a write, for the response of a create: the
    sentinels sit under the keys that the literal then overwrites. *)
Definition spread_values (data : WriteData) : Doc :=
  omap (fun w => match w with WValue v => Some v | WServerTimestamp => None end) data.

(** [ts ? ts.toDate().toISOString() : null] *)
Definition shape_timestamp (o : option FsValue) : Handler Json :=
  match o with
  | None => mret JNull
  | Some (FTimestamp t) => mret (JStr (toISOString t))
  | Some (FJson j) =>
      if truthy j then throw (TypeError "toDate is not a function") else mret JNull
  end.

(** [{ id, ...data, createdAt: ..., updatedAt: ... }] *)
Definition shape (id : string) (data : Doc) : Handler Doc :=
  c ← shape_timestamp (data !! "createdAt");
  u ← shape_timestamp (data !! "updatedAt");
  mret (<["updatedAt" := FJson u]> (<["createdAt" := FJson c]> (with_id id data))).

(** [snapshot.forEach(doc => meetings.push(shape(doc)))] *)
Fixpoint shape_all (docs : list (string * Doc)) : Handler (list Doc) :=
  match docs with
  | [] => mret []
  | (id, d) :: rest =>
      m ← shape id d;
      ms ← shape_all rest;
      mret (m :: ms)
  end.

(** ** The handlers of [src/unnamed/part_000] *)

Section Handlers.
Context {rt : Runtime}.

(** [receiver.includes(arg)] *)
Definition js_includes (receiver : FsValue) (arg : Json) : Handler bool :=
  match receiver with
  | FJson (JArr items) => mret (existsb (same_value_zero arg) items)
  | FJson (JStr s) =>
      match ToString arg with
      | inl err => throw err
      | inr needle => mret (is_substring needle s)
      end
  | _ => throw (TypeError "includes is not a function")
  end.

(** [receiver.push(arg)]: the array after the push. *)
Definition js_push (receiver : FsValue) (arg : Json) : Handler (list Json) :=
  match receiver with
  | FJson (JArr items) => mret (items ++ [arg])%list
  | _ => throw (TypeError "push is not a function")
  end.

(** [receiver.filter(keep)] *)
Definition js_filter (receiver : FsValue) (keep : Json -> bool) : Handler (list Json) :=
  match receiver with
  | FJson (JArr items) => mret (List.filter keep items)
  | _ => throw (TypeError "filter is not a function")
  end.

(** [app.post('/api/meetings', ...)] *)
Definition create_meeting_body (env : Env) (uid : string) (body : Fields)
  : Handler Empty_set :=
  match truthy_value (body !! "title") with
  | None => respond 400 (BError "Meeting title is required" None)
  | Some title =>
      let meetingDate :=
        match truthy_value (body !! "date") with
        | Some date => new_Date date
        | None => ValidDate (wall_clock env 0)
        end in
      (* the readings of the clock made so far *)
      let read : nat :=
        match truthy_value (body !! "date") with
        | Some _ => 0%nat
        | None => 1%nat
        end in
      match meetingDate with
      | DateThrown err => throw err
      | InvalidDate => respond 400 (BError "Invalid date format" None)
      | ValidDate t =>
          let meetingData : WriteData :=
            <["title" := WValue (FJson title)]>
            (<["date" := WValue (FJson (JStr (toISOString t)))]>
            (<["location" := WValue (FJson (or_default (body !! "location") (JStr "")))]>
            (<["notes" := WValue (FJson (or_default (body !! "notes") (JStr "")))]>
            (<["participants" :=
                 WValue (FJson (or_default (body !! "participants") (JArr [])))]>
            (<["createdBy" := WValue (FJson (JStr uid))]>
            (<["createdAt" := WServerTimestamp]>
            (<["updatedAt" := WServerTimestamp]> ∅))))))) in
          id ← collection_add env meetingData;
          respond 201 (BSuccess "Meeting created successfully" (PMeeting
            (<["updatedAt" := FJson (JStr (toISOString (wall_clock env (S read))))]>
            (<["createdAt" := FJson (JStr (toISOString (wall_clock env read)))]>
            (with_id id (spread_values meetingData))))))
      end
  end.

Definition create_meeting (env : Env) (uid : string) (body : Fields) :=
  try_catch "Failed to create meeting" (create_meeting_body env uid body).

(** [app.get('/api/meetings', ...)] *)
Definition list_owned_body (uid : string) : Handler Empty_set :=
  docs ← query (where_eq "createdBy" uid);
  meetings ← shape_all docs;
  respond 200 (BMeetings meetings).

Definition list_owned (uid : string) :=
  try_catch "Failed to retrieve meetings" (list_owned_body uid).

(** [app.get('/api/meetings/participating', ...)] *)
Definition list_participating_body (uid : string) : Handler Empty_set :=
  docs ← query (where_array_contains "participants" uid);
  meetings ← shape_all docs;
  respond 200 (BMeetings meetings).

Definition list_participating (uid : string) :=
  try_catch "Failed to retrieve meetings" (list_participating_body uid).

(** [!meetingData.participants?.includes(userId)], negated back. *)
Definition optional_includes (o : option FsValue) (arg : Json) : Handler bool :=
  match o with
  | None => mret false
  | Some (FJson JNull) => mret false
  | Some v => js_includes v arg
  end.

(** [app.get('/api/meetings/:id', ...)] *)
Definition get_meeting_body (uid id : string) : Handler Empty_set :=
  snap ← doc_get id;
  match snap with
  | None => respond 404 (BError "Meeting not found" None)
  | Some meetingData =>
      listed ←
        (if is_creator meetingData uid then mret true
         else optional_includes (meetingData !! "participants") (JStr uid));
      if negb (listed : bool) then respond 403 (BError "Access denied" None)
      else
        m ← shape id meetingData;
        respond 200 (BRecord m)
  end.

Definition get_meeting (uid id : string) :=
  try_catch "Failed to retrieve meeting" (get_meeting_body uid id).

(** The outcome of the date validation of an update: the conversion threw,
    the supplied date is invalid, or the date to write (the stored one when
    none is supplied). *)
Inductive DateCheck : Type :=
  | CheckThrown (e : Thrown)
  | CheckInvalid
  | CheckOk (date : option FsValue).

Definition update_date (body : Fields) (meetingData : Doc) : DateCheck :=
  match truthy_value (body !! "date") with
  | Some date =>
      match new_Date date with
      | DateThrown err => CheckThrown err
      | InvalidDate => CheckInvalid
      | ValidDate t => CheckOk (Some (FJson (JStr (toISOString t))))
      end
  | None => CheckOk (meetingData !! "date")
  end.

(** [app.put('/api/meetings/:id', ...)] *)
Definition update_meeting_body (env : Env) (uid id : string) (body : Fields)
  : Handler Empty_set :=
  snap ← doc_get id;
  match snap with
  | None => respond 404 (BError "Meeting not found" None)
  | Some meetingData =>
      if negb (is_creator meetingData uid)
      then respond 403 (BError "Only the meeting creator can update it" None)
      else
        match update_date body meetingData with
        | CheckThrown err => throw err
        | CheckInvalid => respond 400 (BError "Invalid date format" None)
        | CheckOk meetingDate =>
            let updateData : WriteData :=
              set_if_defined "participants" (written <$> body !! "participants")
              (set_if_defined "notes" (written <$> body !! "notes")
              (set_if_defined "location" (written <$> body !! "location")
              (set_if_defined "date" (WValue <$> meetingDate)
              (set_if_defined "title" (written <$> body !! "title")
              (<["updatedAt" := WServerTimestamp]> ∅))))) in
            doc_update env id updateData;;
            updated ← doc_get id;
            match updated with
            | None => throw (TypeError "Cannot read properties of undefined")
            | Some updatedMeetingData =>
                m ← shape id updatedMeetingData;
                respond 200 (BSuccess "Meeting updated successfully" (PMeeting m))
            end
        end
  end.

Definition update_meeting (env : Env) (uid id : string) (body : Fields) :=
  try_catch "Failed to update meeting" (update_meeting_body env uid id body).

(** [app.delete('/api/meetings/:id', ...)] *)
Definition delete_meeting_body (uid id : string) : Handler Empty_set :=
  snap ← doc_get id;
  match snap with
  | None => respond 404 (BError "Meeting not found" None)
  | Some meetingData =>
      if negb (is_creator meetingData uid)
      then respond 403 (BError "Only the meeting creator can delete it" None)
      else
        doc_delete id;;
        respond 200 (BSuccess "Meeting deleted successfully" PNone)
  end.

Definition delete_meeting (uid id : string) :=
  try_catch "Failed to delete meeting" (delete_meeting_body uid id).

(** [app.post('/api/meetings/:id/participants', ...)] *)
Definition add_participant_body (env : Env) (uid id : string) (body : Fields)
  : Handler Empty_set :=
  match truthy_value (body !! "participantId") with
  | None => respond 400 (BError "Participant ID is required" None)
  | Some participantId =>
      snap ← doc_get id;
      match snap with
      | None => respond 404 (BError "Meeting not found" None)
      | Some meetingData =>
          if negb (is_creator meetingData uid)
          then respond 403 (BError "Only the meeting creator can add participants" None)
          else
            let participants :=
              fs_or_default (meetingData !! "participants") (FJson (JArr [])) in
            present ← js_includes participants participantId;
            if (present : bool)
            then respond 400 (BError "Participant already added to meeting" None)
            else
              pushed ← js_push participants participantId;
              doc_update env id
                (<["participants" := written (JArr pushed)]>
                (<["updatedAt" := WServerTimestamp]> ∅));;
              respond 200 (BSuccess "Participant added successfully" (PParticipants pushed))
      end
  end.

Definition add_participant (env : Env) (uid id : string) (body : Fields) :=
  try_catch "Failed to add participant" (add_participant_body env uid id body).

(** [app.delete('/api/meetings/:id/participants/:participantId', ...)] *)
Definition remove_participant_body (env : Env) (uid id participantId : string)
  : Handler Empty_set :=
  snap ← doc_get id;
  match snap with
  | None => respond 404 (BError "Meeting not found" None)
  | Some meetingData =>
      if negb (is_creator meetingData uid) && negb (String.eqb uid participantId)
      then respond 403 (BError "Unauthorized to remove this participant" None)
      else
        let participants :=
          fs_or_default (meetingData !! "participants") (FJson (JArr [])) in
        present ← js_includes participants (JStr participantId);
        if negb (present : bool)
        then respond 400 (BError "Participant not found in meeting" None)
        else
          updatedParticipants ←
            js_filter participants (fun p => negb (strict_equals_string p participantId));
          doc_update env id
            (<["participants" := written (JArr updatedParticipants)]>
            (<["updatedAt" := WServerTimestamp]> ∅));;
          respond 200
            (BSuccess "Participant removed successfully" (PParticipants updatedParticipants))
  end.

Definition remove_participant (env : Env) (uid id participantId : string) :=
  try_catch "Failed to remove participant" (remove_participant_body env uid id participantId).

End Handlers.

(** ** The create handler of [src/index.js]

    The earlier server: no [participants] in the request, the list always
    starts empty. *)

Module IndexJs.
Section Handlers.
Context {rt : Runtime}.

(** [app.post('/api/meetings', ...)] *)
Definition create_meeting_body (env : Env) (uid : string) (body : Fields)
  : Handler Empty_set :=
  match truthy_value (body !! "title") with
  | None => respond 400 (BError "Meeting title is required" None)
  | Some title =>
      let meetingDate :=
        match truthy_value (body !! "date") with
        | Some date => new_Date date
        | None => ValidDate (wall_clock env 0)
        end in
      (* the readings of the clock made so far *)
      let read : nat :=
        match truthy_value (body !! "date") with
        | Some _ => 0%nat
        | None => 1%nat
        end in
      match meetingDate with
      | DateThrown err => throw err
      | InvalidDate => respond 400 (BError "Invalid date format" None)
      | ValidDate t =>
          let meetingData : WriteData :=
            <["title" := WValue (FJson title)]>
            (<["date" := WValue (FJson (JStr (toISOString t)))]>
            (<["location" := WValue (FJson (or_default (body !! "location") (JStr "")))]>
            (<["notes" := WValue (FJson (or_default (body !! "notes") (JStr "")))]>
            (<["participants" := WValue (FJson (JArr []))]>
            (<["createdBy" := WValue (FJson (JStr uid))]>
            (<["createdAt" := WServerTimestamp]>
            (<["updatedAt" := WServerTimestamp]> ∅))))))) in
          id ← collection_add env meetingData;
          respond 201 (BSuccess "Meeting created successfully" (PMeeting
            (<["updatedAt" := FJson (JStr (toISOString (wall_clock env (S read))))]>
            (<["createdAt" := FJson (JStr (toISOString (wall_clock env read)))]>
            (with_id id (spread_values meetingData))))))
      end
  end.

Definition create_meeting (env : Env) (uid : string) (body : Fields) :=
  try_catch "Failed to create meeting" (create_meeting_body env uid body).

(** [app.put('/api/meetings/:id', ...)]: no [participants] in the update. *)
Definition update_meeting_body (env : Env) (uid id : string) (body : Fields)
  : Handler Empty_set :=
  snap ← doc_get id;
  match snap with
  | None => respond 404 (BError "Meeting not found" None)
  | Some meetingData =>
      if negb (is_creator meetingData uid)
      then respond 403 (BError "Only the meeting creator can update it" None)
      else
        match update_date body meetingData with
        | CheckThrown err => throw err
        | CheckInvalid => respond 400 (BError "Invalid date format" None)
        | CheckOk meetingDate =>
            let updateData : WriteData :=
              set_if_defined "notes" (written <$> body !! "notes")
              (set_if_defined "location" (written <$> body !! "location")
              (set_if_defined "date" (WValue <$> meetingDate)
              (set_if_defined "title" (written <$> body !! "title")
              (<["updatedAt" := WServerTimestamp]> ∅)))) in
            doc_update env id updateData;;
            updated ← doc_get id;
            match updated with
            | None => throw (TypeError "Cannot read properties of undefined")
            | Some updatedMeetingData =>
                m ← shape id updatedMeetingData;
                respond 200 (BSuccess "Meeting updated successfully" (PMeeting m))
            end
        end
  end.

Definition update_meeting (env : Env) (uid id : string) (body : Fields) :=
  try_catch "Failed to update meeting" (update_meeting_body env uid id body).

(** [app.delete('/api/meetings/:id', ...)] *)
Definition delete_meeting_body (uid id : string) : Handler Empty_set :=
  snap ← doc_get id;
  match snap with
  | None => respond 404 (BError "Meeting not found" None)
  | Some meetingData =>
      if negb (is_creator meetingData uid)
      then respond 403 (BError "Only the meeting creator can delete it" None)
      else
        doc_delete id;;
        respond 200 (BSuccess "Meeting deleted successfully" PNone)
  end.

Definition delete_meeting (uid id : string) :=
  try_catch "Failed to delete meeting" (delete_meeting_body uid id).

End Handlers.
End IndexJs.

(** ** The authentication middleware (both servers) *)

(** [s.split(sep)] for a separator that is not empty: the pieces between
    the successive occurrences of [sep], found from the left.  [skip]
    counts the characters of a found separator still to pass, [piece] is
    the piece read so far. *)
Fixpoint js_split_from (sep s : string) (skip : nat) (piece : string) : list string :=
  match s with
  | EmptyString => [piece]
  | String c s' =>
      match skip with
      | S k => js_split_from sep s' k piece
      | O =>
          if String.prefix sep s
          then piece :: js_split_from sep s' (Nat.pred (String.length sep)) ""
          else js_split_from sep s' O (piece +:+ String c "")
      end
  end.

Definition js_split (sep s : string) : list string := js_split_from sep s 0 "".

Definition unauthorized (message : string) : Response :=
  {| status := 401; body := BError message None |}.

Section Gate.
(** [auth.verifyIdToken]: the [uid] of the decoded token, [None] when the
    verifier rejects (the promise is rejected and the [catch] answers). *)
Variable verifyIdToken : string -> option string.

(** [authenticateUser]: the response it sends, or the [uid] it leaves in
    [req.user] before calling [next()].  [authorization] is
    [req.headers.authorization], [None] when the header is not there. *)
Definition authenticateUser (authorization : option string) : Response + string :=
  match authorization with
  | None => inl (unauthorized "Unauthorized - Missing or invalid token format")
  | Some authHeader =>
      if String.eqb authHeader "" || negb (String.prefix "Bearer " authHeader)
      then inl (unauthorized "Unauthorized - Missing or invalid token format")
      else
        match js_split "Bearer " authHeader !! 1%nat with
        | None => inl (unauthorized "Unauthorized - Invalid token")
        | Some token =>
            match verifyIdToken token with
            | Some uid => inr uid
            | None => inl (unauthorized "Unauthorized - Invalid token")
            end
        end
  end.

(** [app.METHOD(path, authenticateUser, handler)] *)
Definition protected (authorization : option string)
    (handler : string -> Store -> Response * Store) (store : Store)
  : Response * Store :=
  match authenticateUser authorization with
  | inl r => (r, store)
  | inr uid => handler uid store
  end.

End Gate.

(** No space in a string, as in a token of the verifier. *)
Fixpoint space_free (s : string) : bool :=
  match s with
  | EmptyString => true
  | String c s' => negb (Ascii.eqb c " ") && space_free s'
  end.


(** ** Reading a handler run *)

Definition response_of (run : Response * Store) : Response := run.1.
Definition store_after (run : Response * Store) : Store := run.2.

(** The participants of a record as a sequence: an absent field counts as
    the empty sequence, a field that is not an array has none. *)
Definition participants_of (d : Doc) : option (list Json) :=
  match d !! "participants" with
  | None => Some []
  | Some (FJson (JArr items)) => Some items
  | Some _ => None
  end.

(** The timestamps of a record as the handlers render them when both are
    store timestamps or missing. *)
Definition render_timestamp (o : option FsValue) : Json :=
  match o with
  | Some (FTimestamp t) => JStr (toISOString t)
  | _ => JNull
  end.

Definition rendered (id : string) (d : Doc) : Doc :=
  <["updatedAt" := FJson (render_timestamp (d !! "updatedAt"))]>
  (<["createdAt" := FJson (render_timestamp (d !! "createdAt"))]> (with_id id d)).

(** A record carries both of its server-assigned timestamps. *)
Definition stamped (d : Doc) : Prop :=
  (∃ c, d !! "createdAt" = Some (FTimestamp c)) ∧
  (∃ u, d !! "updatedAt" = Some (FTimestamp u)).

(** The record [create_meeting] of [src/unnamed/part_000] stores. *)
Definition created_record (env : Env) (uid : string) (body : Fields)
    (title : Json) (t : Z) : Doc :=
  <["title" := FJson title]>
  (<["date" := FJson (JStr (toISOString t))]>
  (<["location" := FJson (or_default (body !! "location") (JStr ""))]>
  (<["notes" := FJson (or_default (body !! "notes") (JStr ""))]>
  (<["participants" := FJson (or_default (body !! "participants") (JArr []))]>
  (<["createdBy" := FJson (JStr uid)]>
  (<["createdAt" := FTimestamp (server_time env)]>
  (<["updatedAt" := FTimestamp (server_time env)]> ∅))))))).

(** The record [create_meeting] of [src/index.js] stores. *)
Definition created_record_index (env : Env) (uid : string) (body : Fields)
    (title : Json) (t : Z) : Doc :=
  <["participants" := FJson (JArr [])]> (created_record env uid body title t).

(** The record an accepted update leaves: [date] is the date the handler
    decided to write (the prior one when none was supplied). *)
Definition updated_record (env : Env) (body : Fields) (date : option FsValue)
    (d : Doc) : Doc :=
  set_if_defined "participants" (FJson <$> body !! "participants")
  (set_if_defined "notes" (FJson <$> body !! "notes")
  (set_if_defined "location" (FJson <$> body !! "location")
  (set_if_defined "date" date
  (set_if_defined "title" (FJson <$> body !! "title")
  (<["updatedAt" := FTimestamp (server_time env)]> d))))).

(** The record a participant change leaves. *)
Definition with_participants (env : Env) (ps : list Json) (d : Doc) : Doc :=
  <["participants" := FJson (JArr ps)]>
  (<["updatedAt" := FTimestamp (server_time env)]> d).

(** A handler step that leaves the collection as it found it. *)
Definition reads {A} (h : Handler A) : Prop := ∀ s, (h s).2 = s.

(** The caller created the record; the caller is among its participants. *)
Definition owned_by (uid : string) (d : Doc) : Prop :=
  d !! "createdBy" = Some (FJson (JStr uid)).

Definition participating (uid : string) (d : Doc) : Prop :=
  ∃ items, d !! "participants" = Some (FJson (JArr items)) ∧ JStr uid ∈ items.

#[global] Instance json_eq_string_dec (x : Json) (s : string) : Decision (x = JStr s).
Proof.
  refine (match x with
          | JStr t => cast_if (decide (t = s))
          | _ => right _
          end); congruence.
Defined.

(** [meetingData.participants || []] when that is an array: the sequence
    Add-Participant and Remove-Participant work on, an absent or falsy field
    being read as the empty one; [None] for any other value. *)
Definition participants_or_empty (d : Doc) : option (list Json) :=
  match fs_or_default (d !! "participants") (FJson (JArr [])) with
  | FJson (JArr items) => Some items
  | _ => None
  end.

(** The stored values that have an [includes] method: arrays and strings.
    On a number, a boolean, an object or a store timestamp the call
    [participants.includes(...)] throws, and on [null] it does unless [?.]
    guards it. *)
Definition has_includes (v : FsValue) : bool :=
  match v with
  | FJson (JArr _) | FJson (JStr _) => true
  | _ => false
  end.


(** The record [update_meeting] of [src/index.js] leaves. *)
Definition updated_record_index (env : Env) (body : Fields) (date : option FsValue)
    (d : Doc) : Doc :=
  set_if_defined "notes" (FJson <$> body !! "notes")
  (set_if_defined "location" (FJson <$> body !! "location")
  (set_if_defined "date" date
  (set_if_defined "title" (FJson <$> body !! "title")
  (<["updatedAt" := FTimestamp (server_time env)]> d)))).

(** ** Histories

    The requests that write, and the collection a history of them builds
    from the empty one on the server of [src/unnamed/part_000]. *)

Inductive Request : Type :=
  | Create (env : Env) (uid : string) (body : Fields)
  | Update (env : Env) (uid id : string) (body : Fields)
  | Delete (uid id : string)
  | AddParticipant (env : Env) (uid id : string) (body : Fields)
  | RemoveParticipant (env : Env) (uid id participantId : string).

Section Histories.
Context {rt : Runtime}.

Definition serve (store : Store) (r : Request) : Store :=
  match r with
  | Create env uid body => store_after (create_meeting env uid body store)
  | Update env uid id body => store_after (update_meeting env uid id body store)
  | Delete uid id => store_after (delete_meeting uid id store)
  | AddParticipant env uid id body =>
      store_after (add_participant env uid id body store)
  | RemoveParticipant env uid id pid =>
      store_after (remove_participant env uid id pid store)
  end.

Definition history (requests : list Request) : Store :=
  fold_left serve requests ∅.

End Histories.

(** The record a writing request addresses. *)
Definition target (r : Request) : string :=
  match r with
  | Create env _ _ => auto_id env
  | Update _ _ id _ => id
  | Delete _ id => id
  | AddParticipant _ _ id _ => id
  | RemoveParticipant _ _ id _ => id
  end.

(** The instant a create request asks for: the clock when [date] is
    omitted or falsy, the value of [new Date(date)] otherwise. *)
Definition requested_date {rt : Runtime} (env : Env) (body : Fields) (t : Z) : Prop :=
  (truthy_opt (body !! "date") = false ∧ t = wall_clock env 0)
  ∨ (∃ date,
        body !! "date" = Some date ∧ truthy date = true ∧ new_Date date = ValidDate t).

(** What may follow a token in the header: nothing, or the prefix again. *)
Definition token_end (rest : string) : Prop :=
  rest = "" ∨ ∃ b, rest = "Bearer " +:+ b.

(** ** Examples *)

Module Examples.

Definition env : Env :=
  {| wall_clock := fun _ => 1714557600000;
     server_time := 1714557600123;
     auto_id := "m1" |}.

Definition later : Env :=
  {| wall_clock := fun _ => 1714561200000;
     server_time := 1714561200456;
     auto_id := "m2" |}.

(** The collection after alice created a meeting with bob in it. *)
Definition standup : Fields :=
  <["title" := JStr "Standup"]>
  (<["date" := JStr "2024-05-02T09:30:00.000Z"]>
  (<["participants" := JArr [JStr "bob"]]> ∅)).

Definition store1 : Store :=
  store_after (create_meeting (rt := RefRuntime.runtime) env "alice" standup ∅).

Definition meeting1 : Doc :=
  created_record env "alice" standup (JStr "Standup") 1714642200000.

Definition titled : Fields := <["title" := JStr "Standup"]> ∅.
Definition untitled : Fields := <["location" := JStr "Room 2"]> ∅.
Definition empty_title : Fields := <["title" := JStr ""]> ∅.
Definition empty_date : Fields := <["date" := JStr ""]> titled.
Definition bad_date : Fields := <["date" := JStr "next tuesday"]> titled.

Definition only_location : Fields := <["location" := JStr "Room 2"]> ∅.
Definition bad_date_and_location : Fields :=
  <["date" := JStr "next tuesday"]> only_location.
Definition empty_date_and_location : Fields :=
  <["date" := JStr ""]> only_location.
Definition bob_twice : Fields := <["participants" := JArr [JStr "bob"; JStr "bob"]]> ∅.

Definition add_carol : Fields := <["participantId" := JStr "carol"]> ∅.
Definition add_bob : Fields := <["participantId" := JStr "bob"]> ∅.
Definition add_nobody : Fields := <["participantId" := JStr ""]> ∅.

(** The collection after alice replaced the participants by bob twice,
    then added carol. *)
Definition store2 : Store :=
  store_after (update_meeting (rt := RefRuntime.runtime) later "alice" "m1" bob_twice store1).

Definition store3 : Store :=
  store_after (add_participant (rt := RefRuntime.runtime) later "alice" "m1" add_carol store2).

(** The collection after alice put herself and bob in her meeting. *)
Definition alice_and_bob : Fields :=
  <["participants" := JArr [JStr "alice"; JStr "bob"]]> ∅.

Definition shared : Store :=
  store_after
    (update_meeting (rt := RefRuntime.runtime) later "alice" "m1" alice_and_bob store1).

End Examples.

Module Scenarios.

(** A verifier that knows one token. *)
Definition verify (token : string) : option string :=
  if String.eqb token "token-of-alice" then Some "alice" else None.

(** A handler that answers with the caller it was given. *)
Definition whoami (uid : string) (store : Store) : Response * Store :=
  ({| status := 200; body := BSuccess uid PNone |}, store).

(** A create request with fields the handler does not read. *)
Definition retro : Fields :=
  <["title" := JStr "Retro"]>
  (<["date" := JStr "2024-06-01"]>
  (<["createdBy" := JStr "mallory"]>
  (<["admin" := JBool true]> ∅))).

Definition retro_record : Doc :=
  created_record Examples.later "carol" retro (JStr "Retro") 1717200000000.

(** A create request whose [participants] is a string. *)
Definition loose : Fields :=
  <["title" := JStr "Planning"]> (<["participants" := JStr "alice,bob"]> ∅).

Definition loose_record : Doc :=
  created_record Examples.env "carol" loose (JStr "Planning") 1714557600000.

Definition loose_store : Store :=
  store_after (create_meeting (rt := RefRuntime.runtime) Examples.env "carol" loose ∅).

Definition add_dave : Fields := <["participantId" := JStr "dave"]> ∅.

(** A create request whose [participants] is the number 5. *)
Definition counted : Fields :=
  <["title" := JStr "Planning"]> (<["participants" := JNum (S754_finite false 5 0)]> ∅).

Definition counted_record : Doc :=
  created_record Examples.env "carol" counted (JStr "Planning") 1714557600000.

Definition counted_store : Store :=
  store_after (create_meeting (rt := RefRuntime.runtime) Examples.env "carol" counted ∅).

(** Requests whose [date] is an object with a [toString] key. *)
Definition odd_date : Fields :=
  <["date" := JObj [("toString", JNum (S754_finite false 1 0))]]> Examples.titled.

Definition odd_date_and_location : Fields :=
  <["date" := JObj [("toString", JNum (S754_finite false 1 0))]]> Examples.only_location.

(** The collection after carol created the retro beside alice's meeting. *)
Definition two : Store :=
  store_after
    (create_meeting (rt := RefRuntime.runtime) Examples.later "carol" retro Examples.store1).

(** An update that names a new creator. *)
Definition takeover : Fields :=
  <["createdBy" := JStr "mallory"]> (<["title" := JStr "Mine"]> ∅).

Definition taken_record : Doc :=
  updated_record Examples.later takeover (Examples.meeting1 !! "date") Examples.meeting1.

End Scenarios.

(** ** The runtime model on known values *)

(** Instants and their renderings as JavaScript prints them: the epoch and
    the millisecond before it, a leap day, the two ends of the range of
    time values, and the first instants outside the four-digit years. *)
Lemma toISOString_known :
  toISOString 0 = "1970-01-01T00:00:00.000Z"
  ∧ toISOString (-1) = "1969-12-31T23:59:59.999Z"
  ∧ toISOString 951782400000 = "2000-02-29T00:00:00.000Z"
  ∧ toISOString 1714557600123 = "2024-05-01T10:00:00.123Z"
  ∧ toISOString 8640000000000000 = "+275760-09-13T00:00:00.000Z"
  ∧ toISOString (-8640000000000000) = "-271821-04-20T00:00:00.000Z"
  ∧ toISOString (-62198755200000) = "-000001-01-01T00:00:00.000Z"
  ∧ toISOString 253402300800000 = "+010000-01-01T00:00:00.000Z".
Proof. repeat split; vm_compute; reflexivity. Qed.

Lemma string_length_app (s1 s2 : string) :
  String.length (s1 +:+ s2) = (String.length s1 + String.length s2)%nat.
Proof. induction s1 as [|c s1 IH]; simpl; [reflexivity|]. by rewrite IH. Qed.

Lemma pad_length width n : String.length (pad width n) = width.
Proof.
  revert n. induction width as [|w IH]; intros n; simpl; [reflexivity|].
  rewrite string_length_app, IH. simpl. lia.
Qed.

(** The rendering has the 24 characters of [YYYY-MM-DDTHH:mm:ss.sssZ], or
    27 with a signed six-digit year. *)
Lemma toISOString_length t :
  String.length (toISOString t) = 24%nat ∨ String.length (toISOString t) = 27%nat.
Proof.
  unfold toISOString. destruct (civil_from_days (t / msPerDay)) as [[y m] d].
  rewrite !string_length_app, !pad_length. unfold year_string.
  destruct ((0 <=? y) && (y <=? 9999)).
  - left. rewrite pad_length. reflexivity.
  - right. rewrite string_length_app, pad_length. by destruct (y <? 0).
Qed.

(** The reference [Date.parse] reads back what [toISOString] prints, and
    refuses what is not a date. *)
Lemma reference_parse_known :
  RefRuntime.parse (toISOString 1714557600123) = Some 1714557600123
  ∧ RefRuntime.parse "2024-05-02T09:30:00.000Z" = Some 1714642200000
  ∧ RefRuntime.parse "2000-02-29" = Some 951782400000
  ∧ RefRuntime.parse "2001-02-29" = None
  ∧ RefRuntime.parse "" = None
  ∧ RefRuntime.parse "next tuesday" = None.
Proof. repeat split; vm_compute; reflexivity. Qed.

(** [new Date] on values that are not strings. *)
Lemma new_Date_known :
  new_Date (rt := RefRuntime.runtime) JNull = ValidDate 0
  ∧ new_Date (rt := RefRuntime.runtime) (JBool true) = ValidDate 1
  ∧ new_Date (rt := RefRuntime.runtime) (JNum (S754_finite false 3 (-1))) = ValidDate 1
  ∧ new_Date (rt := RefRuntime.runtime) (JNum (S754_finite true 3 (-1))) = ValidDate (-1)
  ∧ new_Date (rt := RefRuntime.runtime) (JNum (S754_finite false 1 60)) = InvalidDate
  ∧ new_Date (rt := RefRuntime.runtime) (JNum S754_nan) = InvalidDate
  ∧ new_Date (rt := RefRuntime.runtime) (JArr []) = InvalidDate
  ∧ new_Date (rt := RefRuntime.runtime) (JArr [JStr "2000-02-29"]) = ValidDate 951782400000
  ∧ new_Date (rt := RefRuntime.runtime) (JObj []) = InvalidDate.
Proof. repeat split; vm_compute; reflexivity. Qed.

(** An object with an own [toString] key cannot be converted, alone or as
    the element of an array; other keys do no harm. *)
Lemma new_Date_throws :
  new_Date (rt := RefRuntime.runtime) (JObj [("toString", JNum (S754_finite false 1 0))])
    = DateThrown (TypeError "Cannot convert object to primitive value")
  ∧ new_Date (rt := RefRuntime.runtime)
      (JArr [JStr "2000-02-29"; JObj [("toString", JNull)]])
    = DateThrown (TypeError "Cannot convert object to primitive value")
  ∧ new_Date (rt := RefRuntime.runtime) (JObj [("valueOf", JNum (S754_finite false 1 0))])
    = InvalidDate.
Proof. repeat split; vm_compute; reflexivity. Qed.

(** [new Date] throws on exactly the decoded objects that have an own
    [toString] key; the others read as ["[object Object]"]. *)
Lemma new_Date_object {rt : Runtime} (fields : list (string * Json)) :
  new_Date (JObj fields)
  = if has_own_toString fields
    then DateThrown (TypeError "Cannot convert object to primitive value")
    else date_of_time (Date_parse "[object Object]" ≫= TimeClip).
Proof. unfold new_Date, ToString. by destruct (has_own_toString fields). Qed.

(** ** Create *)

Section CreateFacts.
Context {rt : Runtime}.
Implicit Types (env : Env) (uid : string) (body : Fields) (store : Store).

Lemma truthy_value_Some (o : option Json) v :
  o = Some v → truthy v = true → truthy_value o = Some v.
Proof. intros -> Hv. unfold truthy_value. by rewrite Hv. Qed.

Lemma truthy_value_None (o : option Json) :
  truthy_opt o = false → truthy_value o = None.
Proof. destruct o as [v|]; simpl; [intros ->|]; done. Qed.

Lemma truthy_value_opt (o : option Json) :
  truthy_opt o = true → ∃ v, o = Some v ∧ truthy v = true ∧ truthy_value o = Some v.
Proof. destruct o as [v|]; simpl; [intros Hv; rewrite Hv|]; naive_solver. Qed.

Lemma create_no_title env uid body store :
  truthy_value (body !! "title") = None →
  create_meeting env uid body store
    = ({| status := 400; body := BError "Meeting title is required" None |}, store)
  ∧ IndexJs.create_meeting env uid body store
    = ({| status := 400; body := BError "Meeting title is required" None |}, store).
Proof.
  intros Ht.
  unfold create_meeting, IndexJs.create_meeting, try_catch,
    create_meeting_body, IndexJs.create_meeting_body.
  by rewrite Ht.
Qed.

Lemma create_bad_date env uid body store title date :
  truthy_value (body !! "title") = Some title →
  truthy_value (body !! "date") = Some date →
  new_Date date = InvalidDate →
  create_meeting env uid body store
    = ({| status := 400; body := BError "Invalid date format" None |}, store)
  ∧ IndexJs.create_meeting env uid body store
    = ({| status := 400; body := BError "Invalid date format" None |}, store).
Proof.
  intros Ht Hd Hnew.
  unfold create_meeting, IndexJs.create_meeting, try_catch,
    create_meeting_body, IndexJs.create_meeting_body.
  by rewrite Ht, Hd, Hnew.
Qed.

Lemma create_date_throws env uid body store title date err :
  truthy_value (body !! "title") = Some title →
  truthy_value (body !! "date") = Some date →
  new_Date date = DateThrown err →
  create_meeting env uid body store
    = ({| status := 500;
          body := BError "Failed to create meeting" (Some err) |}, store)
  ∧ IndexJs.create_meeting env uid body store
    = ({| status := 500;
          body := BError "Failed to create meeting" (Some err) |}, store).
Proof.
  intros Ht Hd Hnew.
  unfold create_meeting, IndexJs.create_meeting, try_catch,
    create_meeting_body, IndexJs.create_meeting_body.
  by rewrite Ht, Hd, Hnew.
Qed.

Lemma create_default_date env uid body store title :
  truthy_value (body !! "title") = Some title →
  truthy_value (body !! "date") = None →
  store !! auto_id env = None →
  status (response_of (create_meeting env uid body store)) = 201%nat
  ∧ store_after (create_meeting env uid body store)
    = <[auto_id env := created_record env uid body title (wall_clock env 0)]> store
  ∧ status (response_of (IndexJs.create_meeting env uid body store)) = 201%nat
  ∧ store_after (IndexJs.create_meeting env uid body store)
    = <[auto_id env := created_record_index env uid body title (wall_clock env 0)]> store.
Proof.
  intros Ht Hd Hfresh.
  unfold create_meeting, IndexJs.create_meeting, try_catch,
    create_meeting_body, IndexJs.create_meeting_body, response_of, store_after.
  rewrite Ht, Hd.
  unfold mbind, handler_bind, collection_add. rewrite Hfresh. simpl.
  unfold created_record_index, created_record.
  rewrite !fmap_insert, fmap_empty. simpl.
  repeat split; done.
Qed.

End CreateFacts.

(** ** Running the handler bodies *)

Ltac exec :=
  unfold try_catch, response_of, store_after, mbind, handler_bind, mret,
    handler_ret, doc_get, doc_update, doc_delete, collection_add, respond,
    throw; simpl.

Lemma shape_stamped id (d : Doc) (s : Store) :
  stamped d → shape id d s = (Next (rendered id d), s).
Proof.
  intros [[c Hc] [u Hu]]. unfold shape, rendered, render_timestamp.
  rewrite Hc, Hu. reflexivity.
Qed.

Lemma shape_all_stamped (docs : list (string * Doc)) (s : Store) :
  Forall (fun kv => stamped kv.2) docs →
  shape_all docs s = (Next (List.map (fun kv => rendered kv.1 kv.2) docs), s).
Proof.
  induction 1 as [|[id d] rest Hd _ IH]; [reflexivity|].
  simpl. unfold mbind, handler_bind at 1.
  rewrite (shape_stamped id d s Hd).
  unfold handler_bind. rewrite IH. reflexivity.
Qed.

Lemma fmap_set_if_defined {V W} (f : V → W) k (v : option V) (m : gmap string V) :
  f <$> set_if_defined k v m = set_if_defined k (f <$> v) (f <$> m).
Proof. destruct v; simpl; [apply fmap_insert | reflexivity]. Qed.

Lemma set_if_defined_union {V} k (v : option V) (m d : gmap string V) :
  set_if_defined k v m ∪ d = set_if_defined k v (m ∪ d).
Proof. destruct v; simpl; [symmetry; apply insert_union_l | reflexivity]. Qed.

Lemma lookup_set_if_defined {V} k j (v : option V) (m : gmap string V) :
  set_if_defined k v m !! j
  = if decide (k = j) then (match v with Some x => Some x | None => m !! j end)
    else m !! j.
Proof.
  destruct v; simpl; rewrite ?lookup_insert; case_decide; done.
Qed.

Lemma fmap_resolve_written env (o : option Json) :
  resolve env <$> (written <$> o) = FJson <$> o.
Proof. by destruct o. Qed.

Lemma fmap_resolve_WValue env (o : option FsValue) :
  resolve env <$> (WValue <$> o) = o.
Proof. by destruct o. Qed.

Section HandlerFacts.
Context {rt : Runtime}.
Implicit Types (env : Env) (uid id pid : string) (body : Fields)
  (store : Store) (d : Doc).

(** *** Get *)

Lemma get_not_found uid id store :
  store !! id = None →
  get_meeting uid id store
    = ({| status := 404; body := BError "Meeting not found" None |}, store).
Proof. intros H. unfold get_meeting, get_meeting_body. exec. by rewrite H. Qed.

Lemma get_forbidden uid id store d items :
  store !! id = Some d →
  is_creator d uid = false →
  participants_of d = Some items →
  existsb (same_value_zero (JStr uid)) items = false →
  get_meeting uid id store
    = ({| status := 403; body := BError "Access denied" None |}, store).
Proof.
  intros H Hc Hp Hin. unfold get_meeting, get_meeting_body. exec.
  rewrite H, Hc. unfold participants_of in Hp.
  destruct (d !! "participants") as [[[]|]|] eqn:E; simplify_eq; simpl;
    by rewrite ?Hin.
Qed.

Lemma get_unlisted uid id store d :
  store !! id = Some d →
  is_creator d uid = false →
  d !! "participants" = None ∨ d !! "participants" = Some (FJson JNull) →
  get_meeting uid id store
    = ({| status := 403; body := BError "Access denied" None |}, store).
Proof.
  intros H Hc Hp. unfold get_meeting, get_meeting_body. exec.
  rewrite H, Hc. by destruct Hp as [-> | ->].
Qed.

Lemma get_string_forbidden uid id store d (s : string) :
  store !! id = Some d →
  is_creator d uid = false →
  d !! "participants" = Some (FJson (JStr s)) →
  is_substring uid s = false →
  get_meeting uid id store
    = ({| status := 403; body := BError "Access denied" None |}, store).
Proof.
  intros H Hc Hp Hsub. unfold get_meeting, get_meeting_body. exec.
  rewrite H, Hc, Hp. simpl. by rewrite Hsub.
Qed.

Lemma get_string_listed uid id store d (s : string) :
  store !! id = Some d →
  d !! "participants" = Some (FJson (JStr s)) →
  is_substring uid s = true →
  stamped d →
  get_meeting uid id store
    = ({| status := 200; body := BRecord (rendered id d) |}, store).
Proof.
  intros H Hp Hsub Hst. unfold get_meeting, get_meeting_body. exec.
  rewrite H. destruct (is_creator d uid); simpl;
    rewrite ?Hp; simpl; rewrite ?Hsub; simpl;
    by rewrite (shape_stamped id d store Hst).
Qed.

Lemma get_no_includes uid id store d v :
  store !! id = Some d →
  is_creator d uid = false →
  d !! "participants" = Some v →
  v ≠ FJson JNull →
  has_includes v = false →
  get_meeting uid id store
    = ({| status := 500;
          body := BError "Failed to retrieve meeting"
                    (Some (TypeError "includes is not a function")) |}, store).
Proof.
  intros H Hc Hp Hnull Hno. unfold get_meeting, get_meeting_body. exec.
  rewrite H, Hc, Hp. by destruct v as [[]|].
Qed.

Lemma get_creator uid id store d :
  store !! id = Some d →
  is_creator d uid = true →
  stamped d →
  get_meeting uid id store
    = ({| status := 200; body := BRecord (rendered id d) |}, store).
Proof.
  intros H Hc Hs. unfold get_meeting, get_meeting_body. exec.
  rewrite H, Hc. simpl. by rewrite (shape_stamped id d store Hs).
Qed.

Lemma get_participant uid id store d items :
  store !! id = Some d →
  d !! "participants" = Some (FJson (JArr items)) →
  existsb (same_value_zero (JStr uid)) items = true →
  stamped d →
  get_meeting uid id store
    = ({| status := 200; body := BRecord (rendered id d) |}, store).
Proof.
  intros H Hp Hin Hs. unfold get_meeting, get_meeting_body. exec.
  rewrite H. destruct (is_creator d uid); simpl;
    rewrite ?Hp; simpl; rewrite ?Hin; simpl;
    by rewrite (shape_stamped id d store Hs).
Qed.

(** *** Update *)

Lemma update_not_found env uid id body store :
  store !! id = None →
  update_meeting env uid id body store
    = ({| status := 404; body := BError "Meeting not found" None |}, store).
Proof. intros H. unfold update_meeting, update_meeting_body. exec. by rewrite H. Qed.

Lemma update_forbidden env uid id body store d :
  store !! id = Some d →
  is_creator d uid = false →
  update_meeting env uid id body store
    = ({| status := 403;
          body := BError "Only the meeting creator can update it" None |}, store).
Proof.
  intros H Hc. unfold update_meeting, update_meeting_body. exec. by rewrite H, Hc.
Qed.

Lemma update_bad_date env uid id body store d date :
  store !! id = Some d →
  is_creator d uid = true →
  truthy_value (body !! "date") = Some date →
  new_Date date = InvalidDate →
  update_meeting env uid id body store
    = ({| status := 400; body := BError "Invalid date format" None |}, store).
Proof.
  intros H Hc Hd Hn. unfold update_meeting, update_meeting_body. exec.
  rewrite H, Hc. unfold update_date. by rewrite Hd, Hn.
Qed.

Lemma update_date_throws env uid id body store d date err :
  store !! id = Some d →
  is_creator d uid = true →
  truthy_value (body !! "date") = Some date →
  new_Date date = DateThrown err →
  update_meeting env uid id body store
    = ({| status := 500; body := BError "Failed to update meeting" (Some err) |}, store).
Proof.
  intros H Hc Hd Hn. unfold update_meeting, update_meeting_body. exec.
  rewrite H, Hc. unfold update_date. by rewrite Hd, Hn.
Qed.

Lemma update_written env uid id body store d date :
  store !! id = Some d →
  is_creator d uid = true →
  update_date body d = CheckOk date →
  store_after (update_meeting env uid id body store)
    = <[id := updated_record env body date d]> store
  ∧ (stamped d →
     response_of (update_meeting env uid id body store)
     = {| status := 200;
          body := BSuccess "Meeting updated successfully"
                    (PMeeting (rendered id (updated_record env body date d))) |}).
Proof.
  intros H Hc Hd. unfold update_meeting, update_meeting_body. exec.
  rewrite H, Hc, Hd. simpl. rewrite H. simpl. rewrite lookup_insert_eq.
  assert (Hrec : (resolve env <$>
             set_if_defined "participants" (written <$> body !! "participants")
             (set_if_defined "notes" (written <$> body !! "notes")
             (set_if_defined "location" (written <$> body !! "location")
             (set_if_defined "date" (WValue <$> date)
             (set_if_defined "title" (written <$> body !! "title")
             (<["updatedAt" := WServerTimestamp]> ∅)))))) ∪ d
           = updated_record env body date d).
  { unfold updated_record.
    rewrite !fmap_set_if_defined, !fmap_resolve_written, fmap_resolve_WValue,
      fmap_insert, fmap_empty.
    rewrite !set_if_defined_union. simpl.
    rewrite <- insert_union_l, (left_id_L ∅ (∪)). reflexivity. }
  rewrite Hrec.
  assert (Hst : stamped d → stamped (updated_record env body date d)).
  { intros [[c Hcr] _]. unfold updated_record, stamped.
    rewrite !lookup_set_if_defined. simpl.
    repeat (case_decide; [done|]).
    rewrite lookup_insert_ne, lookup_insert_eq by done. eauto. }
  split.
  - by destruct (shape id (updated_record env body date d)
                   (<[id:=updated_record env body date d]> store)) as [[?|?|?] ?] eqn:E;
      unfold shape, mbind, handler_bind, shape_timestamp, mret, handler_ret, throw in E;
      repeat case_match; simplify_eq.
  - intros Hs. by rewrite (shape_stamped _ _ _ (Hst Hs)).
Qed.

(** *** Delete *)

Lemma delete_not_found uid id store :
  store !! id = None →
  delete_meeting uid id store
    = ({| status := 404; body := BError "Meeting not found" None |}, store).
Proof. intros H. unfold delete_meeting, delete_meeting_body. exec. by rewrite H. Qed.

Lemma delete_forbidden uid id store d :
  store !! id = Some d →
  is_creator d uid = false →
  delete_meeting uid id store
    = ({| status := 403;
          body := BError "Only the meeting creator can delete it" None |}, store).
Proof.
  intros H Hc. unfold delete_meeting, delete_meeting_body. exec. by rewrite H, Hc.
Qed.

Lemma delete_done uid id store d :
  store !! id = Some d →
  is_creator d uid = true →
  delete_meeting uid id store
    = ({| status := 200; body := BSuccess "Meeting deleted successfully" PNone |},
       delete id store).
Proof.
  intros H Hc. unfold delete_meeting, delete_meeting_body. exec. by rewrite H, Hc.
Qed.

(** *** Add participant *)

Lemma participants_or_default d items :
  participants_of d = Some items →
  fs_or_default (d !! "participants") (FJson (JArr [])) = FJson (JArr items).
Proof.
  unfold participants_of, fs_or_default.
  destruct (d !! "participants") as [[[]|]|]; naive_solver.
Qed.

Lemma update_participants env id store d (ps : list Json) :
  store !! id = Some d →
  doc_update env id
    (<["participants" := written (JArr ps)]> (<["updatedAt" := WServerTimestamp]> ∅))
    store
  = (Next (), <[id := with_participants env ps d]> store).
Proof.
  intros H. unfold doc_update, with_participants. rewrite H.
  rewrite !fmap_insert, fmap_empty. simpl.
  by rewrite <- !insert_union_l, (left_id_L ∅ (∪)).
Qed.

Lemma participants_or_empty_default d items :
  participants_or_empty d = Some items →
  fs_or_default (d !! "participants") (FJson (JArr [])) = FJson (JArr items).
Proof.
  unfold participants_or_empty.
  destruct (fs_or_default _ _) as [[]|]; naive_solver.
Qed.

Lemma participants_of_or_empty d items :
  participants_of d = Some items → participants_or_empty d = Some items.
Proof.
  intros H. unfold participants_or_empty. by rewrite (participants_or_default _ _ H).
Qed.

Lemma add_without_id env uid id body store :
  truthy_value (body !! "participantId") = None →
  add_participant env uid id body store
    = ({| status := 400; body := BError "Participant ID is required" None |}, store).
Proof. intros H. unfold add_participant, add_participant_body. exec. by rewrite H. Qed.

Lemma add_not_found env uid id body store p :
  truthy_value (body !! "participantId") = Some p →
  store !! id = None →
  add_participant env uid id body store
    = ({| status := 404; body := BError "Meeting not found" None |}, store).
Proof.
  intros Hp H. unfold add_participant, add_participant_body. rewrite Hp. exec.
  by rewrite H.
Qed.

Lemma add_forbidden env uid id body store d p :
  truthy_value (body !! "participantId") = Some p →
  store !! id = Some d →
  is_creator d uid = false →
  add_participant env uid id body store
    = ({| status := 403;
          body := BError "Only the meeting creator can add participants" None |},
       store).
Proof.
  intros Hp H Hc. unfold add_participant, add_participant_body. rewrite Hp. exec.
  by rewrite H, Hc.
Qed.

Lemma add_present env uid id body store d p items :
  truthy_value (body !! "participantId") = Some p →
  store !! id = Some d →
  is_creator d uid = true →
  participants_or_empty d = Some items →
  existsb (same_value_zero p) items = true →
  add_participant env uid id body store
    = ({| status := 400;
          body := BError "Participant already added to meeting" None |}, store).
Proof.
  intros Hp H Hc Hps Hin. unfold add_participant, add_participant_body.
  rewrite Hp. exec. rewrite H, Hc. simpl.
  rewrite (participants_or_empty_default _ _ Hps). simpl. by rewrite Hin.
Qed.

Lemma add_appended env uid id body store d p items :
  truthy_value (body !! "participantId") = Some p →
  store !! id = Some d →
  is_creator d uid = true →
  participants_or_empty d = Some items →
  existsb (same_value_zero p) items = false →
  add_participant env uid id body store
    = ({| status := 200;
          body := BSuccess "Participant added successfully"
                    (PParticipants (items ++ [p])) |},
       <[id := with_participants env (items ++ [p]) d]> store).
Proof.
  intros Hp H Hc Hps Hin. unfold add_participant, add_participant_body.
  rewrite Hp. unfold try_catch, mbind, handler_bind, doc_get. rewrite H, Hc. simpl.
  rewrite (participants_or_empty_default _ _ Hps). simpl. rewrite Hin.
  unfold mret, handler_ret.
  by rewrite (update_participants env id store d _ H).
Qed.

(** A successful addition went through the last branch. *)
Lemma add_success_inv env uid id body store :
  status (response_of (add_participant env uid id body store)) = 200%nat →
  ∃ d p items,
    truthy_value (body !! "participantId") = Some p
    ∧ store !! id = Some d
    ∧ is_creator d uid = true
    ∧ participants_or_empty d = Some items
    ∧ existsb (same_value_zero p) items = false.
Proof.
  unfold add_participant, add_participant_body, response_of, participants_or_empty.
  unfold try_catch, mbind, handler_bind, doc_get.
  destruct (truthy_value (body !! "participantId")) as [p|] eqn:Hpid;
    [|simpl; discriminate].
  destruct (store !! id) as [d|] eqn:H; [|simpl; discriminate].
  destruct (is_creator d uid) eqn:Hc; simpl; [|discriminate].
  destruct (fs_or_default (d !! "participants") (FJson (JArr [])))
    as [[ | | | s | items | ]|] eqn:Hp; simpl; try discriminate.
  - destruct (ToString p) as [err|needle]; simpl; [discriminate|].
    destruct (is_substring needle s); simpl; discriminate.
  - destruct (existsb (same_value_zero p) items) eqn:Hin; simpl; [discriminate|].
    intros _. exists d, p, items. by rewrite Hp.
Qed.

(** On a record whose [participants] is no sequence an addition writes
    nothing, and answers 400 or 500. *)
Lemma add_no_sequence env uid id body store d p :
  truthy_value (body !! "participantId") = Some p →
  store !! id = Some d →
  is_creator d uid = true →
  participants_or_empty d = None →
  store_after (add_participant env uid id body store) = store
  ∧ (status (response_of (add_participant env uid id body store)) = 400%nat
     ∨ status (response_of (add_participant env uid id body store)) = 500%nat).
Proof.
  intros Hp H Hc Hps. unfold add_participant, add_participant_body.
  rewrite Hp. unfold try_catch, mbind, handler_bind, doc_get, response_of, store_after.
  rewrite H, Hc. simpl. unfold participants_or_empty in Hps.
  destruct (fs_or_default (d !! "participants") (FJson (JArr [])))
    as [[ | | | s | items | ]|]; simpl; try discriminate;
    try (split; [done | by right]).
  destruct (ToString p) as [err|needle]; simpl; [split; [done | by right]|].
  destruct (is_substring needle s); simpl; (split; [done|]); [by left | by right].
Qed.

(** *** Remove participant *)

Lemma remove_not_found env uid id pid store :
  store !! id = None →
  remove_participant env uid id pid store
    = ({| status := 404; body := BError "Meeting not found" None |}, store).
Proof.
  intros H. unfold remove_participant, remove_participant_body. exec. by rewrite H.
Qed.

Lemma remove_forbidden env uid id pid store d :
  store !! id = Some d →
  is_creator d uid = false →
  uid ≠ pid →
  remove_participant env uid id pid store
    = ({| status := 403;
          body := BError "Unauthorized to remove this participant" None |}, store).
Proof.
  intros H Hc Hne. unfold remove_participant, remove_participant_body. exec.
  rewrite H, Hc. apply String.eqb_neq in Hne. by rewrite Hne.
Qed.

Lemma remove_absent env uid id pid store d items :
  store !! id = Some d →
  is_creator d uid = true ∨ uid = pid →
  participants_or_empty d = Some items →
  existsb (same_value_zero (JStr pid)) items = false →
  remove_participant env uid id pid store
    = ({| status := 400;
          body := BError "Participant not found in meeting" None |}, store).
Proof.
  intros H Hauth Hps Hin. unfold remove_participant, remove_participant_body. exec.
  rewrite H.
  assert (negb (is_creator d uid) && negb (uid =? pid)%string = false) as ->.
  { destruct Hauth as [-> | ->]; [done|]. rewrite String.eqb_refl. apply andb_false_r. }
  rewrite (participants_or_empty_default _ _ Hps). simpl. by rewrite Hin.
Qed.

Lemma remove_done env uid id pid store d items :
  store !! id = Some d →
  is_creator d uid = true ∨ uid = pid →
  participants_or_empty d = Some items →
  existsb (same_value_zero (JStr pid)) items = true →
  remove_participant env uid id pid store
    = (let kept :=
         List.filter (fun p => negb (strict_equals_string p pid)) items in
       ({| status := 200;
           body := BSuccess "Participant removed successfully" (PParticipants kept) |},
        <[id := with_participants env kept d]> store)).
Proof.
  intros H Hauth Hps Hin. unfold remove_participant, remove_participant_body.
  unfold try_catch, mbind, handler_bind, doc_get. rewrite H.
  assert (negb (is_creator d uid) && negb (uid =? pid)%string = false) as ->.
  { destruct Hauth as [-> | ->]; [done|]. rewrite String.eqb_refl. apply andb_false_r. }
  rewrite (participants_or_empty_default _ _ Hps). simpl. rewrite Hin. simpl.
  unfold mret, handler_ret.
  by rewrite (update_participants env id store d _ H).
Qed.

Lemma authorized_passes d uid pid :
  is_creator d uid = true ∨ uid = pid →
  negb (is_creator d uid) && negb (uid =? pid)%string = false.
Proof.
  intros [-> | ->]; [done|]. rewrite String.eqb_refl. apply andb_false_r.
Qed.

Lemma remove_string_absent env uid id pid store d (s : string) :
  store !! id = Some d →
  is_creator d uid = true ∨ uid = pid →
  d !! "participants" = Some (FJson (JStr s)) →
  is_substring pid s = false →
  remove_participant env uid id pid store
    = ({| status := 400;
          body := BError "Participant not found in meeting" None |}, store).
Proof.
  intros H Hauth Hp Hsub. unfold remove_participant, remove_participant_body. exec.
  rewrite H, (authorized_passes d uid pid Hauth), Hp. simpl.
  destruct (negb (s =? "")%string); simpl; by rewrite ?Hsub.
Qed.

Lemma remove_string_present env uid id pid store d (s : string) :
  store !! id = Some d →
  is_creator d uid = true ∨ uid = pid →
  d !! "participants" = Some (FJson (JStr s)) →
  s ≠ "" →
  is_substring pid s = true →
  remove_participant env uid id pid store
    = ({| status := 500;
          body := BError "Failed to remove participant"
                    (Some (TypeError "filter is not a function")) |}, store).
Proof.
  intros H Hauth Hp Hne Hsub. unfold remove_participant, remove_participant_body. exec.
  rewrite H, (authorized_passes d uid pid Hauth), Hp. simpl.
  apply String.eqb_neq in Hne. rewrite Hne. simpl. by rewrite Hsub.
Qed.

Lemma remove_no_includes env uid id pid store d v :
  store !! id = Some d →
  is_creator d uid = true ∨ uid = pid →
  d !! "participants" = Some v →
  fs_truthy v = true →
  has_includes v = false →
  remove_participant env uid id pid store
    = ({| status := 500;
          body := BError "Failed to remove participant"
                    (Some (TypeError "includes is not a function")) |}, store).
Proof.
  intros H Hauth Hp Ht Hno. unfold remove_participant, remove_participant_body. exec.
  rewrite H, (authorized_passes d uid pid Hauth), Hp. unfold fs_or_default.
  rewrite Ht. by destruct v as [[]|].
Qed.

(** A removal that answers 200 went through the last branch. *)
Lemma remove_success_inv env uid id pid store :
  status (response_of (remove_participant env uid id pid store)) = 200%nat →
  ∃ d items,
    store !! id = Some d
    ∧ (is_creator d uid = true ∨ uid = pid)
    ∧ d !! "participants" = Some (FJson (JArr items))
    ∧ existsb (same_value_zero (JStr pid)) items = true.
Proof.
  unfold remove_participant, remove_participant_body, response_of.
  unfold try_catch, mbind, handler_bind, doc_get.
  destruct (store !! id) as [d|] eqn:H; [|simpl; discriminate].
  destruct (negb (is_creator d uid) && negb (uid =? pid)%string) eqn:Hauth;
    [simpl; discriminate|].
  assert (is_creator d uid = true ∨ uid = pid) as Hauth'.
  { apply andb_false_iff in Hauth as [Hc | He].
    - left. by apply negb_false_iff.
    - right. by apply String.eqb_eq, negb_false_iff. }
  destruct (fs_or_default (d !! "participants") (FJson (JArr [])))
    as [[ | | | s | items | ]|] eqn:Hp; simpl; try discriminate.
  - destruct (is_substring pid s); simpl; discriminate.
  - destruct (existsb (same_value_zero (JStr pid)) items) eqn:Hin; simpl;
      [|discriminate].
    intros _. exists d, items. repeat split; try done.
    unfold fs_or_default in Hp.
    destruct (d !! "participants") as [v|]; [destruct (fs_truthy v)|];
      by simplify_eq.
Qed.

(** *** Lists *)

Lemma same_value_zero_string p (x : Json) :
  same_value_zero (JStr p) x = true ↔ x = JStr p.
Proof.
  destruct x; simpl; try (split; [discriminate | congruence]).
  rewrite String.eqb_eq. split; congruence.
Qed.

Lemma includes_string p (items : list Json) :
  existsb (same_value_zero (JStr p)) items = true ↔ JStr p ∈ items.
Proof.
  rewrite existsb_exists, list_elem_of_In. split.
  - intros (x & Hx & Hs). apply same_value_zero_string in Hs. by subst.
  - intros Hx. exists (JStr p). split; [done|]. by apply same_value_zero_string.
Qed.

Lemma not_includes_string p (items : list Json) :
  existsb (same_value_zero (JStr p)) items = false ↔ JStr p ∉ items.
Proof.
  rewrite <- includes_string. destruct (existsb _ items); split; congruence.
Qed.

Lemma is_creator_owned d uid : is_creator d uid = true ↔ owned_by uid d.
Proof.
  unfold is_creator, where_eq, owned_by.
  destruct (d !! "createdBy") as [[[]|]|]; try (split; [discriminate | congruence]).
  rewrite String.eqb_eq. split; congruence.
Qed.

Lemma where_participants d uid :
  where_array_contains "participants" uid d = true ↔ participating uid d.
Proof.
  unfold where_array_contains, participating.
  destruct (d !! "participants") as [[[]|]|];
    try (split; [discriminate | intros (? & ? & ?); congruence]).
  rewrite includes_string. split; [eauto|].
  intros (? & ? & ?). by simplify_eq.
Qed.

Lemma NoDup_fst_filter (keep : string * Doc → bool) (l : list (string * Doc)) :
  NoDup l.*1 → NoDup (List.filter keep l).*1.
Proof.
  induction l as [|[id d] rest IH]; simpl; [done|].
  rewrite NoDup_cons. intros [Hnotin Hnd].
  destruct (keep (id, d)); simpl; [|by apply IH].
  apply NoDup_cons. split; [|by apply IH].
  intros Hin. apply Hnotin.
  apply list_elem_of_fmap in Hin as (kv & Hid & Hin).
  apply list_elem_of_fmap. exists kv. split; [done|].
  apply list_elem_of_In in Hin. apply filter_In in Hin as [Hin _].
  by apply list_elem_of_In.
Qed.

Lemma query_spec (matches : Doc → bool) store :
  ∃ docs,
    query matches store = (Next docs, store)
    ∧ NoDup docs.*1
    ∧ ∀ id d, (id, d) ∈ docs ↔ store !! id = Some d ∧ matches d = true.
Proof.
  eexists. split; [reflexivity|]. split.
  - apply NoDup_fst_filter, NoDup_fst_map_to_list.
  - intros id d. rewrite list_elem_of_In, filter_In, <- list_elem_of_In.
    by rewrite elem_of_map_to_list.
Qed.

Lemma list_owned_spec uid store :
  map_Forall (fun _ d => stamped d) store →
  ∃ docs,
    list_owned uid store
      = ({| status := 200;
            body := BMeetings (List.map (fun kv => rendered kv.1 kv.2) docs) |}, store)
    ∧ NoDup docs.*1
    ∧ ∀ id d, (id, d) ∈ docs ↔ store !! id = Some d ∧ owned_by uid d.
Proof.
  intros Hst.
  destruct (query_spec (where_eq "createdBy" uid) store) as (docs & Hq & Hnd & Hin).
  exists docs. split; [|split; [done|]].
  - unfold list_owned, list_owned_body, try_catch, mbind, handler_bind.
    rewrite Hq, shape_all_stamped; [done|].
    apply Forall_forall. intros [id d] Hd. simpl.
    apply (Hst id). by apply Hin.
  - intros id d. rewrite Hin. fold (is_creator d uid).
    by rewrite is_creator_owned.
Qed.

Lemma list_participating_spec uid store :
  map_Forall (fun _ d => stamped d) store →
  ∃ docs,
    list_participating uid store
      = ({| status := 200;
            body := BMeetings (List.map (fun kv => rendered kv.1 kv.2) docs) |}, store)
    ∧ NoDup docs.*1
    ∧ ∀ id d, (id, d) ∈ docs ↔ store !! id = Some d ∧ participating uid d.
Proof.
  intros Hst.
  destruct (query_spec (where_array_contains "participants" uid) store)
    as (docs & Hq & Hnd & Hin).
  exists docs. split; [|split; [done|]].
  - unfold list_participating, list_participating_body, try_catch, mbind, handler_bind.
    rewrite Hq, shape_all_stamped; [done|].
    apply Forall_forall. intros [id d] Hd. simpl.
    apply (Hst id). by apply Hin.
  - intros id d. by rewrite Hin, where_participants.
Qed.

End HandlerFacts.

(** ** What a request can do to the collection

    Every handler leaves the collection as it was or makes the one write
    of its last branch; the records keep their timestamps. *)

Section Effects.
Context {rt : Runtime}.
Implicit Types (env : Env) (uid id pid : string) (body : Fields)
  (store : Store) (d : Doc).

Lemma create_effect env uid body store :
  store_after (create_meeting env uid body store) = store
  ∨ ∃ title t,
      store_after (create_meeting env uid body store)
      = <[auto_id env := created_record env uid body title t]> store.
Proof.
  unfold create_meeting, create_meeting_body, store_after, try_catch.
  destruct (truthy_value (body !! "title")) as [title|]; [|by left].
  destruct (match truthy_value (body !! "date") with
            | Some date => new_Date date
            | None => ValidDate (wall_clock env 0)
            end) as [err| |t]; [by left|by left|].
  unfold mbind, handler_bind, collection_add.
  destruct (store !! auto_id env); [by left|].
  right. exists title, t. simpl. unfold created_record.
  by rewrite !fmap_insert, fmap_empty.
Qed.

Lemma create_index_effect env uid body store :
  store_after (IndexJs.create_meeting env uid body store) = store
  ∨ ∃ title t,
      store_after (IndexJs.create_meeting env uid body store)
      = <[auto_id env := created_record_index env uid body title t]> store.
Proof.
  unfold IndexJs.create_meeting, IndexJs.create_meeting_body, store_after, try_catch.
  destruct (truthy_value (body !! "title")) as [title|]; [|by left].
  destruct (match truthy_value (body !! "date") with
            | Some date => new_Date date
            | None => ValidDate (wall_clock env 0)
            end) as [err| |t]; [by left|by left|].
  unfold mbind, handler_bind, collection_add.
  destruct (store !! auto_id env); [by left|].
  right. exists title, t. simpl. unfold created_record_index, created_record.
  by rewrite !fmap_insert, fmap_empty.
Qed.

Lemma update_effect env uid id body store :
  store_after (update_meeting env uid id body store) = store
  ∨ ∃ d date,
      store !! id = Some d
      ∧ store_after (update_meeting env uid id body store)
        = <[id := updated_record env body date d]> store.
Proof.
  destruct (store !! id) as [d|] eqn:H;
    [|left; by rewrite (update_not_found env uid id body store H)].
  destruct (is_creator d uid) eqn:Hc;
    [|left; by rewrite (update_forbidden env uid id body store d H Hc)].
  destruct (update_date body d) as [err| |date] eqn:Hd.
  - left. unfold update_meeting, update_meeting_body. exec. by rewrite H, Hc, Hd.
  - left. unfold update_meeting, update_meeting_body. exec. by rewrite H, Hc, Hd.
  - right. exists d, date. split; [done|].
    apply (update_written env uid id body store d date H Hc Hd).
Qed.

Lemma delete_effect uid id store :
  store_after (delete_meeting uid id store) = store
  ∨ store_after (delete_meeting uid id store) = delete id store.
Proof.
  unfold delete_meeting, delete_meeting_body. exec.
  destruct (store !! id) as [d|]; [|by left].
  destruct (is_creator d uid); simpl; [by right | by left].
Qed.

Lemma add_participant_effect env uid id body store :
  store_after (add_participant env uid id body store) = store
  ∨ ∃ d ps,
      store !! id = Some d
      ∧ store_after (add_participant env uid id body store)
        = <[id := with_participants env ps d]> store.
Proof.
  unfold add_participant, add_participant_body, store_after, try_catch.
  destruct (truthy_value (body !! "participantId")) as [p|]; [|by left].
  unfold mbind, handler_bind, doc_get.
  destruct (store !! id) as [d|] eqn:H; [|by left].
  destruct (is_creator d uid); simpl; [|by left].
  destruct (fs_or_default (d !! "participants") (FJson (JArr [])))
    as [[ | | | s | items | ]|]; simpl; try by left.
  - destruct (ToString p) as [err|needle]; [by left|].
    destruct (is_substring needle s); by left.
  - destruct (existsb (same_value_zero p) items); simpl; [by left|].
    right. exists d, (items ++ [p])%list. split; [done|].
    unfold mret, handler_ret.
    by rewrite (update_participants env id store d _ H).
Qed.

Lemma remove_participant_effect env uid id pid store :
  store_after (remove_participant env uid id pid store) = store
  ∨ ∃ d ps,
      store !! id = Some d
      ∧ store_after (remove_participant env uid id pid store)
        = <[id := with_participants env ps d]> store.
Proof.
  unfold remove_participant, remove_participant_body, store_after, try_catch.
  unfold mbind, handler_bind, doc_get.
  destruct (store !! id) as [d|] eqn:H; [|by left].
  destruct (negb (is_creator d uid) && negb (uid =? pid)%string); [by left|].
  destruct (fs_or_default (d !! "participants") (FJson (JArr [])))
    as [[ | | | s | items | ]|]; simpl; try by left.
  - destruct (is_substring pid s); by left.
  - destruct (existsb (same_value_zero (JStr pid)) items); simpl; [|by left].
    right. eexists d, _. split; [done|].
    unfold mret, handler_ret.
    by rewrite (update_participants env id store d _ H).
Qed.

Lemma reads_bind {A B} (m : Handler A) (k : A → Handler B) :
  reads m → (∀ a, reads (k a)) → reads (m ≫= k).
Proof.
  intros Hm Hk s. unfold mbind, handler_bind.
  specialize (Hm s). destruct (m s) as [[a| |] s']; simpl in Hm; subst; [|done..].
  apply Hk.
Qed.

Lemma reads_ret {A} (a : A) : reads (mret a).
Proof. by intros s. Qed.

Lemma reads_respond {A} code b : reads (respond (A := A) code b).
Proof. by intros s. Qed.

Lemma reads_throw {A} e : reads (throw (A := A) e).
Proof. by intros s. Qed.

Lemma reads_try_catch failure (h : Handler Empty_set) s :
  reads h → store_after (try_catch failure h s) = s.
Proof.
  intros Hh. unfold store_after, try_catch. specialize (Hh s).
  by destruct (h s) as [[[]| |] s'].
Qed.

Lemma shape_timestamp_reads o : reads (shape_timestamp o).
Proof.
  unfold shape_timestamp. destruct o as [[j|]|]; try apply reads_ret.
  destruct (truthy j); [apply reads_throw | apply reads_ret].
Qed.

Lemma shape_reads id d : reads (shape id d).
Proof.
  unfold shape. apply reads_bind; [apply shape_timestamp_reads|]. intros c.
  apply reads_bind; [apply shape_timestamp_reads|]. intros u. apply reads_ret.
Qed.

Lemma shape_all_reads (docs : list (string * Doc)) : reads (shape_all docs).
Proof.
  induction docs as [|[id d] rest IH]; simpl; [apply reads_ret|].
  apply reads_bind; [apply shape_reads|]. intros m.
  apply reads_bind; [apply IH|]. intros ms. apply reads_ret.
Qed.

Lemma js_includes_reads v arg : reads (js_includes v arg).
Proof.
  unfold js_includes. destruct v as [[]|]; try destruct (ToString arg);
    (apply reads_ret || apply reads_throw).
Qed.

(** X20.  Get-Meeting-By-Id, List-Owned and List-Participating leave the
    collection as it was, whatever they answer. *)
Lemma reads_keep_store uid id store :
  store_after (get_meeting uid id store) = store
  ∧ store_after (list_owned uid store) = store
  ∧ store_after (list_participating uid store) = store.
Proof.
  split; [|split]; apply reads_try_catch.
  - unfold get_meeting_body. apply reads_bind; [by intros s|]. intros [d|];
      [|apply reads_respond].
    apply reads_bind.
    + destruct (is_creator d uid); [apply reads_ret|].
      unfold optional_includes.
      destruct (d !! "participants") as [[[]|]|];
        (apply reads_ret || apply js_includes_reads).
    + intros []; simpl; [|apply reads_respond].
      apply reads_bind; [apply shape_reads|]. intros m. apply reads_respond.
  - unfold list_owned_body. apply reads_bind; [by intros s|]. intros docs.
    apply reads_bind; [apply shape_all_reads|]. intros ms. apply reads_respond.
  - unfold list_participating_body. apply reads_bind; [by intros s|]. intros docs.
    apply reads_bind; [apply shape_all_reads|]. intros ms. apply reads_respond.
Qed.

Lemma created_record_stamped env uid body title t :
  stamped (created_record env uid body title t)
  ∧ stamped (created_record_index env uid body title t).
Proof. repeat split; by eexists. Qed.

Lemma updated_record_stamped env body date d :
  stamped d → stamped (updated_record env body date d).
Proof.
  intros [[c Hc] _]. unfold updated_record, stamped.
  rewrite !lookup_set_if_defined. simpl.
  repeat (case_decide; [done|]).
  rewrite lookup_insert_ne, lookup_insert_eq by done. eauto.
Qed.

Lemma with_participants_stamped env (ps : list Json) d :
  stamped d → stamped (with_participants env ps d).
Proof.
  intros [[c Hc] _]. unfold with_participants, stamped.
  rewrite !lookup_insert. repeat (case_decide; [done|]).
  repeat case_decide; try done. eauto.
Qed.

Lemma all_stamped_insert id d store :
  map_Forall (fun _ d => stamped d) store → stamped d →
  map_Forall (fun _ d => stamped d) (<[id := d]> store).
Proof. intros Hall Hd. by apply map_Forall_insert_2. Qed.

(** The timestamps of the data model survive every request. *)
Lemma handlers_keep_timestamps env uid id pid body store :
  map_Forall (fun _ d => stamped d) store →
  map_Forall (fun _ d => stamped d) (store_after (create_meeting env uid body store))
  ∧ map_Forall (fun _ d => stamped d)
      (store_after (IndexJs.create_meeting env uid body store))
  ∧ map_Forall (fun _ d => stamped d) (store_after (update_meeting env uid id body store))
  ∧ map_Forall (fun _ d => stamped d) (store_after (delete_meeting uid id store))
  ∧ map_Forall (fun _ d => stamped d)
      (store_after (add_participant env uid id body store))
  ∧ map_Forall (fun _ d => stamped d)
      (store_after (remove_participant env uid id pid store)).
Proof.
  intros Hall. split; [|split; [|split; [|split; [|split]]]].
  - destruct (create_effect env uid body store) as [-> | (title & t & ->)]; [done|].
    apply all_stamped_insert; [done|].
    exact (proj1 (created_record_stamped env uid body title t)).
  - destruct (create_index_effect env uid body store) as [-> | (title & t & ->)];
      [done|].
    apply all_stamped_insert; [done|].
    exact (proj2 (created_record_stamped env uid body title t)).
  - destruct (update_effect env uid id body store) as [-> | (d & date & H & ->)];
      [done|].
    apply all_stamped_insert; [done|]. apply updated_record_stamped, (Hall id d H).
  - destruct (delete_effect uid id store) as [-> | ->]; [done|].
    by apply map_Forall_delete.
  - destruct (add_participant_effect env uid id body store)
      as [-> | (d & ps & H & ->)]; [done|].
    apply all_stamped_insert; [done|]. apply with_participants_stamped, (Hall id d H).
  - destruct (remove_participant_effect env uid id pid store)
      as [-> | (d & ps & H & ->)]; [done|].
    apply all_stamped_insert; [done|]. apply with_participants_stamped, (Hall id d H).
Qed.

(** X13.  Add-Participant keeps a sequence of distinct identifiers
    distinct: whatever the answer, the participants stored after a request
    that names a string are without repetition when they were before. *)
Lemma add_participant_keeps_distinct env uid id body store d items p :
  store !! id = Some d →
  participants_of d = Some items →
  NoDup items →
  body !! "participantId" = Some (JStr p) →
  ∃ d' items',
    store_after (add_participant env uid id body store) !! id = Some d'
    ∧ participants_of d' = Some items'
    ∧ NoDup items'.
Proof.
  intros H Hps Hnd Hb.
  destruct (truthy_value (body !! "participantId")) as [v|] eqn:Hp;
    [|rewrite (add_without_id env uid id body store Hp); by exists d, items].
  assert (v = JStr p) as ->.
  { rewrite Hb in Hp. simpl in Hp. by destruct (negb (p =? "")%string); simplify_eq. }
  destruct (is_creator d uid) eqn:Hc;
    [|rewrite (add_forbidden env uid id body store d _ Hp H Hc); by exists d, items].
  destruct (existsb (same_value_zero (JStr p)) items) eqn:Hin;
    [rewrite (add_present env uid id body store d _ items Hp H Hc (participants_of_or_empty _ _ Hps) Hin);
     by exists d, items|].
  rewrite (add_appended env uid id body store d _ items Hp H Hc (participants_of_or_empty _ _ Hps) Hin).
  exists (with_participants env (items ++ [JStr p]) d), (items ++ [JStr p])%list.
  unfold store_after. simpl. rewrite lookup_insert_eq. split; [done|]. split.
  - unfold participants_of, with_participants. by rewrite lookup_insert_eq.
  - apply NoDup_app. split; [done|]. split; [|apply NoDup_singleton].
    intros x Hx Hx'. apply list_elem_of_singleton in Hx' as ->.
    by apply not_includes_string in Hin.
Qed.

(** X19.  Whatever the requests were, the records of the collection carry
    their two store timestamps. *)
Lemma history_stamped (requests : list Request) :
  map_Forall (fun _ d => stamped d) (history requests).
Proof.
  unfold history.
  assert (map_Forall (fun _ d => stamped d) (∅ : Store)) as Hempty
    by apply map_Forall_empty.
  revert Hempty. generalize (∅ : Store).
  induction requests as [|r rest IH]; intros store Hall; [done|].
  simpl. apply IH. destruct r as [env uid body | env uid id body | uid id
                                 | env uid id body | env uid id pid]; simpl.
  - exact (proj1 (handlers_keep_timestamps env uid "" "" body store Hall)).
  - exact (proj1 (proj2 (proj2 (handlers_keep_timestamps env uid id "" body store Hall)))).
  - set (env := {| wall_clock := fun _ => 0; server_time := 0; auto_id := "" |}).
    exact (proj1 (proj2 (proj2 (proj2
             (handlers_keep_timestamps env uid id "" ∅ store Hall))))).
  - exact (proj1 (proj2 (proj2 (proj2 (proj2
             (handlers_keep_timestamps env uid id "" body store Hall)))))).
  - exact (proj2 (proj2 (proj2 (proj2 (proj2
             (handlers_keep_timestamps env uid id pid ∅ store Hall)))))).
Qed.

End Effects.

(** ** The claims *)

Section Claims.
Context {rt : Runtime}.
Implicit Types (env : Env) (uid id pid : string) (body : Fields)
  (store : Store) (d : Doc).

(** C1, as amended.  A create request with a truthy [date]: when
    [new Date] makes an Invalid Date of it, the answer is 400 and nothing is
    stored, in both servers; when the conversion of the value throws (an
    object with a [toString] key, or an array holding one), nothing is
    stored either and the answer is 500, or 400 when the title is missing.
    When [date] is omitted or falsy (the empty string, [null], [0],
    [false]), the title is truthy and the store accepts the new identifier,
    the request is answered 201 and the stored [date] is the ISO rendering
    of the process clock. *)
Theorem create_date_rule env uid body store :
  (∀ date,
      body !! "date" = Some date → truthy date = true → new_Date date = InvalidDate →
      status (response_of (create_meeting env uid body store)) = 400%nat
      ∧ store_after (create_meeting env uid body store) = store
      ∧ status (response_of (IndexJs.create_meeting env uid body store)) = 400%nat
      ∧ store_after (IndexJs.create_meeting env uid body store) = store)
  ∧ (∀ date err,
      body !! "date" = Some date → truthy date = true → new_Date date = DateThrown err →
      store_after (create_meeting env uid body store) = store
      ∧ store_after (IndexJs.create_meeting env uid body store) = store
      ∧ (truthy_opt (body !! "title") = true →
         status (response_of (create_meeting env uid body store)) = 500%nat
         ∧ status (response_of (IndexJs.create_meeting env uid body store)) = 500%nat)
      ∧ (truthy_opt (body !! "title") = false →
         status (response_of (create_meeting env uid body store)) = 400%nat
         ∧ status (response_of (IndexJs.create_meeting env uid body store)) = 400%nat))
  ∧ (truthy_opt (body !! "date") = false →
     truthy_opt (body !! "title") = true →
     store !! auto_id env = None →
     ∃ d d',
       status (response_of (create_meeting env uid body store)) = 201%nat
       ∧ store_after (create_meeting env uid body store) = <[auto_id env := d]> store
       ∧ d !! "date" = Some (FJson (JStr (toISOString (wall_clock env 0))))
       ∧ status (response_of (IndexJs.create_meeting env uid body store)) = 201%nat
       ∧ store_after (IndexJs.create_meeting env uid body store)
         = <[auto_id env := d']> store
       ∧ d' !! "date" = Some (FJson (JStr (toISOString (wall_clock env 0))))).
Proof.
  split; [|split].
  - intros date Hd Ht Hnew.
    pose proof (truthy_value_Some _ _ Hd Ht) as Hdate.
    destruct (truthy_value (body !! "title")) as [title|] eqn:Htitle.
    + destruct (create_bad_date env uid body store title date Htitle Hdate Hnew)
        as [-> ->]. done.
    + destruct (create_no_title env uid body store Htitle) as [-> ->]. done.
  - intros date err Hd Ht Hnew.
    pose proof (truthy_value_Some _ _ Hd Ht) as Hdate.
    destruct (truthy_opt (body !! "title")) eqn:Htitle.
    + apply truthy_value_opt in Htitle as (title & _ & _ & Htitle).
      destruct (create_date_throws env uid body store title date err Htitle Hdate Hnew)
        as [-> ->]. done.
    + apply truthy_value_None in Htitle.
      destruct (create_no_title env uid body store Htitle) as [-> ->]. done.
  - intros Hd Ht Hfresh.
    apply truthy_value_None in Hd.
    apply truthy_value_opt in Ht as (title & _ & _ & Ht).
    destruct (create_default_date env uid body store title Ht Hd Hfresh)
      as (H1 & H2 & H3 & H4).
    eexists _, _. repeat split; [exact H1 | exact H2 | | exact H3 | exact H4 | ];
      reflexivity.
Qed.

(** C2.  A create request whose [title] is missing or the empty string is
    answered 400 and stores nothing, in both servers. *)
Theorem create_requires_title env uid body store :
  body !! "title" = None ∨ body !! "title" = Some (JStr "") →
  (create_meeting env uid body store
     = ({| status := 400; body := BError "Meeting title is required" None |}, store))
  ∧ (IndexJs.create_meeting env uid body store
     = ({| status := 400; body := BError "Meeting title is required" None |}, store)).
Proof.
  intros Ht. apply create_no_title.
  destruct Ht as [-> | ->]; reflexivity.
Qed.

Lemma not_owned_not_creator d uid : ¬ owned_by uid d → is_creator d uid = false.
Proof.
  intros H. destruct (is_creator d uid) eqn:E; [|done].
  by apply is_creator_owned in E.
Qed.

(** C3, as amended.  On an existing meeting, for a caller who is not its
    creator: Update and Delete are answered 403; Add-Participant is
    answered 403 when the request carries a truthy [participantId], and
    400 when it carries none or a falsy one (that check comes before the
    lookup); in every case the collection is left as it was. *)
Theorem non_creator_mutations_rejected env uid id body store d :
  store !! id = Some d →
  ¬ owned_by uid d →
  (status (response_of (update_meeting env uid id body store)) = 403%nat
   ∧ store_after (update_meeting env uid id body store) = store)
  ∧ (status (response_of (delete_meeting uid id store)) = 403%nat
     ∧ store_after (delete_meeting uid id store) = store)
  ∧ (store_after (add_participant env uid id body store) = store
     ∧ (truthy_opt (body !! "participantId") = true →
        status (response_of (add_participant env uid id body store)) = 403%nat)
     ∧ (truthy_opt (body !! "participantId") = false →
        status (response_of (add_participant env uid id body store)) = 400%nat)).
Proof.
  intros H Hno. apply not_owned_not_creator in Hno.
  rewrite (update_forbidden env uid id body store d H Hno).
  rewrite (delete_forbidden uid id store d H Hno).
  split; [done|]. split; [done|].
  destruct (truthy_opt (body !! "participantId")) eqn:Hp.
  - apply truthy_value_opt in Hp as (p & _ & _ & Hp).
    by rewrite (add_forbidden env uid id body store d p Hp H Hno).
  - apply truthy_value_None in Hp.
    by rewrite (add_without_id env uid id body store Hp).
Qed.

Lemma updated_record_lookup env body date d k :
  updated_record env body date d !! k
  = if decide (k = "participants") then
      match body !! "participants" with Some v => Some (FJson v) | None => d !! k end
    else if decide (k = "notes") then
      match body !! "notes" with Some v => Some (FJson v) | None => d !! k end
    else if decide (k = "location") then
      match body !! "location" with Some v => Some (FJson v) | None => d !! k end
    else if decide (k = "date") then
      match date with Some v => Some v | None => d !! k end
    else if decide (k = "title") then
      match body !! "title" with Some v => Some (FJson v) | None => d !! k end
    else if decide (k = "updatedAt") then Some (FTimestamp (server_time env))
    else d !! k.
Proof.
  unfold updated_record. rewrite !lookup_set_if_defined, lookup_insert.
  repeat (case_decide; subst; simpl; [repeat case_decide; try done;
    by destruct (body !! _) | ]);
    repeat case_decide; congruence.
Qed.

(** C4, as amended.  For an Update by the creator: a truthy [date] of
    which [new Date] makes an Invalid Date is answered 400, one whose
    conversion throws is answered 500, and in both cases nothing is
    written; otherwise each of [title], [location], [notes],
    [participants] that the request supplies is written as supplied and
    each omitted one keeps its value, a truthy valid [date] is written in
    its ISO rendering, an omitted or falsy [date] leaves the stored date,
    [updatedAt] becomes the store's time, and no other field or record
    changes. *)
Theorem update_partial_write env uid id body store d :
  store !! id = Some d →
  owned_by uid d →
  (∀ date,
      body !! "date" = Some date → truthy date = true → new_Date date = InvalidDate →
      update_meeting env uid id body store
      = ({| status := 400; body := BError "Invalid date format" None |}, store))
  ∧ (∀ date err,
      body !! "date" = Some date → truthy date = true → new_Date date = DateThrown err →
      status (response_of (update_meeting env uid id body store)) = 500%nat
      ∧ store_after (update_meeting env uid id body store) = store)
  ∧ (∀ date',
      (truthy_opt (body !! "date") = false ∧ date' = d !! "date")
      ∨ (∃ date t,
            body !! "date" = Some date ∧ truthy date = true
            ∧ new_Date date = ValidDate t
            ∧ date' = Some (FJson (JStr (toISOString t)))) →
      ∃ d',
        store_after (update_meeting env uid id body store) = <[id := d']> store
        ∧ (∀ k, k ∈ ["title"; "location"; "notes"; "participants"] →
                d' !! k = match body !! k with
                          | Some v => Some (FJson v)
                          | None => d !! k
                          end)
        ∧ d' !! "date" = date'
        ∧ d' !! "updatedAt" = Some (FTimestamp (server_time env))
        ∧ (∀ k, k ∉ ["title"; "date"; "location"; "notes"; "participants";
                      "updatedAt"] → d' !! k = d !! k)
        ∧ (stamped d →
           response_of (update_meeting env uid id body store)
           = {| status := 200;
                body := BSuccess "Meeting updated successfully"
                          (PMeeting (rendered id d')) |})).
Proof.
  intros H Ho. apply is_creator_owned in Ho. split; [|split].
  - intros date Hd Ht Hn.
    apply (update_bad_date env uid id body store d date H Ho); [|done].
    by apply truthy_value_Some.
  - intros date err Hd Ht Hn.
    by rewrite (update_date_throws env uid id body store d date err H Ho
                  (truthy_value_Some _ _ Hd Ht) Hn).
  - intros date' Hdate.
    assert (update_date body d = CheckOk date') as Hud.
    { unfold update_date. destruct Hdate as [[Hf ->] | (date & t & Hd & Ht & Hn & ->)].
      - by rewrite (truthy_value_None _ Hf).
      - by rewrite (truthy_value_Some _ _ Hd Ht), Hn. }
    destruct (update_written env uid id body store d date' H Ho Hud) as [Hst Hresp].
    exists (updated_record env body date' d).
    split; [done|]. split; [|split; [|split; [|split; [|done]]]].
    + intros k Hk. rewrite updated_record_lookup.
      rewrite !elem_of_cons, elem_of_nil in Hk.
      destruct Hk as [-> | [-> | [-> | [-> | []]]]]; repeat case_decide; done.
    + rewrite updated_record_lookup. repeat case_decide; try done.
      destruct Hdate as [[_ ->] | (? & ? & _ & _ & _ & ->)]; [|done].
      by destruct (d !! "date").
    + rewrite updated_record_lookup. repeat case_decide; done.
    + intros k Hk. rewrite updated_record_lookup.
      rewrite !not_elem_of_cons in Hk.
      destruct Hk as (? & ? & ? & ? & ? & ? & _).
      repeat case_decide; congruence.
Qed.

Lemma with_participants_lookup env (ps : list Json) d k :
  with_participants env ps d !! k
  = if decide (k = "participants") then Some (FJson (JArr ps))
    else if decide (k = "updatedAt") then Some (FTimestamp (server_time env))
    else d !! k.
Proof.
  unfold with_participants. rewrite !lookup_insert.
  repeat case_decide; congruence.
Qed.

(** C5, as amended.  For an Add-Participant by the creator of an existing
    meeting: a missing or falsy [participantId] is answered 400 and
    nothing changes.  With a truthy identifier, when the stored
    [participants] is an array, or is absent or falsy and so read as the
    empty sequence: an identifier that the sequence includes is answered
    400 and the collection is unchanged; any other is answered 200 with
    the sequence extended at its end, which is also what is stored, and
    [updatedAt] becomes the store's time, no other field changing.  When
    the stored [participants] is any other value, nothing is written and
    the answer is 400 or 500. *)
Theorem add_participant_rule env uid id body store d :
  store !! id = Some d →
  owned_by uid d →
  (truthy_opt (body !! "participantId") = false →
     add_participant env uid id body store
     = ({| status := 400; body := BError "Participant ID is required" None |}, store))
  ∧ (∀ p, body !! "participantId" = Some p → truthy p = true →
       (∀ items, participants_or_empty d = Some items →
          (existsb (same_value_zero p) items = true →
             status (response_of (add_participant env uid id body store)) = 400%nat
             ∧ store_after (add_participant env uid id body store) = store)
          ∧ (existsb (same_value_zero p) items = false →
             response_of (add_participant env uid id body store)
             = {| status := 200;
                  body := BSuccess "Participant added successfully"
                            (PParticipants (items ++ [p])) |}
             ∧ ∃ d',
                 store_after (add_participant env uid id body store)
                 = <[id := d']> store
                 ∧ d' !! "participants" = Some (FJson (JArr (items ++ [p])))
                 ∧ d' !! "updatedAt" = Some (FTimestamp (server_time env))
                 ∧ ∀ k, k ≠ "participants" → k ≠ "updatedAt" → d' !! k = d !! k))
       ∧ (participants_or_empty d = None →
          store_after (add_participant env uid id body store) = store
          ∧ (status (response_of (add_participant env uid id body store)) = 400%nat
             ∨ status (response_of (add_participant env uid id body store)) = 500%nat))).
Proof.
  intros H Ho. apply is_creator_owned in Ho. split.
  - intros Hf. apply add_without_id. by apply truthy_value_None.
  - intros p Hb Ht. pose proof (truthy_value_Some _ _ Hb Ht) as Hp.
    split; [|by apply (add_no_sequence env uid id body store d p)].
    intros items Hps. split; intros Hin.
    + by rewrite (add_present env uid id body store d _ items Hp H Ho Hps Hin).
    + rewrite (add_appended env uid id body store d _ items Hp H Ho Hps Hin).
      split; [done|]. eexists. split; [reflexivity|].
      rewrite !with_participants_lookup. repeat split.
      intros k ? ?. rewrite with_participants_lookup. repeat case_decide; done.
Qed.

(** C6, as amended.  A Remove-Participant on an existing meeting succeeds
    only for the creator or for the caller named by the participant
    identifier; any other caller is answered 403 and nothing changes.  For
    an authorized caller: when the stored [participants] is an array, or is
    absent or falsy and so read as the empty sequence, an identifier that
    is not in it is answered 400, nothing changing, and one that is in it
    succeeds; when it is a string, an identifier that does not occur in
    the string is answered 400 and one that occurs in it 500; when it is
    any other truthy value the answer is 500; nothing changes in these
    last cases. *)
Theorem remove_participant_authorization env uid id pid store d :
  store !! id = Some d →
  (status (response_of (remove_participant env uid id pid store)) = 200%nat →
     owned_by uid d ∨ uid = pid)
  ∧ (¬ owned_by uid d → uid ≠ pid →
     status (response_of (remove_participant env uid id pid store)) = 403%nat
     ∧ store_after (remove_participant env uid id pid store) = store)
  ∧ (owned_by uid d ∨ uid = pid →
     (∀ items, participants_or_empty d = Some items →
        (JStr pid ∉ items →
           status (response_of (remove_participant env uid id pid store)) = 400%nat
           ∧ store_after (remove_participant env uid id pid store) = store)
        ∧ (JStr pid ∈ items →
           status (response_of (remove_participant env uid id pid store)) = 200%nat))
     ∧ (∀ s : string, d !! "participants" = Some (FJson (JStr s)) →
        (is_substring pid s = false →
           status (response_of (remove_participant env uid id pid store)) = 400%nat
           ∧ store_after (remove_participant env uid id pid store) = store)
        ∧ (s ≠ "" → is_substring pid s = true →
           status (response_of (remove_participant env uid id pid store)) = 500%nat
           ∧ store_after (remove_participant env uid id pid store) = store))
     ∧ (∀ v, d !! "participants" = Some v →
        fs_truthy v = true → has_includes v = false →
        status (response_of (remove_participant env uid id pid store)) = 500%nat
        ∧ store_after (remove_participant env uid id pid store) = store)).
Proof.
  intros H. split; [|split].
  - intros Hok. apply remove_success_inv in Hok as (d0 & items & Hd0 & Hauth & _).
    simplify_eq. destruct Hauth as [Hc | ->]; [left | by right].
    by apply is_creator_owned.
  - intros Hno Hne. apply not_owned_not_creator in Hno.
    by rewrite (remove_forbidden env uid id pid store d H Hno Hne).
  - intros Hauth.
    assert (is_creator d uid = true ∨ uid = pid) as Hauth'.
    { destruct Hauth as [Ho | ->]; [left | by right]. by apply is_creator_owned. }
    split; [|split].
    + intros items Hps. split; intros Hin.
      * apply not_includes_string in Hin.
        by rewrite (remove_absent env uid id pid store d items H Hauth' Hps Hin).
      * apply includes_string in Hin.
        by rewrite (remove_done env uid id pid store d items H Hauth' Hps Hin).
    + intros s Hs. split.
      * intros Hsub.
        by rewrite (remove_string_absent env uid id pid store d s H Hauth' Hs Hsub).
      * intros Hne Hsub.
        by rewrite (remove_string_present env uid id pid store d s H Hauth' Hs Hne Hsub).
    + intros v Hv Ht Hno.
      by rewrite (remove_no_includes env uid id pid store d v H Hauth' Hv Ht Hno).
Qed.

Lemma rendered_lookup id d k :
  rendered id d !! k
  = if decide (k = "updatedAt") then Some (FJson (render_timestamp (d !! "updatedAt")))
    else if decide (k = "createdAt") then
      Some (FJson (render_timestamp (d !! "createdAt")))
    else match d !! k with
         | Some v => Some v
         | None => if decide (k = "id") then Some (FJson (JStr id)) else None
         end.
Proof.
  unfold rendered, with_id. rewrite !lookup_insert.
  repeat (case_decide; subst; [repeat case_decide; congruence|]).
  rewrite lookup_union. destruct (d !! k); simpl.
  - by destruct ({[ "id" := FJson (JStr id) ]} !! k : option FsValue).
  - rewrite (left_id_L None (∪)), lookup_singleton.
    repeat case_decide; congruence.
Qed.

(** C7, as amended.  Get-Meeting-By-Id answers 404 for an unknown
    identifier.  For an existing meeting and a caller who is not its
    creator the answer follows the stored [participants]: 403 when it is
    absent or [null], when it is an array that does not contain the
    caller, and when it is a string in which the caller's identity does
    not occur; 200 with the record when it is a string in which that
    identity occurs; 500 when it is a number, a boolean or an object.  The
    creator, or a caller contained in the [participants] array, is
    answered 200 with the record, in which [createdAt] and [updatedAt] are
    the ISO renderings of the stored timestamps and the other fields are
    the stored ones. *)
Theorem get_meeting_access uid id store :
  (store !! id = None →
     get_meeting uid id store
     = ({| status := 404; body := BError "Meeting not found" None |}, store))
  ∧ (∀ d,
       store !! id = Some d → ¬ owned_by uid d →
       (d !! "participants" = None ∨ d !! "participants" = Some (FJson JNull) →
          get_meeting uid id store
          = ({| status := 403; body := BError "Access denied" None |}, store))
       ∧ (∀ items,
            d !! "participants" = Some (FJson (JArr items)) → JStr uid ∉ items →
            get_meeting uid id store
            = ({| status := 403; body := BError "Access denied" None |}, store))
       ∧ (∀ s : string,
            d !! "participants" = Some (FJson (JStr s)) →
            (is_substring uid s = false →
               get_meeting uid id store
               = ({| status := 403; body := BError "Access denied" None |}, store))
            ∧ (is_substring uid s = true → stamped d →
               get_meeting uid id store
               = ({| status := 200; body := BRecord (rendered id d) |}, store)))
       ∧ (∀ v,
            d !! "participants" = Some v → v ≠ FJson JNull → has_includes v = false →
            status (response_of (get_meeting uid id store)) = 500%nat
            ∧ store_after (get_meeting uid id store) = store))
  ∧ (∀ d c u,
       store !! id = Some d → owned_by uid d ∨ participating uid d →
       d !! "createdAt" = Some (FTimestamp c) →
       d !! "updatedAt" = Some (FTimestamp u) →
       ∃ m,
         get_meeting uid id store = ({| status := 200; body := BRecord m |}, store)
         ∧ m !! "createdAt" = Some (FJson (JStr (toISOString c)))
         ∧ m !! "updatedAt" = Some (FJson (JStr (toISOString u)))
         ∧ (∀ k, k ≠ "createdAt" → k ≠ "updatedAt" → k ≠ "id" → m !! k = d !! k)
         ∧ (d !! "id" = None → m !! "id" = Some (FJson (JStr id)))).
Proof.
  split; [apply get_not_found|]. split.
  - intros d H Hno. apply not_owned_not_creator in Hno.
    split; [|split; [|split]].
    + by apply (get_unlisted uid id store d).
    + intros items Hps Hin.
      apply (get_forbidden uid id store d items H Hno).
      * unfold participants_of. by rewrite Hps.
      * by apply not_includes_string.
    + intros s Hs. split.
      * by apply (get_string_forbidden uid id store d s).
      * by apply (get_string_listed uid id store d s).
    + intros v Hv Hnull Hinc.
      by rewrite (get_no_includes uid id store d v H Hno Hv Hnull Hinc).
  - intros d c u H Hwho Hc Hu.
    assert (stamped d) as Hst by (split; eauto).
    exists (rendered id d). split.
    + destruct Hwho as [Ho | (items & Hps & Hin)].
      * apply get_creator; [done| |done]. by apply is_creator_owned.
      * apply (get_participant uid id store d items); [done|done| |done].
        by apply includes_string.
    + split; [|split; [|split]].
      * rewrite rendered_lookup, Hc. by repeat case_decide.
      * rewrite rendered_lookup, Hu. by repeat case_decide.
      * intros k ? ? ?. rewrite rendered_lookup.
        repeat case_decide; try done. by destruct (d !! k).
      * intros Hid. rewrite rendered_lookup, Hid. by repeat case_decide.
Qed.

(** C8.  When every record carries its timestamps, List-Owned answers
    200 with the renderings of exactly the records whose [createdBy] is
    the caller and List-Participating with those of exactly the records
    whose [participants] contain the caller, each record once; a record
    of which the caller is both creator and participant is in both. *)
Theorem lists_exact uid store :
  map_Forall (fun _ d => stamped d) store →
  ∃ owned joined : list (string * Doc),
    list_owned uid store
      = ({| status := 200;
            body := BMeetings (List.map (fun kv => rendered kv.1 kv.2) owned) |}, store)
    ∧ list_participating uid store
      = ({| status := 200;
            body := BMeetings (List.map (fun kv => rendered kv.1 kv.2) joined) |}, store)
    ∧ NoDup owned.*1 ∧ NoDup joined.*1
    ∧ (∀ id d, (id, d) ∈ owned ↔ store !! id = Some d ∧ owned_by uid d)
    ∧ (∀ id d, (id, d) ∈ joined ↔ store !! id = Some d ∧ participating uid d)
    ∧ (∀ id d, store !! id = Some d → owned_by uid d → participating uid d →
               (id, d) ∈ owned ∧ (id, d) ∈ joined).
Proof.
  intros Hst.
  destruct (list_owned_spec uid store Hst) as (owned & Ho & Hnd1 & Hin1).
  destruct (list_participating_spec uid store Hst) as (joined & Hj & Hnd2 & Hin2).
  exists owned, joined.
  split; [done|]. split; [done|]. split; [done|]. split; [done|].
  split; [done|]. split; [done|].
  intros id d H Hown Hpart. split; [by apply Hin1 | by apply Hin2].
Qed.

(** C9.  There is an Update by the creator that is answered 200 and
    leaves a [participants] sequence with a repeated entry where the
    stored one had none: the supplied sequence is stored as it is. *)
Theorem update_stores_duplicate_participants :
  ∃ env uid id body store d before after,
    store !! id = Some d ∧ owned_by uid d
    ∧ d !! "participants" = Some (FJson (JArr before)) ∧ NoDup before
    ∧ body !! "participants" = Some (JArr after) ∧ ¬ NoDup after
    ∧ status (response_of (update_meeting env uid id body store)) = 200%nat
    ∧ (store_after (update_meeting env uid id body store) !! id)
        ≫= (.!! "participants")
      = Some (FJson (JArr after)).
Proof.
  exists Examples.later, "alice", "m1", Examples.bob_twice, Examples.store1,
    Examples.meeting1, [JStr "bob"], [JStr "bob"; JStr "bob"].
  split; [vm_compute; reflexivity|].
  split; [vm_compute; reflexivity|].
  split; [vm_compute; reflexivity|].
  split; [apply NoDup_singleton|].
  split; [vm_compute; reflexivity|].
  split; [|split; vm_compute; reflexivity].
  intros Hnd. apply NoDup_cons in Hnd as [Hnotin _].
  apply Hnotin. left.
Qed.

Lemma strict_equals_string_spec (x : Json) pid :
  strict_equals_string x pid = true ↔ x = JStr pid.
Proof.
  destruct x; simpl; try (split; [discriminate | congruence]).
  rewrite String.eqb_eq. split; congruence.
Qed.

Lemma js_filter_other_than pid (items : list Json) :
  List.filter (fun p => negb (strict_equals_string p pid)) items
  = filter (fun x => x ≠ JStr pid) items.
Proof.
  induction items as [|x rest IH]; [reflexivity|].
  rewrite filter_cons. simpl. rewrite IH.
  destruct (strict_equals_string x pid) eqn:E; simpl; case_decide; try done.
  - apply strict_equals_string_spec in E. done.
  - exfalso. apply not_true_iff_false in E. apply E.
    apply strict_equals_string_spec.
    by destruct (decide (x = JStr pid)).
Qed.

(** C10.  A Remove-Participant that is answered 200 stores and returns
    the participants without any entry equal to the identifier, however
    many there were, the remaining entries all kept and in their order. *)
Theorem remove_participant_filters env uid id pid store :
  status (response_of (remove_participant env uid id pid store)) = 200%nat →
  ∃ d items kept,
    store !! id = Some d
    ∧ d !! "participants" = Some (FJson (JArr items))
    ∧ kept = filter (fun x => x ≠ JStr pid) items
    ∧ body (response_of (remove_participant env uid id pid store))
      = BSuccess "Participant removed successfully" (PParticipants kept)
    ∧ (store_after (remove_participant env uid id pid store) !! id)
        ≫= (.!! "participants")
      = Some (FJson (JArr kept))
    ∧ (JStr pid ∉ kept)
    ∧ (kept `sublist_of` items)
    ∧ (∀ x, x ∈ items → x ≠ JStr pid → x ∈ kept).
Proof.
  intros Hok.
  apply remove_success_inv in Hok as (d & items & H & Hauth & Hps & Hin).
  exists d, items, (filter (fun x => x ≠ JStr pid) items).
  assert (participants_of d = Some items) as Hps'
    by (unfold participants_of; by rewrite Hps).
  rewrite (remove_done env uid id pid store d items H Hauth (participants_of_or_empty _ _ Hps') Hin).
  rewrite js_filter_other_than. simpl.
  repeat split; try done.
  - rewrite lookup_insert_eq. simpl. by rewrite with_participants_lookup.
  - rewrite list_elem_of_filter. tauto.
  - apply sublist_filter.
  - intros x Hx Hne. by apply list_elem_of_filter.
Qed.

End Claims.

(** ** The examples, evaluated *)

Lemma store1_meeting : Examples.store1 !! "m1" = Some Examples.meeting1.
Proof. vm_compute. reflexivity. Qed.

Lemma meeting1_owner :
  owned_by "alice" Examples.meeting1
  ∧ ¬ owned_by "bob" Examples.meeting1
  ∧ ¬ owned_by "carol" Examples.meeting1.
Proof.
  split; [reflexivity|].
  split; intros H; vm_compute in H; discriminate H.
Qed.

Lemma meeting1_participants :
  participants_of Examples.meeting1 = Some [JStr "bob"]
  ∧ Examples.meeting1 !! "participants" = Some (FJson (JArr [JStr "bob"])).
Proof. split; reflexivity. Qed.

Lemma bob_only :
  JStr "bob" ∈ [JStr "bob"]
  ∧ (JStr "carol" ∉ [JStr "bob"])
  ∧ (JStr "" ∉ [JStr "bob"]).
Proof.
  split; [left|].
  split; intros H; apply list_elem_of_singleton in H; discriminate H.
Qed.

Lemma store1_stamped : map_Forall (fun _ d => stamped d) Examples.store1.
Proof.
  assert (map_Forall (fun _ d => stamped d) (∅ : Store)) as Hempty
    by apply map_Forall_empty.
  exact (proj1 (handlers_keep_timestamps (rt := RefRuntime.runtime)
                  Examples.env "alice" "m1" "bob" Examples.standup ∅ Hempty)).
Qed.

Lemma shared_stamped : map_Forall (fun _ d => stamped d) Examples.shared.
Proof.
  exact (proj1 (proj2 (proj2 (handlers_keep_timestamps (rt := RefRuntime.runtime)
           Examples.later "alice" "m1" "bob" Examples.alice_and_bob Examples.store1
           store1_stamped)))).
Qed.

(** Alice's meeting is in both of her lists. *)
Lemma shared_in_both_lists :
  (∃ m, body (response_of (list_owned "alice" Examples.shared)) = BMeetings [m]
        ∧ m !! "id" = Some (FJson (JStr "m1")))
  ∧ (∃ m, body (response_of (list_participating "alice" Examples.shared)) = BMeetings [m]
          ∧ m !! "id" = Some (FJson (JStr "m1")))
  ∧ body (response_of (list_owned "bob" Examples.shared)) = BMeetings [].
Proof.
  split; [|split].
  - eexists. split; vm_compute; reflexivity.
  - eexists. split; vm_compute; reflexivity.
  - vm_compute. reflexivity.
Qed.

(** Removing bob from bob, bob, carol leaves carol. *)
Lemma remove_repeated_bob :
  (Examples.store3 !! "m1") ≫= (.!! "participants")
    = Some (FJson (JArr [JStr "bob"; JStr "bob"; JStr "carol"]))
  ∧ response_of
      (remove_participant (rt := RefRuntime.runtime) Examples.later "alice" "m1" "bob"
         Examples.store3)
    = {| status := 200;
         body := BSuccess "Participant removed successfully"
                   (PParticipants [JStr "carol"]) |}.
Proof. split; vm_compute; reflexivity. Qed.

(** The record carol created with the number 5 as [participants]. *)
Lemma counted_store_record :
  Scenarios.counted_store !! "m1" = Some Scenarios.counted_record.
Proof. vm_compute. reflexivity. Qed.

Lemma counted_record_facts :
  owned_by "carol" Scenarios.counted_record
  ∧ ¬ owned_by "dave" Scenarios.counted_record
  ∧ Scenarios.counted_record !! "participants"
    = Some (FJson (JNum (S754_finite false 5 0)))
  ∧ participants_or_empty Scenarios.counted_record = None.
Proof.
  split; [reflexivity|]. split; [|split; reflexivity].
  intros H. vm_compute in H. discriminate H.
Qed.

(** The record carol created with a string as [participants]. *)
Lemma loose_store_record : Scenarios.loose_store !! "m1" = Some Scenarios.loose_record.
Proof. vm_compute. reflexivity. Qed.

Lemma loose_record_facts :
  Scenarios.loose_record !! "participants" = Some (FJson (JStr "alice,bob"))
  ∧ stamped Scenarios.loose_record
  ∧ fs_truthy (FJson (JStr "alice,bob")) = true
  ∧ (∀ items, FJson (JStr "alice,bob") ≠ FJson (JArr items)).
Proof.
  split; [reflexivity|]. split; [|split; [reflexivity | discriminate]].
  split; eexists; reflexivity.
Qed.

Lemma loose_record_owner :
  owned_by "carol" Scenarios.loose_record
  ∧ ¬ owned_by "ali" Scenarios.loose_record
  ∧ ¬ owned_by "dave" Scenarios.loose_record.
Proof.
  split; [reflexivity|].
  split; intros H; vm_compute in H; discriminate H.
Qed.

(** C1 as stated fails: a create request with a title and the empty string
    as [date], a date that does not parse, is answered 201 by both servers
    and the record is stored with the process clock as its date. *)
Lemma create_empty_date_accepted :
  Examples.empty_date !! "date" = Some (JStr "")
  ∧ new_Date (rt := RefRuntime.runtime) (JStr "") = InvalidDate
  ∧ status (response_of
      (create_meeting (rt := RefRuntime.runtime) Examples.env "alice" Examples.empty_date ∅))
    = 201%nat
  ∧ (store_after
       (create_meeting (rt := RefRuntime.runtime) Examples.env "alice" Examples.empty_date ∅)
       !! "m1") ≫= (.!! "date")
    = Some (FJson (JStr "2024-05-01T10:00:00.000Z"))
  ∧ status (response_of
      (IndexJs.create_meeting (rt := RefRuntime.runtime) Examples.env "alice"
         Examples.empty_date ∅))
    = 201%nat
  ∧ store_after
      (IndexJs.create_meeting (rt := RefRuntime.runtime) Examples.env "alice"
         Examples.empty_date ∅)
    ≠ ∅.
Proof.
  split; [reflexivity|]. split; [reflexivity|].
  split; [vm_compute; reflexivity|]. split; [vm_compute; reflexivity|].
  split; [vm_compute; reflexivity|].
  intros H. apply (f_equal (fun s : Store => (s !! "m1") ≫= (.!! "createdBy"))) in H.
  vm_compute in H. discriminate H.
Qed.

Lemma create_date_rule_witness :
  (status (response_of
      (create_meeting (rt := RefRuntime.runtime) Examples.env "alice" Examples.bad_date ∅))
    = 400%nat
   ∧ store_after
      (create_meeting (rt := RefRuntime.runtime) Examples.env "alice" Examples.bad_date ∅)
     = ∅)
  ∧ (status (response_of
       (create_meeting (rt := RefRuntime.runtime) Examples.env "alice"
          Scenarios.odd_date ∅))
     = 500%nat
     ∧ store_after
         (create_meeting (rt := RefRuntime.runtime) Examples.env "alice"
            Scenarios.odd_date ∅)
       = ∅)
  ∧ ∃ d,
      store_after
        (create_meeting (rt := RefRuntime.runtime) Examples.env "alice" Examples.titled ∅)
      = <["m1" := d]> ∅
      ∧ d !! "date" = Some (FJson (JStr "2024-05-01T10:00:00.000Z")).
Proof.
  split; [|split].
  - edestruct (proj1 (create_date_rule (rt := RefRuntime.runtime)
                 Examples.env "alice" Examples.bad_date ∅) (JStr "next tuesday"))
      as (H1 & H2 & _); [reflexivity | reflexivity | reflexivity |].
    exact (conj H1 H2).
  - edestruct (proj1 (proj2 (create_date_rule (rt := RefRuntime.runtime)
                 Examples.env "alice" Scenarios.odd_date ∅))
                 (JObj [("toString", JNum (S754_finite false 1 0))])
                 (TypeError "Cannot convert object to primitive value"))
      as (H1 & _ & H2 & _); [reflexivity | reflexivity | reflexivity |].
    split; [|exact H1]. apply H2. reflexivity.
  - edestruct (proj2 (proj2 (create_date_rule (rt := RefRuntime.runtime)
                 Examples.env "alice" Examples.titled ∅)))
      as (d & d' & _ & H2 & H3 & _); [reflexivity | reflexivity | reflexivity |].
    exists d. split; [exact H2 | exact H3].
Defined.

Lemma create_requires_title_witness :
  create_meeting (rt := RefRuntime.runtime) Examples.env "alice" Examples.untitled ∅
    = ({| status := 400; body := BError "Meeting title is required" None |}, ∅)
  ∧ IndexJs.create_meeting (rt := RefRuntime.runtime) Examples.env "alice"
      Examples.empty_title ∅
    = ({| status := 400; body := BError "Meeting title is required" None |}, ∅).
Proof.
  split.
  - refine (proj1 (create_requires_title (rt := RefRuntime.runtime)
              Examples.env "alice" Examples.untitled ∅ _)).
    left. reflexivity.
  - refine (proj2 (create_requires_title (rt := RefRuntime.runtime)
              Examples.env "alice" Examples.empty_title ∅ _)).
    right. reflexivity.
Defined.

(** C3 as stated fails: carol, who did not create the meeting, sends an
    Add-Participant without [participantId] and is answered 400, not 403. *)
Lemma non_creator_add_without_id :
  Examples.store1 !! "m1" = Some Examples.meeting1
  ∧ ¬ owned_by "carol" Examples.meeting1
  ∧ status (response_of
      (add_participant (rt := RefRuntime.runtime) Examples.later "carol" "m1" ∅
         Examples.store1))
    = 400%nat.
Proof.
  split; [exact store1_meeting|].
  split; [exact (proj2 (proj2 meeting1_owner))|].
  vm_compute. reflexivity.
Qed.

Lemma non_creator_mutations_rejected_witness :
  (status (response_of
     (update_meeting (rt := RefRuntime.runtime) Examples.later "carol" "m1"
        Examples.add_bob Examples.store1)) = 403%nat
   ∧ store_after
       (update_meeting (rt := RefRuntime.runtime) Examples.later "carol" "m1"
          Examples.add_bob Examples.store1) = Examples.store1)
  ∧ (status (response_of
       (delete_meeting "carol" "m1" Examples.store1)) = 403%nat
     ∧ store_after (delete_meeting "carol" "m1" Examples.store1)
       = Examples.store1)
  ∧ status (response_of
      (add_participant (rt := RefRuntime.runtime) Examples.later "carol" "m1"
         Examples.add_bob Examples.store1)) = 403%nat.
Proof.
  destruct (non_creator_mutations_rejected (rt := RefRuntime.runtime)
              Examples.later "carol" "m1" Examples.add_bob Examples.store1
              Examples.meeting1 store1_meeting (proj2 (proj2 meeting1_owner)))
    as (Hu & Hd & _ & Ha & _).
  split; [exact Hu|]. split; [exact Hd|].
  apply Ha. reflexivity.
Defined.

(** C4 as stated fails: alice, the creator, supplies [location] with a date
    that is not one and is answered 400, nothing written and [updatedAt]
    as before; she supplies the empty string as [date] and is answered
    200, the stored date as before. *)
Lemma update_date_rejected_or_skipped :
  Examples.store1 !! "m1" = Some Examples.meeting1
  ∧ owned_by "alice" Examples.meeting1
  ∧ Examples.bad_date_and_location !! "location" = Some (JStr "Room 2")
  ∧ status (response_of
      (update_meeting (rt := RefRuntime.runtime) Examples.later "alice" "m1"
         Examples.bad_date_and_location Examples.store1)) = 400%nat
  ∧ store_after
      (update_meeting (rt := RefRuntime.runtime) Examples.later "alice" "m1"
         Examples.bad_date_and_location Examples.store1) = Examples.store1
  ∧ Examples.empty_date_and_location !! "date" = Some (JStr "")
  ∧ status (response_of
      (update_meeting (rt := RefRuntime.runtime) Examples.later "alice" "m1"
         Examples.empty_date_and_location Examples.store1)) = 200%nat
  ∧ (store_after
       (update_meeting (rt := RefRuntime.runtime) Examples.later "alice" "m1"
          Examples.empty_date_and_location Examples.store1) !! "m1")
      ≫= (.!! "date")
    = Some (FJson (JStr "2024-05-02T09:30:00.000Z")).
Proof.
  split; [exact store1_meeting|].
  split; [exact (proj1 meeting1_owner)|].
  split; [reflexivity|].
  split; [vm_compute; reflexivity|].
  split; [vm_compute; reflexivity|].
  split; [reflexivity|].
  split; vm_compute; reflexivity.
Qed.

Lemma update_partial_write_witness :
  update_meeting (rt := RefRuntime.runtime) Examples.later "alice" "m1"
    Examples.bad_date_and_location Examples.store1
  = ({| status := 400; body := BError "Invalid date format" None |}, Examples.store1)
  ∧ (status (response_of
       (update_meeting (rt := RefRuntime.runtime) Examples.later "alice" "m1"
          Scenarios.odd_date_and_location Examples.store1)) = 500%nat
     ∧ store_after
         (update_meeting (rt := RefRuntime.runtime) Examples.later "alice" "m1"
            Scenarios.odd_date_and_location Examples.store1) = Examples.store1)
  ∧ ∃ d',
      store_after
        (update_meeting (rt := RefRuntime.runtime) Examples.later "alice" "m1"
           Examples.only_location Examples.store1)
      = <["m1" := d']> Examples.store1
      ∧ d' !! "location" = Some (FJson (JStr "Room 2"))
      ∧ d' !! "title" = Examples.meeting1 !! "title"
      ∧ d' !! "date" = Examples.meeting1 !! "date"
      ∧ d' !! "updatedAt" = Some (FTimestamp 1714561200456)
      ∧ d' !! "createdBy" = Examples.meeting1 !! "createdBy".
Proof.
  split; [|split].
  - refine (proj1 (update_partial_write (rt := RefRuntime.runtime)
              Examples.later "alice" "m1" Examples.bad_date_and_location Examples.store1
              Examples.meeting1 store1_meeting (proj1 meeting1_owner))
              (JStr "next tuesday") _ _ _); reflexivity.
  - refine (proj1 (proj2 (update_partial_write (rt := RefRuntime.runtime)
              Examples.later "alice" "m1" Scenarios.odd_date_and_location Examples.store1
              Examples.meeting1 store1_meeting (proj1 meeting1_owner)))
              (JObj [("toString", JNum (S754_finite false 1 0))])
              (TypeError "Cannot convert object to primitive value") _ _ _); reflexivity.
  - destruct (proj2 (proj2 (update_partial_write (rt := RefRuntime.runtime)
                Examples.later "alice" "m1" Examples.only_location Examples.store1
                Examples.meeting1 store1_meeting (proj1 meeting1_owner)))
                (Examples.meeting1 !! "date") (or_introl (conj eq_refl eq_refl)))
      as (d' & Hst & Hsupplied & Hdate & Hupd & Hother & _).
    exists d'. split; [exact Hst|].
    split; [refine (Hsupplied "location" _); repeat constructor|].
    split; [refine (Hsupplied "title" _); repeat constructor|].
    split; [exact Hdate|]. split; [exact Hupd|].
    refine (Hother "createdBy" _).
    intros Hin.
    repeat (apply elem_of_cons in Hin as [Hin|Hin]; [discriminate Hin|]).
    by apply elem_of_nil in Hin.
Defined.

(** C5 as stated fails: alice, the creator, supplies the empty string as
    [participantId]; it is not among the participants, and the answer is
    400 with nothing appended. *)
Lemma add_empty_identifier_rejected :
  Examples.store1 !! "m1" = Some Examples.meeting1
  ∧ owned_by "alice" Examples.meeting1
  ∧ participants_of Examples.meeting1 = Some [JStr "bob"]
  ∧ Examples.add_nobody !! "participantId" = Some (JStr "")
  ∧ (JStr "" ∉ [JStr "bob"])
  ∧ add_participant (rt := RefRuntime.runtime) Examples.later "alice" "m1"
      Examples.add_nobody Examples.store1
    = ({| status := 400; body := BError "Participant ID is required" None |},
       Examples.store1).
Proof.
  split; [exact store1_meeting|].
  split; [exact (proj1 meeting1_owner)|].
  split; [exact (proj1 meeting1_participants)|].
  split; [reflexivity|].
  split; [exact (proj2 (proj2 bob_only))|].
  vm_compute. reflexivity.
Qed.

Lemma add_participant_rule_witness :
  add_participant (rt := RefRuntime.runtime) Examples.later "alice" "m1"
    Examples.add_nobody Examples.store1
  = ({| status := 400; body := BError "Participant ID is required" None |},
     Examples.store1)
  ∧ (status (response_of
       (add_participant (rt := RefRuntime.runtime) Examples.later "alice" "m1"
          Examples.add_bob Examples.store1)) = 400%nat
     ∧ store_after
         (add_participant (rt := RefRuntime.runtime) Examples.later "alice" "m1"
            Examples.add_bob Examples.store1) = Examples.store1)
  ∧ response_of
      (add_participant (rt := RefRuntime.runtime) Examples.later "alice" "m1"
         Examples.add_carol Examples.store1)
    = {| status := 200;
         body := BSuccess "Participant added successfully"
                   (PParticipants [JStr "bob"; JStr "carol"]) |}
  ∧ store_after
      (add_participant (rt := RefRuntime.runtime) Examples.later "carol" "m1"
         Scenarios.add_dave Scenarios.counted_store) = Scenarios.counted_store.
Proof.
  split; [|split; [|split]].
  - refine (proj1 (add_participant_rule (rt := RefRuntime.runtime)
              Examples.later "alice" "m1" Examples.add_nobody Examples.store1
              Examples.meeting1 store1_meeting (proj1 meeting1_owner)) _).
    reflexivity.
  - refine (proj1 (proj1 (proj2 (add_participant_rule (rt := RefRuntime.runtime)
              Examples.later "alice" "m1" Examples.add_bob Examples.store1
              Examples.meeting1 store1_meeting (proj1 meeting1_owner))
              (JStr "bob") _ _) [JStr "bob"] _) _); reflexivity.
  - refine (proj1 (proj2 (proj1 (proj2 (add_participant_rule (rt := RefRuntime.runtime)
              Examples.later "alice" "m1" Examples.add_carol Examples.store1
              Examples.meeting1 store1_meeting (proj1 meeting1_owner))
              (JStr "carol") _ _) [JStr "bob"] _) _)); reflexivity.
  - refine (proj1 (proj2 (proj2 (add_participant_rule (rt := RefRuntime.runtime)
              Examples.later "carol" "m1" Scenarios.add_dave Scenarios.counted_store
              Scenarios.counted_record counted_store_record
              (proj1 counted_record_facts))
              (JStr "dave") _ _) _)); reflexivity.
Defined.

(** C6 as stated fails: carol created a meeting with the number 5 as
    [participants], which Create stored as given; she is its creator, bob
    is not among its participants, and her Remove-Participant of bob is
    answered 500, not 400. *)
Lemma remove_from_a_number_fails :
  Scenarios.counted_store !! "m1" = Some Scenarios.counted_record
  ∧ owned_by "carol" Scenarios.counted_record
  ∧ Scenarios.counted_record !! "participants"
    = Some (FJson (JNum (S754_finite false 5 0)))
  ∧ status (response_of
      (remove_participant (rt := RefRuntime.runtime) Examples.later "carol" "m1" "bob"
         Scenarios.counted_store)) = 500%nat.
Proof.
  split; [exact counted_store_record|].
  split; [exact (proj1 counted_record_facts)|].
  split; [reflexivity|].
  vm_compute. reflexivity.
Qed.

Lemma remove_participant_authorization_witness :
  (owned_by "bob" Examples.meeting1 ∨ "bob" = "bob")
  ∧ (status (response_of
       (remove_participant (rt := RefRuntime.runtime) Examples.later "carol" "m1" "bob"
          Examples.store1)) = 403%nat
     ∧ store_after
         (remove_participant (rt := RefRuntime.runtime) Examples.later "carol" "m1" "bob"
            Examples.store1) = Examples.store1)
  ∧ (status (response_of
       (remove_participant (rt := RefRuntime.runtime) Examples.later "alice" "m1" "carol"
          Examples.store1)) = 400%nat
     ∧ store_after
         (remove_participant (rt := RefRuntime.runtime) Examples.later "alice" "m1" "carol"
            Examples.store1) = Examples.store1)
  ∧ status (response_of
      (remove_participant (rt := RefRuntime.runtime) Examples.later "alice" "m1" "bob"
         Examples.store1)) = 200%nat
  ∧ (status (response_of
       (remove_participant (rt := RefRuntime.runtime) Examples.later "carol" "m1" "dave"
          Scenarios.loose_store)) = 400%nat
     ∧ store_after
         (remove_participant (rt := RefRuntime.runtime) Examples.later "carol" "m1" "dave"
            Scenarios.loose_store) = Scenarios.loose_store)
  ∧ (status (response_of
       (remove_participant (rt := RefRuntime.runtime) Examples.later "carol" "m1" "bob"
          Scenarios.loose_store)) = 500%nat
     ∧ store_after
         (remove_participant (rt := RefRuntime.runtime) Examples.later "carol" "m1" "bob"
            Scenarios.loose_store) = Scenarios.loose_store)
  ∧ (status (response_of
       (remove_participant (rt := RefRuntime.runtime) Examples.later "carol" "m1" "bob"
          Scenarios.counted_store)) = 500%nat
     ∧ store_after
         (remove_participant (rt := RefRuntime.runtime) Examples.later "carol" "m1" "bob"
            Scenarios.counted_store) = Scenarios.counted_store).
Proof.
  split; [|split; [|split; [|split; [|split; [|split]]]]].
  - refine (proj1 (remove_participant_authorization (rt := RefRuntime.runtime)
              Examples.later "bob" "m1" "bob" Examples.store1 Examples.meeting1
              store1_meeting) _).
    vm_compute. reflexivity.
  - refine (proj1 (proj2 (remove_participant_authorization (rt := RefRuntime.runtime)
              Examples.later "carol" "m1" "bob" Examples.store1 Examples.meeting1
              store1_meeting)) (proj2 (proj2 meeting1_owner)) _).
    discriminate.
  - refine (proj1 (proj1 (proj2 (proj2 (remove_participant_authorization
              (rt := RefRuntime.runtime)
              Examples.later "alice" "m1" "carol" Examples.store1 Examples.meeting1
              store1_meeting)) (or_introl (proj1 meeting1_owner))) [JStr "bob"] _)
              (proj1 (proj2 bob_only))).
    reflexivity.
  - refine (proj2 (proj1 (proj2 (proj2 (remove_participant_authorization
              (rt := RefRuntime.runtime)
              Examples.later "alice" "m1" "bob" Examples.store1 Examples.meeting1
              store1_meeting)) (or_introl (proj1 meeting1_owner))) [JStr "bob"] _)
              (proj1 bob_only)).
    reflexivity.
  - refine (proj1 (proj1 (proj2 (proj2 (proj2 (remove_participant_authorization
              (rt := RefRuntime.runtime)
              Examples.later "carol" "m1" "dave" Scenarios.loose_store
              Scenarios.loose_record loose_store_record))
              (or_introl (proj1 loose_record_owner)))) "alice,bob"
              (proj1 loose_record_facts)) _).
    reflexivity.
  - refine (proj2 (proj1 (proj2 (proj2 (proj2 (remove_participant_authorization
              (rt := RefRuntime.runtime)
              Examples.later "carol" "m1" "bob" Scenarios.loose_store
              Scenarios.loose_record loose_store_record))
              (or_introl (proj1 loose_record_owner)))) "alice,bob"
              (proj1 loose_record_facts)) _ _); [discriminate | reflexivity].
  - refine (proj2 (proj2 (proj2 (proj2 (remove_participant_authorization
              (rt := RefRuntime.runtime)
              Examples.later "carol" "m1" "bob" Scenarios.counted_store
              Scenarios.counted_record counted_store_record))
              (or_introl (proj1 counted_record_facts))))
              (FJson (JNum (S754_finite false 5 0)))
              (proj1 (proj2 (proj2 counted_record_facts))) _ _); reflexivity.
Defined.

(** C7 as stated fails: on the meeting carol created with the number 5 as
    [participants], dave, who is neither its creator nor a participant, is
    answered 500, not 403; on the one she created with the string
    [alice,bob], the caller [ali], who is neither, is answered 200. *)
Lemma get_outside_the_sequence :
  Scenarios.counted_store !! "m1" = Some Scenarios.counted_record
  ∧ ¬ owned_by "dave" Scenarios.counted_record
  ∧ Scenarios.counted_record !! "participants"
    = Some (FJson (JNum (S754_finite false 5 0)))
  ∧ status (response_of
      (get_meeting (rt := RefRuntime.runtime) "dave" "m1" Scenarios.counted_store))
    = 500%nat
  ∧ Scenarios.loose_store !! "m1" = Some Scenarios.loose_record
  ∧ ¬ owned_by "ali" Scenarios.loose_record
  ∧ Scenarios.loose_record !! "participants" = Some (FJson (JStr "alice,bob"))
  ∧ status (response_of
      (get_meeting (rt := RefRuntime.runtime) "ali" "m1" Scenarios.loose_store))
    = 200%nat.
Proof.
  split; [exact counted_store_record|].
  split; [exact (proj1 (proj2 counted_record_facts))|].
  split; [reflexivity|].
  split; [vm_compute; reflexivity|].
  split; [exact loose_store_record|].
  split; [exact (proj1 (proj2 loose_record_owner))|].
  split; [reflexivity|].
  vm_compute. reflexivity.
Qed.

Lemma get_meeting_access_witness :
  get_meeting (rt := RefRuntime.runtime) "alice" "m9" Examples.store1
    = ({| status := 404; body := BError "Meeting not found" None |}, Examples.store1)
  ∧ get_meeting (rt := RefRuntime.runtime) "carol" "m1" Examples.store1
    = ({| status := 403; body := BError "Access denied" None |}, Examples.store1)
  ∧ get_meeting (rt := RefRuntime.runtime) "dave" "m1" Scenarios.loose_store
    = ({| status := 403; body := BError "Access denied" None |}, Scenarios.loose_store)
  ∧ get_meeting (rt := RefRuntime.runtime) "ali" "m1" Scenarios.loose_store
    = ({| status := 200; body := BRecord (rendered "m1" Scenarios.loose_record) |},
       Scenarios.loose_store)
  ∧ (status (response_of
       (get_meeting (rt := RefRuntime.runtime) "dave" "m1" Scenarios.counted_store))
     = 500%nat
     ∧ store_after
         (get_meeting (rt := RefRuntime.runtime) "dave" "m1" Scenarios.counted_store)
       = Scenarios.counted_store)
  ∧ ∃ m,
      get_meeting (rt := RefRuntime.runtime) "bob" "m1" Examples.store1
        = ({| status := 200; body := BRecord m |}, Examples.store1)
      ∧ m !! "createdAt" = Some (FJson (JStr "2024-05-01T10:00:00.123Z"))
      ∧ m !! "updatedAt" = Some (FJson (JStr "2024-05-01T10:00:00.123Z"))
      ∧ m !! "title" = Examples.meeting1 !! "title"
      ∧ m !! "id" = Some (FJson (JStr "m1")).
Proof.
  split; [|split; [|split; [|split; [|split]]]].
  - refine (proj1 (get_meeting_access (rt := RefRuntime.runtime)
              "alice" "m9" Examples.store1) _).
    vm_compute. reflexivity.
  - exact (proj1 (proj2 (proj1 (proj2 (get_meeting_access (rt := RefRuntime.runtime)
             "carol" "m1" Examples.store1)) Examples.meeting1
             store1_meeting (proj2 (proj2 meeting1_owner))))
             [JStr "bob"] (proj2 meeting1_participants) (proj1 (proj2 bob_only))).
  - refine (proj1 (proj1 (proj2 (proj2 (proj1 (proj2 (get_meeting_access
             (rt := RefRuntime.runtime) "dave" "m1" Scenarios.loose_store))
             Scenarios.loose_record loose_store_record
             (proj2 (proj2 loose_record_owner)))))
             "alice,bob" (proj1 loose_record_facts)) _).
    reflexivity.
  - refine (proj2 (proj1 (proj2 (proj2 (proj1 (proj2 (get_meeting_access
             (rt := RefRuntime.runtime) "ali" "m1" Scenarios.loose_store))
             Scenarios.loose_record loose_store_record
             (proj1 (proj2 loose_record_owner)))))
             "alice,bob" (proj1 loose_record_facts)) _
             (proj1 (proj2 loose_record_facts))).
    reflexivity.
  - refine (proj2 (proj2 (proj2 (proj1 (proj2 (get_meeting_access
             (rt := RefRuntime.runtime) "dave" "m1" Scenarios.counted_store))
             Scenarios.counted_record counted_store_record
             (proj1 (proj2 counted_record_facts)))))
             (FJson (JNum (S754_finite false 5 0)))
             (proj1 (proj2 (proj2 counted_record_facts))) _ _);
      [discriminate | reflexivity].
  - destruct (proj2 (proj2 (get_meeting_access (rt := RefRuntime.runtime)
                "bob" "m1" Examples.store1)) Examples.meeting1
                1714557600123 1714557600123 store1_meeting)
      as (m & Hget & Hc & Hu & Hk & Hid).
    + right. exists [JStr "bob"]. split; [reflexivity | left].
    + reflexivity.
    + reflexivity.
    + exists m. split; [exact Hget|]. split; [exact Hc|]. split; [exact Hu|].
      split; [refine (Hk "title" _ _ _); discriminate|].
      apply Hid. reflexivity.
Defined.

Lemma lists_exact_witness :
  ∃ owned joined : list (string * Doc),
    list_owned "alice" Examples.shared
      = ({| status := 200;
            body := BMeetings (List.map (fun kv => rendered kv.1 kv.2) owned) |},
         Examples.shared)
    ∧ list_participating "alice" Examples.shared
      = ({| status := 200;
            body := BMeetings (List.map (fun kv => rendered kv.1 kv.2) joined) |},
         Examples.shared)
    ∧ NoDup owned.*1 ∧ NoDup joined.*1
    ∧ (∀ id d, (id, d) ∈ owned ↔ Examples.shared !! id = Some d ∧ owned_by "alice" d)
    ∧ (∀ id d, (id, d) ∈ joined
               ↔ Examples.shared !! id = Some d ∧ participating "alice" d)
    ∧ (∀ id d, Examples.shared !! id = Some d → owned_by "alice" d →
               participating "alice" d → (id, d) ∈ owned ∧ (id, d) ∈ joined).
Proof. exact (lists_exact "alice" Examples.shared shared_stamped). Defined.

Lemma remove_participant_filters_witness :
  ∃ d items kept,
    Examples.store3 !! "m1" = Some d
    ∧ d !! "participants" = Some (FJson (JArr items))
    ∧ kept = filter (fun x => x ≠ JStr "bob") items
    ∧ body (response_of
        (remove_participant (rt := RefRuntime.runtime) Examples.later "alice" "m1" "bob"
           Examples.store3))
      = BSuccess "Participant removed successfully" (PParticipants kept)
    ∧ (store_after
         (remove_participant (rt := RefRuntime.runtime) Examples.later "alice" "m1" "bob"
            Examples.store3) !! "m1")
        ≫= (.!! "participants")
      = Some (FJson (JArr kept))
    ∧ (JStr "bob" ∉ kept)
    ∧ (kept `sublist_of` items)
    ∧ (∀ x, x ∈ items → x ≠ JStr "bob" → x ∈ kept).
Proof.
  refine (remove_participant_filters (rt := RefRuntime.runtime)
            Examples.later "alice" "m1" "bob" Examples.store3 _).
  vm_compute. reflexivity.
Defined.

(** * Beyond the claims: the middleware, and how the handlers compose *)

(** ** The authentication middleware *)

Lemma bearer_needs_space (s : string) :
  String.prefix "Bearer " s = true → String.get 6 s = Some " "%char.
Proof.
  intros H. apply String.prefix_correct in H.
  pose proof (String.substring_correct1 s 0 7 6) as Hget.
  simpl in H, Hget. rewrite <- Hget by lia. by rewrite H.
Qed.

Lemma space_free_get (a : string) n :
  space_free a = true → String.get n a ≠ Some " "%char.
Proof.
  revert n. induction a as [|c a IH]; intros n Hfree; simpl; [by destruct n|].
  simpl in Hfree. apply andb_true_iff in Hfree as [Hc Ha].
  destruct n as [|n]; [|by apply IH].
  intros [= ->]. discriminate Hc.
Qed.

Lemma get_app (a r : string) n :
  String.get n (a +:+ r)
  = if decide (n < String.length a)%nat then String.get n a
    else String.get (n - String.length a) r.
Proof.
  revert n. induction a as [|c a IH]; intros n.
  - change ("" +:+ r) with r. change (String.length "") with 0%nat.
    destruct (decide (n < 0)%nat); [lia|]. by rewrite Nat.sub_0_r.
  - change (String c a +:+ r) with (String c (a +:+ r)).
    change (String.length (String c a)) with (S (String.length a)).
    destruct n as [|n].
    + destruct (decide (0 < S (String.length a))%nat); [done|lia].
    + change (String.get (S n) (String c (a +:+ r))) with (String.get n (a +:+ r)).
      rewrite IH. change (String.get (S n) (String c a)) with (String.get n a).
      change (S n - S (String.length a))%nat with (n - String.length a)%nat.
      destruct (decide (n < String.length a)%nat), (decide (S n < S (String.length a))%nat);
        try done; lia.
Qed.

Lemma no_bearer_inside (a rest : string) :
  a ≠ "" → space_free a = true → token_end rest →
  String.prefix "Bearer " (a +:+ rest) = false.
Proof.
  intros Hne Hfree Hrest.
  destruct (String.prefix "Bearer " (a +:+ rest)) eqn:Hp; [|done].
  apply bearer_needs_space in Hp. rewrite get_app in Hp.
  case_decide as Hlen; [by apply space_free_get in Hp|].
  exfalso.
  assert (0 < String.length a)%nat by (destruct a; [done | simpl; lia]).
  destruct Hrest as [-> | [b ->]].
  - by destruct (6 - String.length a)%nat.
  - remember (6 - String.length a)%nat as k.
    assert (k < 6)%nat by lia.
    do 6 (destruct k as [|k]; [discriminate Hp|]). lia.
Qed.

Lemma append_empty_r (s : string) : s +:+ "" = s.
Proof.
  induction s as [|c s IH]; [done|].
  change (String c s +:+ "") with (String c (s +:+ "")). by rewrite IH.
Qed.

Lemma append_char_l (piece : string) c (a : string) :
  (piece +:+ String c "") +:+ a = piece +:+ String c a.
Proof.
  induction piece as [|c' p IH]; [done|].
  change ((String c' p +:+ String c "") +:+ a)
    with (String c' ((p +:+ String c "") +:+ a)).
  by rewrite IH.
Qed.

Lemma js_split_token (a rest piece : string) :
  space_free a = true → token_end rest →
  js_split_from "Bearer " (a +:+ rest) 0 piece
  = js_split_from "Bearer " rest 0 (piece +:+ a).
Proof.
  revert piece. induction a as [|c a IH]; intros piece Hfree Hrest.
  - by rewrite append_empty_r.
  - assert (String.prefix "Bearer " (String c a +:+ rest) = false) as Hno
      by (by apply no_bearer_inside).
    change (String c a +:+ rest) with (String c (a +:+ rest)) in *.
    cbn [js_split_from]. rewrite Hno.
    simpl in Hfree. apply andb_true_iff in Hfree as [_ Ha].
    rewrite IH by done. by rewrite append_char_l.
Qed.

Lemma prefix_empty (s : string) : String.prefix "" s = true.
Proof. by destruct s. Qed.

Lemma js_split_bearer_head (t piece : string) :
  js_split_from "Bearer " ("Bearer " +:+ t) 0 piece
  = piece :: js_split_from "Bearer " t 0 "".
Proof.
  change ("Bearer " +:+ t) with
    (String "B" (String "e" (String "a" (String "r" (String "e" (String "r"
       (String " " t))))))).
  cbn [js_split_from].
  assert (String.prefix "Bearer "
            (String "B" (String "e" (String "a" (String "r" (String "e" (String "r"
               (String " " t))))))) = true) as ->
    by (cbn; apply prefix_empty).
  reflexivity.
Qed.

Lemma bearer_token (a rest : string) :
  space_free a = true → token_end rest →
  js_split "Bearer " ("Bearer " +:+ a +:+ rest) !! 1%nat = Some a.
Proof.
  intros Hfree Hrest. unfold js_split.
  rewrite js_split_bearer_head, js_split_token by done.
  change ("" +:+ a) with a.
  destruct Hrest as [-> | [b ->]]; [reflexivity|].
  by rewrite js_split_bearer_head.
Qed.

Section GateFacts.
Variable verifyIdToken : string → option string.
Variable handler : string → Store → Response * Store.

(** X1.  Without a header that starts with [Bearer ], a protected route
    answers 401 and the handler is not run. *)
Theorem gate_rejects_without_bearer (authorization : option string) (store : Store) :
  authorization = None
  ∨ (∃ h, authorization = Some h ∧ String.prefix "Bearer " h = false) →
  protected verifyIdToken authorization handler store
  = (unauthorized "Unauthorized - Missing or invalid token format", store).
Proof.
  intros [-> | (h & -> & Hp)]; [reflexivity|].
  unfold protected, authenticateUser. rewrite Hp. simpl.
  by rewrite orb_true_r.
Qed.

Lemma authenticate_bearer (a rest : string) :
  space_free a = true → token_end rest →
  authenticateUser verifyIdToken (Some ("Bearer " +:+ a +:+ rest))
  = match verifyIdToken a with
    | Some uid => inr uid
    | None => inl (unauthorized "Unauthorized - Invalid token")
    end.
Proof.
  intros Hfree Hrest. unfold authenticateUser.
  rewrite (bearer_token a rest Hfree Hrest).
  change ("Bearer " +:+ a +:+ rest) with
    (String "B" (String "e" (String "a" (String "r" (String "e" (String "r"
       (String " " (a +:+ rest)))))))).
  cbn [String.eqb String.prefix]. rewrite prefix_empty. reflexivity.
Qed.

(** X2.  With the header [Bearer <token>], the token having no space, the
    verifier decides: a rejected token is answered 401 with the handler not
    run, an accepted one runs the handler as the decoded [uid]. *)
Theorem gate_follows_verifier (token : string) (store : Store) :
  space_free token = true →
  protected verifyIdToken (Some ("Bearer " +:+ token)) handler store
  = match verifyIdToken token with
    | Some uid => handler uid store
    | None => (unauthorized "Unauthorized - Invalid token", store)
    end.
Proof.
  intros Hfree. unfold protected.
  rewrite <- (append_empty_r token) at 1.
  rewrite (authenticate_bearer token "" Hfree (or_introl eq_refl)).
  by destruct (verifyIdToken token).
Qed.

(** X3.  What follows a second [Bearer ] in the header is dropped: the
    verifier is asked about the text between the first and the second. *)
Theorem gate_token_stops_at_next_bearer (token more : string) (store : Store) :
  space_free token = true →
  protected verifyIdToken (Some ("Bearer " +:+ token +:+ "Bearer " +:+ more)) handler store
  = protected verifyIdToken (Some ("Bearer " +:+ token)) handler store.
Proof.
  intros Hfree. unfold protected.
  rewrite (authenticate_bearer token ("Bearer " +:+ more) Hfree
             (or_intror (ex_intro _ more eq_refl))).
  rewrite <- (append_empty_r token) at 2.
  by rewrite (authenticate_bearer token "" Hfree (or_introl eq_refl)).
Qed.

End GateFacts.

(** ** The handlers, one request after another *)

Section MoreFacts.
Context {rt : Runtime}.
Implicit Types (env : Env) (uid id pid : string) (body : Fields)
  (store : Store) (d : Doc).

Lemma create_accepted env uid body store title t :
  truthy_value (body !! "title") = Some title →
  requested_date env body t →
  store !! auto_id env = None →
  create_meeting env uid body store
  = (let read :=
       match truthy_value (body !! "date") with
       | Some _ => 0%nat
       | None => 1%nat
       end in
     ({| status := 201;
         body := BSuccess "Meeting created successfully" (PMeeting
           (<["updatedAt" := FJson (JStr (toISOString (wall_clock env (S read))))]>
           (<["createdAt" := FJson (JStr (toISOString (wall_clock env read)))]>
           (with_id (auto_id env)
              (delete "updatedAt" (delete "createdAt"
                 (created_record env uid body title t))))))) |},
      <[auto_id env := created_record env uid body title t]> store)).
Proof.
  intros Ht Hd Hfresh.
  unfold create_meeting, try_catch, create_meeting_body.
  rewrite Ht.
  assert (match truthy_value (body !! "date") with
          | Some date => new_Date date
          | None => ValidDate (wall_clock env 0)
          end = ValidDate t) as ->.
  { destruct Hd as [[Hf ->] | (date & Hb & Htr & Hn)].
    - by rewrite (truthy_value_None _ Hf).
    - by rewrite (truthy_value_Some _ _ Hb Htr). }
  unfold mbind, handler_bind, collection_add. rewrite Hfresh. simpl.
  unfold created_record, spread_values.
  rewrite !fmap_insert, fmap_empty. reflexivity.
Qed.

Lemma created_record_lookup env uid body title t k :
  created_record env uid body title t !! k
  = if decide (k = "title") then Some (FJson title)
    else if decide (k = "date") then Some (FJson (JStr (toISOString t)))
    else if decide (k = "location") then
      Some (FJson (or_default (body !! "location") (JStr "")))
    else if decide (k = "notes") then Some (FJson (or_default (body !! "notes") (JStr "")))
    else if decide (k = "participants") then
      Some (FJson (or_default (body !! "participants") (JArr [])))
    else if decide (k = "createdBy") then Some (FJson (JStr uid))
    else if decide (k = "createdAt") then Some (FTimestamp (server_time env))
    else if decide (k = "updatedAt") then Some (FTimestamp (server_time env))
    else None.
Proof.
  unfold created_record. rewrite !lookup_insert, lookup_empty.
  repeat case_decide; congruence.
Qed.

(** X4.  An accepted create stores a record of exactly eight fields: the
    title and the date of the request, [location], [notes] and
    [participants] as supplied or their defaults, the caller as
    [createdBy] and the store's time as both timestamps; nothing else of
    the body is stored. *)
Theorem create_stores_caller_and_defaults env uid body store title t :
  body !! "title" = Some title → truthy title = true →
  requested_date env body t →
  store !! auto_id env = None →
  ∃ d,
    status (response_of (create_meeting env uid body store)) = 201%nat
    ∧ store_after (create_meeting env uid body store) = <[auto_id env := d]> store
    ∧ d !! "title" = Some (FJson title)
    ∧ d !! "date" = Some (FJson (JStr (toISOString t)))
    ∧ d !! "location" = Some (FJson (or_default (body !! "location") (JStr "")))
    ∧ d !! "notes" = Some (FJson (or_default (body !! "notes") (JStr "")))
    ∧ d !! "participants" = Some (FJson (or_default (body !! "participants") (JArr [])))
    ∧ d !! "createdBy" = Some (FJson (JStr uid))
    ∧ d !! "createdAt" = Some (FTimestamp (server_time env))
    ∧ d !! "updatedAt" = Some (FTimestamp (server_time env))
    ∧ (∀ k, k ∉ ["title"; "date"; "location"; "notes"; "participants"; "createdBy";
                  "createdAt"; "updatedAt"] → d !! k = None).
Proof.
  intros Hb Ht Hd Hfresh.
  pose proof (truthy_value_Some _ _ Hb Ht) as Htitle.
  rewrite (create_accepted env uid body store title t Htitle Hd Hfresh).
  exists (created_record env uid body title t).
  do 10 (split; [reflexivity|]).
  intros k Hk. rewrite created_record_lookup.
  rewrite !not_elem_of_cons in Hk.
  destruct Hk as (? & ? & ? & ? & ? & ? & ? & ? & _).
  repeat case_decide; congruence.
Qed.

(** X5.  The creator reads back what was created: a Get of the new
    identifier by the caller of an accepted create is answered 200 with the
    stored title, date and creator, the identifier, and the store's time
    rendered for both timestamps. *)
Theorem create_then_get env uid body store title t :
  body !! "title" = Some title → truthy title = true →
  requested_date env body t →
  store !! auto_id env = None →
  ∃ m,
    get_meeting uid (auto_id env) (store_after (create_meeting env uid body store))
    = ({| status := 200; body := BRecord m |},
       store_after (create_meeting env uid body store))
    ∧ m !! "id" = Some (FJson (JStr (auto_id env)))
    ∧ m !! "title" = Some (FJson title)
    ∧ m !! "date" = Some (FJson (JStr (toISOString t)))
    ∧ m !! "createdBy" = Some (FJson (JStr uid))
    ∧ m !! "createdAt" = Some (FJson (JStr (toISOString (server_time env))))
    ∧ m !! "updatedAt" = Some (FJson (JStr (toISOString (server_time env)))).
Proof.
  intros Hb Ht Hd Hfresh.
  pose proof (truthy_value_Some _ _ Hb Ht) as Htitle.
  rewrite (create_accepted env uid body store title t Htitle Hd Hfresh).
  unfold store_after. simpl.
  set (d := created_record env uid body title t).
  exists (rendered (auto_id env) d). split.
  - apply get_creator.
    + apply lookup_insert_eq.
    + apply is_creator_owned. unfold owned_by, d. by rewrite created_record_lookup.
    + exact (proj1 (created_record_stamped env uid body title t)).
  - rewrite !rendered_lookup. unfold d. rewrite !created_record_lookup. simpl.
    repeat split.
Qed.

(** X6.  An identifier that is not in the collection is answered 404 by
    Update, Delete and Remove-Participant of both servers, and by
    Add-Participant when the request names a participant; the collection
    stays as it was. *)
Theorem unknown_meeting_not_found env uid id pid body store :
  store !! id = None →
  update_meeting env uid id body store
    = ({| status := 404; body := BError "Meeting not found" None |}, store)
  ∧ delete_meeting uid id store
    = ({| status := 404; body := BError "Meeting not found" None |}, store)
  ∧ remove_participant env uid id pid store
    = ({| status := 404; body := BError "Meeting not found" None |}, store)
  ∧ IndexJs.update_meeting env uid id body store
    = ({| status := 404; body := BError "Meeting not found" None |}, store)
  ∧ IndexJs.delete_meeting uid id store
    = ({| status := 404; body := BError "Meeting not found" None |}, store)
  ∧ (truthy_opt (body !! "participantId") = true →
     add_participant env uid id body store
     = ({| status := 404; body := BError "Meeting not found" None |}, store)).
Proof.
  intros H.
  split; [by apply update_not_found|]. split; [by apply delete_not_found|].
  split; [by apply remove_not_found|].
  split; [unfold IndexJs.update_meeting, IndexJs.update_meeting_body; exec; by rewrite H|].
  split; [unfold IndexJs.delete_meeting, IndexJs.delete_meeting_body; exec; by rewrite H|].
  intros Hp. apply truthy_value_opt in Hp as (p & _ & _ & Hp).
  by apply (add_not_found env uid id body store p).
Qed.

(** X7.  A Delete by the creator is answered 200 and takes the record, and
    only it, out of the collection; after it a Get or a second Delete of
    the identifier is answered 404. *)
Theorem delete_removes_the_record uid other id store d :
  store !! id = Some d →
  owned_by uid d →
  delete_meeting uid id store
    = ({| status := 200; body := BSuccess "Meeting deleted successfully" PNone |},
       delete id store)
  ∧ delete id store !! id = None
  ∧ (∀ id', id' ≠ id → delete id store !! id' = store !! id')
  ∧ status (response_of (get_meeting other id (delete id store))) = 404%nat
  ∧ status (response_of (delete_meeting uid id (delete id store))) = 404%nat.
Proof.
  intros H Ho. apply is_creator_owned in Ho.
  split; [by apply (delete_done uid id store d)|].
  split; [apply lookup_delete_eq|].
  split; [intros id' Hne; by apply lookup_delete_ne|].
  split.
  - by rewrite (get_not_found other id _ (lookup_delete_eq store id)).
  - by rewrite (delete_not_found uid id _ (lookup_delete_eq store id)).
Qed.

Lemma create_effect_fresh env uid body store :
  store_after (create_meeting env uid body store) = store
  ∨ (store !! auto_id env = None
     ∧ ∃ title t,
         store_after (create_meeting env uid body store)
         = <[auto_id env := created_record env uid body title t]> store).
Proof.
  destruct (store !! auto_id env) eqn:Hfresh.
  - left. unfold create_meeting, create_meeting_body, store_after, try_catch.
    destruct (truthy_value (body !! "title")) as [title|]; [|done].
    destruct (match truthy_value (body !! "date") with
              | Some date => new_Date date
              | None => ValidDate (wall_clock env 0)
              end) as [err| |t]; [done|done|].
    unfold mbind, handler_bind, collection_add. by rewrite Hfresh.
  - destruct (create_effect env uid body store) as [? | ?]; [by left | by right].
Qed.

(** X8.  A writing request changes no record but the one it addresses (for
    a create, the one it adds). *)
Theorem writes_touch_one_record (r : Request) store id :
  id ≠ target r → serve store r !! id = store !! id.
Proof.
  intros Hne.
  destruct r as [env uid body | env uid id0 body | uid id0
                | env uid id0 body | env uid id0 pid]; simpl in *.
  - destruct (create_effect env uid body store) as [-> | (title & t & ->)]; [done|].
    by rewrite lookup_insert_ne.
  - destruct (update_effect env uid id0 body store) as [-> | (d & date & _ & ->)];
      [done|]. by rewrite lookup_insert_ne.
  - destruct (delete_effect uid id0 store) as [-> | ->]; [done|].
    by rewrite lookup_delete_ne.
  - destruct (add_participant_effect env uid id0 body store)
      as [-> | (d & ps & _ & ->)]; [done|]. by rewrite lookup_insert_ne.
  - destruct (remove_participant_effect env uid id0 pid store)
      as [-> | (d & ps & _ & ->)]; [done|]. by rewrite lookup_insert_ne.
Qed.

(** X9.  No request changes the creator or the creation time of a record
    that it leaves in the collection. *)
Theorem creator_never_changes (r : Request) store id d d' :
  store !! id = Some d →
  serve store r !! id = Some d' →
  d' !! "createdBy" = d !! "createdBy" ∧ d' !! "createdAt" = d !! "createdAt".
Proof.
  intros H H'.
  destruct r as [env uid body | env uid id0 body | uid id0
                | env uid id0 body | env uid id0 pid]; simpl in *.
  - destruct (create_effect_fresh env uid body store)
      as [Heq | (Hfresh & title & t & Heq)]; rewrite Heq in H'.
    + by simplify_eq.
    + destruct (decide (id = auto_id env)) as [-> | Hne]; [congruence|].
      rewrite lookup_insert_ne in H' by done. by simplify_eq.
  - destruct (update_effect env uid id0 body store) as [Heq | (d0 & date & H0 & Heq)];
      rewrite Heq in H'; [by simplify_eq|].
    destruct (decide (id = id0)) as [-> | Hne].
    + rewrite lookup_insert_eq in H'. simplify_eq.
      rewrite !updated_record_lookup. by repeat case_decide.
    + rewrite lookup_insert_ne in H' by done. by simplify_eq.
  - destruct (delete_effect uid id0 store) as [Heq | Heq]; rewrite Heq in H';
      [by simplify_eq|].
    destruct (decide (id = id0)) as [-> | Hne].
    + by rewrite lookup_delete_eq in H'.
    + rewrite lookup_delete_ne in H' by done. by simplify_eq.
  - destruct (add_participant_effect env uid id0 body store)
      as [Heq | (d0 & ps & H0 & Heq)]; rewrite Heq in H'; [by simplify_eq|].
    destruct (decide (id = id0)) as [-> | Hne].
    + rewrite lookup_insert_eq in H'. simplify_eq.
      rewrite !with_participants_lookup. by repeat case_decide.
    + rewrite lookup_insert_ne in H' by done. by simplify_eq.
  - destruct (remove_participant_effect env uid id0 pid store)
      as [Heq | (d0 & ps & H0 & Heq)]; rewrite Heq in H'; [by simplify_eq|].
    destruct (decide (id = id0)) as [-> | Hne].
    + rewrite lookup_insert_eq in H'. simplify_eq.
      rewrite !with_participants_lookup. by repeat case_decide.
    + rewrite lookup_insert_ne in H' by done. by simplify_eq.
Qed.

Lemma with_participants_creator env (ps : list Json) d uid :
  is_creator (with_participants env ps d) uid = is_creator d uid.
Proof.
  unfold is_creator, where_eq. by rewrite with_participants_lookup.
Qed.

Lemma with_participants_of env (ps : list Json) d :
  participants_of (with_participants env ps d) = Some ps
  ∧ with_participants env ps d !! "participants" = Some (FJson (JArr ps)).
Proof.
  unfold participants_of. by rewrite with_participants_lookup.
Qed.

Lemma js_filter_absent p (items : list Json) :
  JStr p ∉ items →
  List.filter (fun x => negb (strict_equals_string x p)) items = items.
Proof.
  induction items as [|x rest IH]; [done|].
  rewrite not_elem_of_cons. intros [Hx Hrest]. simpl.
  destruct (strict_equals_string x p) eqn:E.
  - apply strict_equals_string_spec in E. congruence.
  - simpl. by rewrite IH.
Qed.

Lemma js_filter_app p (items : list Json) :
  JStr p ∉ items →
  List.filter (fun x => negb (strict_equals_string x p)) (items ++ [JStr p]) = items.
Proof.
  intros Hp. rewrite List.filter_app, (js_filter_absent p items Hp). simpl.
  rewrite String.eqb_refl. simpl. apply app_nil_r.
Qed.

Lemma includes_appended p (items : list Json) :
  existsb (same_value_zero (JStr p)) (items ++ [JStr p]) = true.
Proof. apply includes_string, elem_of_app. right. left. Qed.

Lemma truthy_string_value body p :
  body !! "participantId" = Some (JStr p) → p ≠ "" →
  truthy_value (body !! "participantId") = Some (JStr p).
Proof.
  intros Hb Hne. apply truthy_value_Some; [done|]. simpl.
  by apply negb_true_iff, String.eqb_neq.
Qed.

(** X11.  Removing a participant that was just added gives the participants
    back as they were: the Remove is answered 200 with the earlier
    sequence, which is also what is stored. *)
Theorem add_then_remove env env' uid id body store d items p :
  store !! id = Some d → owned_by uid d →
  participants_of d = Some items → JStr p ∉ items →
  body !! "participantId" = Some (JStr p) → p ≠ "" →
  response_of
    (remove_participant env' uid id p
       (store_after (add_participant env uid id body store)))
  = {| status := 200;
       body := BSuccess "Participant removed successfully" (PParticipants items) |}
  ∧ (store_after
       (remove_participant env' uid id p
          (store_after (add_participant env uid id body store))) !! id)
      ≫= (.!! "participants")
    = Some (FJson (JArr items)).
Proof.
  intros H Ho Hps Hin Hb Hne. apply is_creator_owned in Ho.
  pose proof (truthy_string_value body p Hb Hne) as Hp.
  apply not_includes_string in Hin as Hin'.
  rewrite (add_appended env uid id body store d _ items Hp H Ho (participants_of_or_empty _ _ Hps) Hin').
  unfold store_after, response_of. simpl.
  rewrite (remove_done env' uid id p _ (with_participants env (items ++ [JStr p]) d)
             (items ++ [JStr p])).
  - rewrite js_filter_app by done. simpl.
    split; [done|]. rewrite lookup_insert_eq. simpl.
    by rewrite with_participants_lookup.
  - apply lookup_insert_eq.
  - left. by rewrite with_participants_creator.
  - apply participants_of_or_empty, with_participants_of.
  - apply includes_appended.
Qed.

(** X12.  Adding the same participant a second time is answered 400 and
    leaves the collection as the first Add left it. *)
Theorem add_twice_rejected env env' uid id body store d items p :
  store !! id = Some d → owned_by uid d →
  participants_of d = Some items → JStr p ∉ items →
  body !! "participantId" = Some (JStr p) → p ≠ "" →
  add_participant env' uid id body (store_after (add_participant env uid id body store))
  = ({| status := 400; body := BError "Participant already added to meeting" None |},
     store_after (add_participant env uid id body store)).
Proof.
  intros H Ho Hps Hin Hb Hne. apply is_creator_owned in Ho.
  pose proof (truthy_string_value body p Hb Hne) as Hp.
  apply not_includes_string in Hin as Hin'.
  rewrite (add_appended env uid id body store d _ items Hp H Ho (participants_of_or_empty _ _ Hps) Hin').
  unfold store_after. simpl.
  apply (add_present env' uid id body _ (with_participants env (items ++ [JStr p]) d)
           (JStr p) (items ++ [JStr p]) Hp).
  - apply lookup_insert_eq.
  - by rewrite with_participants_creator.
  - apply participants_of_or_empty, with_participants_of.
  - apply includes_appended.
Qed.

(** X21.  The create of [src/index.js] is the create of the full server on
    the request without its [participants]. *)
Theorem index_create_drops_participants env uid body store :
  IndexJs.create_meeting env uid body store
  = create_meeting env uid (delete "participants" body) store.
Proof.
  unfold IndexJs.create_meeting, create_meeting, IndexJs.create_meeting_body,
    create_meeting_body.
  rewrite lookup_delete_eq, !lookup_delete_ne by done.
  reflexivity.
Qed.

(** X22.  The update of [src/index.js] is the update of the full server on
    the request without its [participants]. *)
Theorem index_update_drops_participants env uid id body store :
  IndexJs.update_meeting env uid id body store
  = update_meeting env uid id (delete "participants" body) store.
Proof.
  unfold IndexJs.update_meeting, update_meeting, IndexJs.update_meeting_body,
    update_meeting_body, update_date.
  rewrite lookup_delete_eq, !lookup_delete_ne by done.
  reflexivity.
Qed.

(** X16.  When [participants] holds a string instead of a sequence, Get
    answers 200 to every caller whose identity occurs inside that string. *)
Theorem get_reads_string_participants uid id store d (names : string) :
  store !! id = Some d →
  d !! "participants" = Some (FJson (JStr names)) →
  is_substring uid names = true →
  stamped d →
  get_meeting uid id store
  = ({| status := 200; body := BRecord (rendered id d) |}, store).
Proof.
  intros H Hp Hsub Hst. unfold get_meeting, get_meeting_body. exec.
  rewrite H. destruct (is_creator d uid); simpl;
    rewrite ?Hp; simpl; rewrite ?Hsub; simpl;
    by rewrite (shape_stamped id d store Hst).
Qed.

(** X17.  On a record whose [participants] is a truthy value that is not a
    sequence, neither Add-Participant nor Remove-Participant succeeds or
    writes. *)
Theorem participant_changes_need_a_sequence env uid id pid body store d v :
  store !! id = Some d →
  d !! "participants" = Some v →
  fs_truthy v = true →
  (∀ items, v ≠ FJson (JArr items)) →
  status (response_of (add_participant env uid id body store)) ≠ 200%nat
  ∧ store_after (add_participant env uid id body store) = store
  ∧ status (response_of (remove_participant env uid id pid store)) ≠ 200%nat
  ∧ store_after (remove_participant env uid id pid store) = store.
Proof.
  intros H Hv Ht Hna.
  assert (fs_or_default (d !! "participants") (FJson (JArr [])) = v) as Hor
    by (unfold fs_or_default; by rewrite Hv, Ht).
  split; [|split; [|split]].
  - unfold add_participant, add_participant_body, response_of, try_catch.
    destruct (truthy_value (body !! "participantId")) as [p|]; [|simpl; lia].
    unfold mbind, handler_bind, doc_get. rewrite H.
    destruct (is_creator d uid); simpl; [|lia]. rewrite Hor.
    destruct v as [[ | | | s | items | ]|]; simpl; try lia.
    + destruct (ToString p) as [err|needle]; simpl; [lia|].
      destruct (is_substring needle s); simpl; lia.
    + by destruct (Hna items).
  - unfold add_participant, add_participant_body, store_after, try_catch.
    destruct (truthy_value (body !! "participantId")) as [p|]; [|done].
    unfold mbind, handler_bind, doc_get. rewrite H.
    destruct (is_creator d uid); simpl; [|done]. rewrite Hor.
    destruct v as [[ | | | s | items | ]|]; simpl; try done.
    + destruct (ToString p) as [err|needle]; [done|].
      by destruct (is_substring needle s).
    + by destruct (Hna items).
  - intros Hok. apply remove_success_inv in Hok as (d0 & items & H0 & _ & Hp & _).
    simplify_eq. by destruct (Hna items).
  - unfold remove_participant, remove_participant_body, store_after, try_catch.
    unfold mbind, handler_bind, doc_get. rewrite H.
    destruct (negb (is_creator d uid) && negb (uid =? pid)%string); [done|].
    rewrite Hor.
    destruct v as [[ | | | s | items | ]|]; simpl; try done.
    + by destruct (is_substring pid s).
    + by destruct (Hna items).
Qed.

(** X15.  A participant who removes themselves, and did not create the
    meeting, could read it before and is answered 403 after. *)
Theorem remove_self_loses_access env uid id store d items :
  store !! id = Some d → ¬ owned_by uid d →
  participants_of d = Some items → JStr uid ∈ items →
  stamped d →
  status (response_of (get_meeting uid id store)) = 200%nat
  ∧ status (response_of (remove_participant env uid id uid store)) = 200%nat
  ∧ status (response_of
      (get_meeting uid id (store_after (remove_participant env uid id uid store))))
    = 403%nat.
Proof.
  intros H Hno Hps Hin Hst.
  apply not_owned_not_creator in Hno.
  apply includes_string in Hin as Hin'.
  assert (d !! "participants" = Some (FJson (JArr items))) as Hfield.
  { unfold participants_of in Hps.
    destruct (d !! "participants") as [[[]|]|]; simplify_eq; try done.
    all: by apply elem_of_nil in Hin. }
  split; [by rewrite (get_participant uid id store d items H Hfield Hin' Hst)|].
  rewrite (remove_done env uid id uid store d items H (or_intror eq_refl) (participants_of_or_empty _ _ Hps) Hin').
  unfold response_of, store_after. simpl. split; [done|].
  rewrite (get_forbidden uid id _
             (with_participants env
                (List.filter (fun p => negb (strict_equals_string p uid)) items) d)
             (List.filter (fun p => negb (strict_equals_string p uid)) items)).
  - done.
  - apply lookup_insert_eq.
  - by rewrite with_participants_creator.
  - apply with_participants_of.
  - apply not_includes_string. rewrite js_filter_other_than, list_elem_of_filter. tauto.
Qed.

(** X14.  An Add-Participant opens the meeting to the participant it
    adds: once an addition that names a string is answered 200, on a
    record carrying its timestamps, the Get of the added user is answered
    200, whatever the record held.  Before the addition, when the stored
    [participants] is absent or an array, that user's Get was answered 403
    unless they created the meeting. *)
Theorem add_grants_read env uid id body store d p :
  store !! id = Some d → stamped d →
  body !! "participantId" = Some (JStr p) →
  status (response_of (add_participant env uid id body store)) = 200%nat →
  status (response_of
      (get_meeting p id (store_after (add_participant env uid id body store))))
    = 200%nat
  ∧ (¬ owned_by p d →
     (d !! "participants" = None
      ∨ ∃ items, d !! "participants" = Some (FJson (JArr items))) →
     status (response_of (get_meeting p id store)) = 403%nat).
Proof.
  intros H Hst Hb Hok.
  destruct (add_success_inv env uid id body store Hok)
    as (d0 & p0 & items & Hp & H0 & Hc & Hps & Hin).
  assert (d0 = d) as -> by congruence.
  assert (p0 = JStr p) as ->.
  { unfold truthy_value in Hp. rewrite Hb in Hp.
    destruct (truthy (JStr p)); by simplify_eq. }
  split.
  - rewrite (add_appended env uid id body store d _ items Hp H Hc Hps Hin).
    unfold store_after. simpl.
    rewrite (get_participant p id _ (with_participants env (items ++ [JStr p]) d)
               (items ++ [JStr p])).
    + done.
    + apply lookup_insert_eq.
    + apply with_participants_of.
    + apply includes_appended.
    + by apply with_participants_stamped.
  - intros Hnop Hfield. apply not_owned_not_creator in Hnop.
    destruct Hfield as [Hnone | [items' Harr]].
    + by rewrite (get_unlisted p id store d H Hnop (or_introl Hnone)).
    + assert (participants_of d = Some items') as Hof
        by (unfold participants_of; by rewrite Harr).
      assert (items' = items) as ->.
      { apply participants_of_or_empty in Hof. congruence. }
      by rewrite (get_forbidden p id store d items H Hnop Hof Hin).
Qed.



(** X10.  A record enters the collection only by a Create, under the
    identifier the store drew, and leaves it only by a Delete of its
    creator. *)
Theorem records_come_and_go (r : Request) store id :
  (store !! id = None → is_Some (serve store r !! id) →
     ∃ env uid body, r = Create env uid body ∧ id = auto_id env)
  ∧ (∀ d, store !! id = Some d → serve store r !! id = None →
       ∃ uid, r = Delete uid id ∧ owned_by uid d).
Proof.
  split.
  - intros Hnone [d' H'].
    destruct r as [env uid body | env uid id0 body | uid id0
                  | env uid id0 body | env uid id0 pid]; simpl in *.
    + destruct (create_effect env uid body store) as [Heq | (title & t & Heq)];
        rewrite Heq in H'; [congruence|].
      destruct (decide (id = auto_id env)) as [-> | Hne]; [by eauto|].
      rewrite lookup_insert_ne in H' by done. congruence.
    + destruct (update_effect env uid id0 body store) as [Heq | (d0 & date & H0 & Heq)];
        rewrite Heq in H'; [congruence|].
      destruct (decide (id = id0)) as [-> | Hne]; [congruence|].
      rewrite lookup_insert_ne in H' by done. congruence.
    + destruct (delete_effect uid id0 store) as [Heq | Heq]; rewrite Heq in H';
        [congruence|].
      destruct (decide (id = id0)) as [-> | Hne];
        [by rewrite lookup_delete_eq in H'|].
      rewrite lookup_delete_ne in H' by done. congruence.
    + destruct (add_participant_effect env uid id0 body store)
        as [Heq | (d0 & ps & H0 & Heq)]; rewrite Heq in H'; [congruence|].
      destruct (decide (id = id0)) as [-> | Hne]; [congruence|].
      rewrite lookup_insert_ne in H' by done. congruence.
    + destruct (remove_participant_effect env uid id0 pid store)
        as [Heq | (d0 & ps & H0 & Heq)]; rewrite Heq in H'; [congruence|].
      destruct (decide (id = id0)) as [-> | Hne]; [congruence|].
      rewrite lookup_insert_ne in H' by done. congruence.
  - intros d H H'.
    destruct r as [env uid body | env uid id0 body | uid id0
                  | env uid id0 body | env uid id0 pid]; simpl in *.
    + destruct (create_effect env uid body store) as [Heq | (title & t & Heq)];
        rewrite Heq in H'; [congruence|].
      destruct (decide (id = auto_id env)) as [-> | Hne];
        [by rewrite lookup_insert_eq in H'|].
      rewrite lookup_insert_ne in H' by done. congruence.
    + destruct (update_effect env uid id0 body store) as [Heq | (d0 & date & H0 & Heq)];
        rewrite Heq in H'; [congruence|].
      destruct (decide (id = id0)) as [-> | Hne];
        [by rewrite lookup_insert_eq in H'|].
      rewrite lookup_insert_ne in H' by done. congruence.
    + destruct (store !! id0) as [d0|] eqn:H0;
        [|rewrite (delete_not_found uid id0 store H0) in H'; simpl in H'; congruence].
      destruct (is_creator d0 uid) eqn:Hc;
        [|rewrite (delete_forbidden uid id0 store d0 H0 Hc) in H'; simpl in H';
          congruence].
      rewrite (delete_done uid id0 store d0 H0 Hc) in H'. simpl in H'.
      destruct (decide (id = id0)) as [-> | Hne].
      * exists uid. split; [done|]. simplify_eq. by apply is_creator_owned.
      * rewrite lookup_delete_ne in H' by done. congruence.
    + destruct (add_participant_effect env uid id0 body store)
        as [Heq | (d0 & ps & H0 & Heq)]; rewrite Heq in H'; [congruence|].
      destruct (decide (id = id0)) as [-> | Hne];
        [by rewrite lookup_insert_eq in H'|].
      rewrite lookup_insert_ne in H' by done. congruence.
    + destruct (remove_participant_effect env uid id0 pid store)
        as [Heq | (d0 & ps & H0 & Heq)]; rewrite Heq in H'; [congruence|].
      destruct (decide (id = id0)) as [-> | Hne];
        [by rewrite lookup_insert_eq in H'|].
      rewrite lookup_insert_ne in H' by done. congruence.
Qed.

End MoreFacts.

(** ** The scenarios, evaluated *)


Lemma meeting1_stamped : stamped Examples.meeting1.
Proof. split; eexists; reflexivity. Qed.


Lemma add_dave_to_bob :
  Examples.store1 !! "m1" = Some Examples.meeting1
  ∧ owned_by "alice" Examples.meeting1
  ∧ participants_of Examples.meeting1 = Some [JStr "bob"]
  ∧ (JStr "dave" ∉ [JStr "bob"])
  ∧ Scenarios.add_dave !! "participantId" = Some (JStr "dave")
  ∧ "dave" ≠ ""
  ∧ ¬ owned_by "dave" Examples.meeting1.
Proof.
  split; [exact store1_meeting|]. split; [exact (proj1 meeting1_owner)|].
  split; [reflexivity|].
  split; [intros H; apply list_elem_of_singleton in H; discriminate H|].
  split; [reflexivity|]. split; [discriminate|].
  intros H. vm_compute in H. discriminate H.
Qed.

(** ** Witnesses *)

Lemma gate_rejects_without_bearer_witness :
  protected Scenarios.verify None Scenarios.whoami Examples.store1
    = (unauthorized "Unauthorized - Missing or invalid token format", Examples.store1)
  ∧ protected Scenarios.verify (Some "Basic dG9rZW4=") Scenarios.whoami Examples.store1
    = (unauthorized "Unauthorized - Missing or invalid token format", Examples.store1).
Proof.
  split.
  - refine (gate_rejects_without_bearer Scenarios.verify Scenarios.whoami None
              Examples.store1 _).
    left. reflexivity.
  - refine (gate_rejects_without_bearer Scenarios.verify Scenarios.whoami
              (Some "Basic dG9rZW4=") Examples.store1 _).
    right. exists "Basic dG9rZW4=". split; reflexivity.
Defined.

Lemma gate_follows_verifier_witness :
  protected Scenarios.verify (Some ("Bearer " +:+ "token-of-alice")) Scenarios.whoami
    Examples.store1
  = match Scenarios.verify "token-of-alice" with
    | Some uid => Scenarios.whoami uid Examples.store1
    | None => (unauthorized "Unauthorized - Invalid token", Examples.store1)
    end.
Proof.
  refine (gate_follows_verifier Scenarios.verify Scenarios.whoami "token-of-alice"
            Examples.store1 _).
  reflexivity.
Defined.

Lemma gate_token_stops_at_next_bearer_witness :
  protected Scenarios.verify
    (Some ("Bearer " +:+ "token-of-alice" +:+ "Bearer " +:+ "anything else"))
    Scenarios.whoami Examples.store1
  = protected Scenarios.verify (Some ("Bearer " +:+ "token-of-alice")) Scenarios.whoami
      Examples.store1.
Proof.
  refine (gate_token_stops_at_next_bearer Scenarios.verify Scenarios.whoami
            "token-of-alice" "anything else" Examples.store1 _).
  reflexivity.
Defined.

Lemma gate_known :
  protected Scenarios.verify (Some "Bearer token-of-alice") Scenarios.whoami Examples.store1
    = ({| status := 200; body := BSuccess "alice" PNone |}, Examples.store1)
  ∧ protected Scenarios.verify (Some "Bearer token-of-bob") Scenarios.whoami Examples.store1
    = (unauthorized "Unauthorized - Invalid token", Examples.store1)
  ∧ protected Scenarios.verify (Some "bearer token-of-alice") Scenarios.whoami
      Examples.store1
    = (unauthorized "Unauthorized - Missing or invalid token format", Examples.store1)
  ∧ protected Scenarios.verify (Some "Bearer ") Scenarios.whoami Examples.store1
    = (unauthorized "Unauthorized - Invalid token", Examples.store1)
  ∧ protected Scenarios.verify (Some "") Scenarios.whoami Examples.store1
    = (unauthorized "Unauthorized - Missing or invalid token format", Examples.store1).
Proof. repeat split. Qed.

Lemma retro_request :
  Scenarios.retro !! "title" = Some (JStr "Retro")
  ∧ truthy (JStr "Retro") = true
  ∧ requested_date (rt := RefRuntime.runtime) Examples.later Scenarios.retro 1717200000000
  ∧ Examples.store1 !! auto_id Examples.later = None.
Proof.
  split; [reflexivity|]. split; [reflexivity|]. split; [|vm_compute; reflexivity].
  right. exists (JStr "2024-06-01"). repeat split.
Qed.

Lemma create_stores_caller_and_defaults_witness :
  ∃ d,
    status (response_of
      (create_meeting (rt := RefRuntime.runtime) Examples.later "carol" Scenarios.retro
         Examples.store1)) = 201%nat
    ∧ store_after
        (create_meeting (rt := RefRuntime.runtime) Examples.later "carol" Scenarios.retro
           Examples.store1) = <["m2" := d]> Examples.store1
    ∧ d !! "title" = Some (FJson (JStr "Retro"))
    ∧ d !! "date" = Some (FJson (JStr "2024-06-01T00:00:00.000Z"))
    ∧ d !! "location" = Some (FJson (JStr ""))
    ∧ d !! "participants" = Some (FJson (JArr []))
    ∧ d !! "createdBy" = Some (FJson (JStr "carol"))
    ∧ d !! "createdAt" = Some (FTimestamp 1714561200456)
    ∧ d !! "admin" = None.
Proof.
  destruct (create_stores_caller_and_defaults (rt := RefRuntime.runtime)
              Examples.later "carol" Scenarios.retro Examples.store1
              (JStr "Retro") 1717200000000
              (proj1 retro_request) (proj1 (proj2 retro_request))
              (proj1 (proj2 (proj2 retro_request))) (proj2 (proj2 (proj2 retro_request))))
    as (d & H1 & H2 & H3 & H4 & H5 & _ & H7 & H8 & H9 & _ & Hnone).
  exists d.
  split; [exact H1|]. split; [exact H2|]. split; [exact H3|]. split; [exact H4|].
  split; [exact H5|]. split; [exact H7|]. split; [exact H8|]. split; [exact H9|].
  apply Hnone. intros Hin.
  repeat (apply elem_of_cons in Hin as [Hin | Hin]; [discriminate Hin|]).
  by apply elem_of_nil in Hin.
Defined.

Lemma create_then_get_witness :
  ∃ m,
    get_meeting (rt := RefRuntime.runtime) "carol" (auto_id Examples.later)
      (store_after
         (create_meeting (rt := RefRuntime.runtime) Examples.later "carol" Scenarios.retro
            Examples.store1))
    = ({| status := 200; body := BRecord m |},
       store_after
         (create_meeting (rt := RefRuntime.runtime) Examples.later "carol" Scenarios.retro
            Examples.store1))
    ∧ m !! "id" = Some (FJson (JStr "m2"))
    ∧ m !! "title" = Some (FJson (JStr "Retro"))
    ∧ m !! "date" = Some (FJson (JStr "2024-06-01T00:00:00.000Z"))
    ∧ m !! "createdBy" = Some (FJson (JStr "carol"))
    ∧ m !! "createdAt" = Some (FJson (JStr "2024-05-01T11:00:00.456Z"))
    ∧ m !! "updatedAt" = Some (FJson (JStr "2024-05-01T11:00:00.456Z")).
Proof.
  exact (create_then_get (rt := RefRuntime.runtime)
           Examples.later "carol" Scenarios.retro Examples.store1
           (JStr "Retro") 1717200000000
           (proj1 retro_request) (proj1 (proj2 retro_request))
           (proj1 (proj2 (proj2 retro_request))) (proj2 (proj2 (proj2 retro_request)))).
Defined.

Lemma unknown_meeting_not_found_witness :
  update_meeting (rt := RefRuntime.runtime) Examples.later "alice" "m9"
    Examples.only_location Examples.store1
    = ({| status := 404; body := BError "Meeting not found" None |}, Examples.store1)
  ∧ delete_meeting "alice" "m9" Examples.store1
    = ({| status := 404; body := BError "Meeting not found" None |}, Examples.store1).
Proof.
  destruct (unknown_meeting_not_found (rt := RefRuntime.runtime)
              Examples.later "alice" "m9" "bob" Examples.only_location Examples.store1)
    as (Hu & Hd & _); [vm_compute; reflexivity|].
  exact (conj Hu Hd).
Defined.

Lemma delete_removes_the_record_witness :
  delete_meeting "alice" "m1" Examples.store1
    = ({| status := 200; body := BSuccess "Meeting deleted successfully" PNone |},
       delete "m1" Examples.store1)
  ∧ delete "m1" Examples.store1 !! "m1" = None
  ∧ (∀ id', id' ≠ "m1" → delete "m1" Examples.store1 !! id' = Examples.store1 !! id')
  ∧ status (response_of
      (get_meeting (rt := RefRuntime.runtime) "bob" "m1" (delete "m1" Examples.store1)))
    = 404%nat
  ∧ status (response_of (delete_meeting "alice" "m1" (delete "m1" Examples.store1)))
    = 404%nat.
Proof.
  exact (delete_removes_the_record (rt := RefRuntime.runtime) "alice" "bob" "m1"
           Examples.store1 Examples.meeting1 store1_meeting (proj1 meeting1_owner)).
Defined.

Lemma two_records :
  Scenarios.two !! "m1" = Some Examples.meeting1
  ∧ Scenarios.two !! "m2" = Some Scenarios.retro_record.
Proof. split; vm_compute; reflexivity. Qed.

Lemma writes_touch_one_record_witness :
  serve (rt := RefRuntime.runtime) Scenarios.two (Delete "alice" "m1") !! "m2"
  = Scenarios.two !! "m2".
Proof.
  refine (writes_touch_one_record (rt := RefRuntime.runtime) (Delete "alice" "m1")
            Scenarios.two "m2" _).
  discriminate.
Defined.

Lemma takeover_served :
  serve (rt := RefRuntime.runtime) Examples.store1
    (Update Examples.later "alice" "m1" Scenarios.takeover) !! "m1"
  = Some Scenarios.taken_record.
Proof. vm_compute. reflexivity. Qed.

Lemma creator_never_changes_witness :
  Scenarios.taken_record !! "createdBy" = Examples.meeting1 !! "createdBy"
  ∧ Scenarios.taken_record !! "createdAt" = Examples.meeting1 !! "createdAt".
Proof.
  exact (creator_never_changes (rt := RefRuntime.runtime)
           (Update Examples.later "alice" "m1" Scenarios.takeover) Examples.store1 "m1"
           Examples.meeting1 Scenarios.taken_record store1_meeting takeover_served).
Defined.

Lemma records_come_and_go_witness :
  (∃ env uid body,
      Create Examples.later "carol" Scenarios.retro = Create env uid body
      ∧ "m2" = auto_id env)
  ∧ (∃ uid, Delete "alice" "m1" = Delete uid "m1" ∧ owned_by uid Examples.meeting1).
Proof.
  split.
  - refine (proj1 (records_come_and_go (rt := RefRuntime.runtime)
              (Create Examples.later "carol" Scenarios.retro) Examples.store1 "m2") _ _).
    + vm_compute. reflexivity.
    + exists Scenarios.retro_record. vm_compute. reflexivity.
  - refine (proj2 (records_come_and_go (rt := RefRuntime.runtime)
              (Delete "alice" "m1") Examples.store1 "m1") Examples.meeting1
              store1_meeting _).
    vm_compute. reflexivity.
Defined.

Lemma add_then_remove_witness :
  response_of
    (remove_participant (rt := RefRuntime.runtime) Examples.later "alice" "m1" "dave"
       (store_after
          (add_participant (rt := RefRuntime.runtime) Examples.later "alice" "m1"
             Scenarios.add_dave Examples.store1)))
  = {| status := 200;
       body := BSuccess "Participant removed successfully"
                 (PParticipants [JStr "bob"]) |}
  ∧ (store_after
       (remove_participant (rt := RefRuntime.runtime) Examples.later "alice" "m1" "dave"
          (store_after
             (add_participant (rt := RefRuntime.runtime) Examples.later "alice" "m1"
                Scenarios.add_dave Examples.store1))) !! "m1")
      ≫= (.!! "participants")
    = Some (FJson (JArr [JStr "bob"])).
Proof.
  destruct add_dave_to_bob as (H & Ho & Hps & Hin & Hb & Hne & _).
  exact (add_then_remove (rt := RefRuntime.runtime) Examples.later Examples.later
           "alice" "m1" Scenarios.add_dave Examples.store1 Examples.meeting1
           [JStr "bob"] "dave" H Ho Hps Hin Hb Hne).
Defined.

Lemma add_twice_rejected_witness :
  add_participant (rt := RefRuntime.runtime) Examples.later "alice" "m1" Scenarios.add_dave
    (store_after
       (add_participant (rt := RefRuntime.runtime) Examples.later "alice" "m1"
          Scenarios.add_dave Examples.store1))
  = ({| status := 400; body := BError "Participant already added to meeting" None |},
     store_after
       (add_participant (rt := RefRuntime.runtime) Examples.later "alice" "m1"
          Scenarios.add_dave Examples.store1)).
Proof.
  destruct add_dave_to_bob as (H & Ho & Hps & Hin & Hb & Hne & _).
  exact (add_twice_rejected (rt := RefRuntime.runtime) Examples.later Examples.later
           "alice" "m1" Scenarios.add_dave Examples.store1 Examples.meeting1
           [JStr "bob"] "dave" H Ho Hps Hin Hb Hne).
Defined.

Lemma add_participant_keeps_distinct_witness :
  ∃ d' items',
    store_after
      (add_participant (rt := RefRuntime.runtime) Examples.later "alice" "m1"
         Scenarios.add_dave Examples.store1) !! "m1" = Some d'
    ∧ participants_of d' = Some items'
    ∧ NoDup items'.
Proof.
  destruct add_dave_to_bob as (H & _ & Hps & _ & Hb & _).
  refine (add_participant_keeps_distinct (rt := RefRuntime.runtime) Examples.later
            "alice" "m1" Scenarios.add_dave Examples.store1 Examples.meeting1
            [JStr "bob"] "dave" H Hps _ Hb).
  apply NoDup_singleton.
Defined.

Lemma add_grants_read_witness :
  status (response_of
      (get_meeting (rt := RefRuntime.runtime) "dave" "m1"
         (store_after
            (add_participant (rt := RefRuntime.runtime) Examples.later "alice" "m1"
               Scenarios.add_dave Examples.store1))))
    = 200%nat
  ∧ status (response_of
      (get_meeting (rt := RefRuntime.runtime) "dave" "m1" Examples.store1)) = 403%nat.
Proof.
  destruct add_dave_to_bob as (H & Ho & Hps & Hin & Hb & Hne & Hno).
  assert (status (response_of
            (add_participant (rt := RefRuntime.runtime) Examples.later "alice" "m1"
               Scenarios.add_dave Examples.store1)) = 200%nat) as Hok
    by (vm_compute; reflexivity).
  destruct (add_grants_read (rt := RefRuntime.runtime) Examples.later "alice" "m1"
              Scenarios.add_dave Examples.store1 Examples.meeting1 "dave"
              H meeting1_stamped Hb Hok) as [Hafter Hbefore].
  split; [exact Hafter|].
  apply Hbefore; [exact Hno|].
  right. exists [JStr "bob"]. reflexivity.
Defined.

Lemma remove_self_loses_access_witness :
  status (response_of
    (get_meeting (rt := RefRuntime.runtime) "bob" "m1" Examples.store1)) = 200%nat
  ∧ status (response_of
      (remove_participant (rt := RefRuntime.runtime) Examples.later "bob" "m1" "bob"
         Examples.store1)) = 200%nat
  ∧ status (response_of
      (get_meeting (rt := RefRuntime.runtime) "bob" "m1"
         (store_after
            (remove_participant (rt := RefRuntime.runtime) Examples.later "bob" "m1" "bob"
               Examples.store1))))
    = 403%nat.
Proof.
  exact (remove_self_loses_access (rt := RefRuntime.runtime) Examples.later "bob" "m1"
           Examples.store1 Examples.meeting1 [JStr "bob"] store1_meeting
           (proj1 (proj2 meeting1_owner)) (proj1 meeting1_participants)
           (proj1 bob_only) meeting1_stamped).
Defined.

Lemma get_reads_string_participants_witness :
  get_meeting (rt := RefRuntime.runtime) "ali" "m1" Scenarios.loose_store
  = ({| status := 200; body := BRecord (rendered "m1" Scenarios.loose_record) |},
     Scenarios.loose_store).
Proof.
  refine (get_reads_string_participants (rt := RefRuntime.runtime) "ali" "m1"
            Scenarios.loose_store Scenarios.loose_record "alice,bob" loose_store_record
            (proj1 loose_record_facts) _ (proj1 (proj2 loose_record_facts))).
  reflexivity.
Defined.

Lemma participant_changes_need_a_sequence_witness :
  status (response_of
    (add_participant (rt := RefRuntime.runtime) Examples.later "carol" "m1"
       Scenarios.add_dave Scenarios.loose_store)) ≠ 200%nat
  ∧ store_after
      (add_participant (rt := RefRuntime.runtime) Examples.later "carol" "m1"
         Scenarios.add_dave Scenarios.loose_store) = Scenarios.loose_store
  ∧ status (response_of
      (remove_participant (rt := RefRuntime.runtime) Examples.later "carol" "m1" "alice"
         Scenarios.loose_store)) ≠ 200%nat
  ∧ store_after
      (remove_participant (rt := RefRuntime.runtime) Examples.later "carol" "m1" "alice"
         Scenarios.loose_store) = Scenarios.loose_store.
Proof.
  exact (participant_changes_need_a_sequence (rt := RefRuntime.runtime) Examples.later
           "carol" "m1" "alice" Scenarios.add_dave Scenarios.loose_store
           Scenarios.loose_record (FJson (JStr "alice,bob")) loose_store_record
           (proj1 loose_record_facts) (proj1 (proj2 (proj2 loose_record_facts)))
           (proj2 (proj2 (proj2 loose_record_facts)))).
Defined.

(** On the string, Add answers 500 and Remove of a name inside it too. *)
Lemma loose_participants_known :
  status (response_of
    (add_participant (rt := RefRuntime.runtime) Examples.later "carol" "m1"
       Scenarios.add_dave Scenarios.loose_store)) = 500%nat
  ∧ status (response_of
      (remove_participant (rt := RefRuntime.runtime) Examples.later "carol" "m1" "alice"
         Scenarios.loose_store)) = 500%nat
  ∧ status (response_of
      (remove_participant (rt := RefRuntime.runtime) Examples.later "carol" "m1" "dave"
         Scenarios.loose_store)) = 400%nat.
Proof. repeat split; vm_compute; reflexivity. Qed.

